(** * VaultAI: the retrieval-augmented answering core and its rate limiter

    A shallow embedding of [app/services/rate_limiter.py] and
    [app/services/rag_service.py] (with [AIService.count_tokens] from
    [app/services/ai_service.py]), followed by the properties of the
    specification that were checked against it.  Further on: the batched
    embeddings of [app/services/ai_service.py], the chunking of
    [app/services/document_processor.py], the in-memory index of the RAG
    service, and the two question endpoints of [app/api/chat.py] on the
    database session of [app/database.py].

    Conventions of the embedding:
    - a Python [float] is a primitive binary64 float, compared with the IEEE
      comparisons ([<] is [PrimFloat.ltb], [>=] is the flipped [PrimFloat.leb]);
    - a Python [int] is a [Z]; [len] results are converted with [Z.of_nat];
    - a Python [str] is a [string], one character per code point;
    - [None] is [None]; truthiness ([if x], [x or y]) is written out;
    - a raised exception is an explicit [Raised] outcome;
    - calls that leave the process (rate limiter acquisition, embedding
      provider, chat model) are looked up in an environment and logged in a
      trace, in program order. *)

From Stdlib Require Import ZArith Lia List Bool String Ascii Floats Sorted DecimalString.
Import ListNotations.

Set Warnings "-register-all".

Open Scope string_scope.
Open Scope list_scope.
Open Scope Z_scope.

(* ================================================================== *)
(** * Python built-ins used by the two services *)
(* ================================================================== *)

Module Py.

(** ** Truthiness *)

(** [bool(x)] for an optional integer column: [None] and [0] are falsy. *)
Definition truthy_int (x : option Z) : bool :=
  match x with
  | None => false
  | Some n => negb (n =? 0)
  end.

(** [x or d] for an optional integer. *)
Definition or_int (x : option Z) (d : Z) : Z :=
  match x with
  | None => d
  | Some n => if n =? 0 then d else n
  end.

(** [bool(s)] for a string: the empty string is falsy. *)
Definition truthy_str (s : string) : bool :=
  match s with
  | EmptyString => false
  | String _ _ => true
  end.

(** [bool(x)] for an optional list: [None] and [[]] are falsy. *)
Definition truthy_list {A : Type} (x : option (list A)) : bool :=
  match x with
  | None => false
  | Some [] => false
  | Some (_ :: _) => true
  end.

(** ** Slices *)

(** [l[:stop]]: a negative [stop] counts from the end. *)
Definition slice_to {A : Type} (stop : Z) (l : list A) : list A :=
  if 0 <=? stop
  then firstn (Z.to_nat stop) l
  else firstn (Z.to_nat (Z.max 0 (Z.of_nat (List.length l) + stop))) l.

(** [l[start:]]: a negative [start] counts from the end; note [l[-0:]] is
    [l[0:]], the whole list. *)
Definition slice_from {A : Type} (start : Z) (l : list A) : list A :=
  if 0 <=? start
  then skipn (Z.to_nat start) l
  else skipn (Z.to_nat (Z.max 0 (Z.of_nat (List.length l) + start))) l.

(** [s[:n]] for a string and a literal [n >= 0]. *)
Definition str_slice_to (n : nat) (s : string) : string := substring 0 n s.

Definition len_str (s : string) : Z := Z.of_nat (String.length s).

(** ** Strings *)

Definition nl : string := String (ascii_of_nat 10) EmptyString.

(** [str(n)] for an integer. *)
Definition str_int (n : Z) : string := NilZero.string_of_int (Z.to_int n).

(** [sep.join(parts)]. *)
Fixpoint join (sep : string) (parts : list string) : string :=
  match parts with
  | [] => EmptyString
  | [p] => p
  | p :: rest => String.append p (String.append sep (join sep rest))
  end.

(** ** Sorting

    [list.sort] is stable.  [insert_by before x l] puts [x], which stood in
    front of every element of [l], after exactly the elements that must come
    strictly before it; [stable_sort] is the resulting stable sort.  For
    [l.sort(key=k, reverse=True)] the test [before y x] is [k x < k y]
    ([by_score_desc] below). *)

Fixpoint insert_by {A : Type} (before : A -> A -> bool) (x : A) (l : list A) : list A :=
  match l with
  | [] => [x]
  | y :: l' => if before y x then y :: insert_by before x l' else x :: l
  end.

Definition stable_sort {A : Type} (before : A -> A -> bool) (l : list A) : list A :=
  fold_right (insert_by before) [] l.

(** The test of [l.sort(key=score, reverse=True)] for a float key: [y] must
    come strictly before [x] when [score x < score y]. *)
Definition by_score_desc {A : Type} (score : A -> float) (y x : A) : bool :=
  PrimFloat.ltb (score x) (score y).

(** The order a stable descending sort by [score] leaves: [a] may stand
    before [b] when its score is at least as high and, on a tie, its earlier
    place [pos] is not behind. *)
Definition ranked_before {A : Type} (score : A -> float) (pos : A -> Z) (a b : A) : Prop :=
  PrimFloat.leb (score b) (score a) = true /\
  (PrimFloat.ltb (score b) (score a) = false -> pos a <= pos b).

(** [list(set(l))] for strings, each listed once, where it occurs last
    (Python leaves the order of a set unspecified). *)
Definition list_set (l : list string) : list string := nodup string_dec l.

End Py.

Infix "+++" := String.append (right associativity, at level 60).

(* ================================================================== *)
(** * The order of binary64 floats *)
(* ================================================================== *)

Module FloatOrder.

(** A NaN has no key; every other float is placed by (class, exponent,
    mantissa), negated for the negative ones. *)
Definition sf_key (f : spec_float) : option (Z * Z * Z) :=
  match f with
  | S754_nan => None
  | S754_infinity s => Some (if s then -2 else 2, 0, 0)
  | S754_zero _ => Some (0, 0, 0)
  | S754_finite s m e =>
      if s then Some (-1, - e, - Z.pos m) else Some (1, e, Z.pos m)
  end.

Definition key (x : float) : option (Z * Z * Z) := sf_key (Prim2SF x).

Definition lex_compare (a b : Z * Z * Z) : comparison :=
  let '(a1, a2, a3) := a in
  let '(b1, b2, b3) := b in
  match a1 ?= b1 with
  | Eq => match a2 ?= b2 with Eq => a3 ?= b3 | c => c end
  | c => c
  end.

Definition lex_lt (a b : Z * Z * Z) : Prop :=
  let '(a1, a2, a3) := a in
  let '(b1, b2, b3) := b in
  a1 < b1 \/ (a1 = b1 /\ (a2 < b2 \/ (a2 = b2 /\ a3 < b3))).

(** [x] is a number: [x >= x] holds exactly when [x] is not a NaN. *)
Definition is_number (x : float) : Prop := PrimFloat.leb x x = true.

End FloatOrder.

(* ================================================================== *)
(** * app/services/rate_limiter.py *)
(* ================================================================== *)

Module RateLimiter.

(** Time is counted in ticks of the clock behind [time.time()];
    [resolution] is the number of ticks in a second.  [elapse n] is the time
    that passes before the [n]-th clock event of a run (a reading of
    [time.time()], or the overshoot of a [sleep]). *)
Record Clock := {
  resolution : Z;
  elapse : nat -> Z
}.

(** The limiter object together with the clock it reads. *)
Record State := {
  requests_per_minute : Z;
  window_size : Z;
  _request_times : list Z;      (* the deque, oldest first *)
  now : Z;                      (* the last clock value *)
  events : nat                  (* clock events so far *)
}.

Inductive exn := IndexError.

(** A method of the limiter: it raises or returns, and updates the state. *)
Definition L (A : Type) : Type := State -> (exn + A) * State.

Definition ret {A : Type} (a : A) : L A := fun s => (inr a, s).

Definition bind {A B : Type} (m : L A) (k : A -> L B) : L B :=
  fun s =>
    match m s with
    | (inl e, s') => (inl e, s')
    | (inr a, s') => k a s'
    end.

Notation "x <- m ;; k" := (bind m (fun x => k))
  (at level 61, m at next level, right associativity).
Notation "m ;;; k" := (bind m (fun _ => k))
  (at level 61, right associativity).

Definition raise {A : Type} (e : exn) : L A := fun s => (inl e, s).

Definition get : L State := fun s => (inr s, s).

Definition set_request_times (q : list Z) : L unit :=
  fun s => (inr tt,
            {| requests_per_minute := requests_per_minute s;
               window_size := window_size s;
               _request_times := q;
               now := now s;
               events := events s |}).

Section WithClock.
Variable clk : Clock.

(** [RateLimiter.__init__], started when the clock shows [t0]. *)
Definition init (rpm : Z) (t0 : Z) : State :=
  {| requests_per_minute := rpm;
     window_size := 60 * resolution clk;
     _request_times := [];
     now := t0;
     events := 0 |}.

(** [time.time()]. *)
Definition time_time : L Z :=
  fun s =>
    let t := now s + elapse clk (events s) in
    (inr t,
     {| requests_per_minute := requests_per_minute s;
        window_size := window_size s;
        _request_times := _request_times s;
        now := t;
        events := S (events s) |}).

(** [time.sleep(d)] and [await asyncio.sleep(d)]: at least [d] passes. *)
Definition sleep (d : Z) : L unit :=
  fun s =>
    (inr tt,
     {| requests_per_minute := requests_per_minute s;
        window_size := window_size s;
        _request_times := _request_times s;
        now := now s + d + elapse clk (events s);
        events := S (events s) |}).

(** The [while] loop of [_cleanup_old_requests]. *)
Fixpoint popleft_while_older (cutoff_time : Z) (q : list Z) : list Z :=
  match q with
  | [] => []
  | t :: q' => if t <? cutoff_time then popleft_while_older cutoff_time q' else q
  end.

Definition _cleanup_old_requests : L unit :=
  current_time <- time_time ;;
  s <- get ;;
  let cutoff_time := current_time - window_size s in
  set_request_times (popleft_while_older cutoff_time (_request_times s)).

Definition _get_wait_time : L Z :=
  _cleanup_old_requests ;;;
  s <- get ;;
  if Z.of_nat (List.length (_request_times s)) <? requests_per_minute s
  then ret 0
  else
    match _request_times s with
    | [] => raise IndexError
    | oldest_request :: _ =>
        t <- time_time ;;
        let wait_time := oldest_request + window_size s - t in
        ret (Z.max 0 wait_time)
    end.

Definition _record_request : L unit :=
  t <- time_time ;;
  s <- get ;;
  set_request_times (_request_times s ++ [t]).

(** [wait_sync]; the lock is held throughout and is not modelled. *)
Definition wait_sync : L unit :=
  wait_time <- _get_wait_time ;;
  (if 0 <? wait_time
   then sleep wait_time ;;; _cleanup_old_requests
   else ret tt) ;;;
  _record_request.

(** [wait_async]; for one caller at a time the locks change nothing. *)
Definition wait_async : L unit :=
  wait_time <- _get_wait_time ;;
  (if 0 <? wait_time
   then sleep wait_time ;;; _cleanup_old_requests
   else ret tt) ;;;
  _record_request.

(** The dictionary [get_current_usage] returns. *)
Record Usage := {
  usage_requests_in_window : Z;
  usage_requests_per_minute_limit : Z;
  usage_remaining_requests : Z;
  usage_window_size_seconds : Z
}.

Definition get_current_usage : L Usage :=
  _cleanup_old_requests ;;;
  s <- get ;;
  let current_count := Z.of_nat (List.length (_request_times s)) in
  ret {| usage_requests_in_window := current_count;
         usage_requests_per_minute_limit := requests_per_minute s;
         usage_remaining_requests := Z.max 0 (requests_per_minute s - current_count);
         usage_window_size_seconds := window_size s |}.

(** One acquisition, by either entry point. *)
Inductive Acquire := Sync | Async.

Definition acquire (a : Acquire) : L unit :=
  match a with
  | Sync => wait_sync
  | Async => wait_async
  end.

(** Acquisitions issued back to back. *)
Fixpoint acquire_all (calls : list Acquire) : L unit :=
  match calls with
  | [] => ret tt
  | a :: rest => acquire a ;;; acquire_all rest
  end.

(** The number of timestamps of [q] newer than [t]. *)
Definition newer_than (t : Z) (q : list Z) : Z :=
  Z.of_nat (List.length (filter (fun x => t <? x) q)).

(** Every clock event finds the clock later than the one before. *)
Definition clock_advances : Prop := forall n, 0 < elapse clk n.

(** What holds of the limiter between two acquisitions. *)
Definition well_formed (rpm : Z) (s : State) : Prop :=
  requests_per_minute s = rpm /\
  window_size s = 60 * resolution clk /\
  StronglySorted Z.le (_request_times s) /\
  Forall (fun t => t <= now s) (_request_times s) /\
  newer_than (now s - window_size s) (_request_times s) <= rpm.

(** The number of recorded timestamps newer than [now - window_size]. *)
Definition requests_in_window (s : State) : Z :=
  newer_than (now s - window_size s) (_request_times s).

End WithClock.

End RateLimiter.

(* ================================================================== *)
(** * app/services/rag_service.py *)
(* ================================================================== *)

Module RAG.

(** ** Data model (app/models) *)

(** A UUID, as the string [str(uuid)] prints. *)
Definition UUID := string.

Record DocumentChunk := {
  id : UUID;
  document_id : UUID;
  content : string;
  chunk_index : Z;
  page_number : option Z;
  embedding : option (list float);    (* JSON column, a list of floats *)
  token_count : option Z
}.

Record Document := {
  doc_id : UUID;
  filename : string
}.

Inductive MessageRole := USER | ASSISTANT | SYSTEM.

Record ChatMessage := {
  session_id : UUID;
  role : MessageRole;
  msg_content : string
}.

Record ChatSession := {
  sess_id : UUID;
  sess_document_id : UUID;
  context_window : Z
}.

(** [MessageRole.value]. *)
Definition role_value (r : MessageRole) : string :=
  match r with
  | USER => "user"
  | ASSISTANT => "assistant"
  | SYSTEM => "system"
  end.

(** langchain.schema.messages *)
Inductive Message :=
| HumanMessage (c : string)
| AIMessage (c : string)
| SystemMessage (c : string).

(** A citation dictionary; the multi-document path adds [document_id] and
    [document_name]. *)
Record Citation := {
  cit_chunk_id : string;
  cit_document : option (string * option string);
  content_snippet : string;
  cit_page_number : option Z;
  relevance_score : float
}.

(** A decoded JSON value. *)
Inductive json :=
| JNull
| JBool (b : bool)
| JInt (n : Z)
| JFloat (x : float)
| JStr (s : string)
| JArr (l : list json)
| JObj (l : list (string * json)).

(** The variables handed to [chain.ainvoke], by prompt template. *)
Inductive LlmRequest :=
| QaPrompt (include_citations : bool) (context question : string)
           (chat_history : list Message)
| FollowUpPrompt (context question answer : string)
| MultiDocPrompt (context question : string).

(** ** The world outside the service *)

Record Env := {
  (** [GoogleGenerativeAIEmbeddings.aembed_query]; [None]: the call raised. *)
  aembed_query : string -> option (list float);
  (** [ChatGoogleGenerativeAI] behind a prompt, giving [response.content];
      [None]: the call raised. *)
  ainvoke : LlmRequest -> option string;
  (** [json.loads]; [None]: it raised [JSONDecodeError]. *)
  json_loads : string -> option json;
  (** database tables *)
  document_chunks : list DocumentChunk;
  documents : list Document;
  chat_messages : list ChatMessage;     (* in order of [created_at] *)
  (** settings *)
  max_context_tokens : Z;
  chat_model : string
}.

Inductive exn :=
| ProviderError        (* raised by the embedding or chat provider *)
| ValueError           (* numpy: shapes not aligned *)
| TypeError
| JSONDecodeError.

Inductive Event :=
| EvWaitAsync                       (* [self._rate_limiter.wait_async()] *)
| EvEmbedQuery (query : string)     (* [self.embeddings.aembed_query] *)
| EvInvoke (req : LlmRequest).      (* [chain.ainvoke] *)

Inductive outcome (A : Type) :=
| Returned (a : A)
| Raised (e : exn).
Arguments Returned {A} a.
Arguments Raised {A} e.

(** A coroutine of the service: the calls it made, and how it ended. *)
Definition M (A : Type) : Type := list Event * outcome A.

Definition ret {A : Type} (a : A) : M A := ([], Returned a).

Definition bind {A B : Type} (m : M A) (k : A -> M B) : M B :=
  match m with
  | (tr, Raised e) => (tr, Raised e)
  | (tr, Returned a) => let (tr', r) := k a in (tr ++ tr', r)
  end.

Notation "x <- m ;; k" := (bind m (fun x => k))
  (at level 61, m at next level, right associativity).
Notation "m ;;; k" := (bind m (fun _ => k))
  (at level 61, right associativity).

Definition raise {A : Type} (e : exn) : M A := ([], Raised e).

Definition emit (ev : Event) : M unit := ([ev], Returned tt).

Definition lift {A : Type} (o : outcome A) : M A := ([], o).

(** [try: m  except Exception: return h]. *)
Definition try_except {A : Type} (m : M A) (h : A) : M A :=
  match m with
  | (tr, Raised _) => (tr, Returned h)
  | (tr, Returned a) => (tr, Returned a)
  end.

Definition trace {A : Type} (m : M A) : list Event := fst m.
Definition result {A : Type} (m : M A) : outcome A := snd m.

Definition is_wait (ev : Event) : bool :=
  match ev with EvWaitAsync => true | _ => false end.
Definition is_embed (ev : Event) : bool :=
  match ev with EvEmbedQuery _ => true | _ => false end.

(** How many rate limiter acquisitions, and how many query embedding calls,
    a trace holds. *)
Definition count_waits (tr : list Event) : nat := List.length (filter is_wait tr).
Definition count_embeds (tr : list Event) : nat := List.length (filter is_embed tr).

(** ** numpy *)

(** [np.dot(a, b)] for one-dimensional arrays: a [ValueError] for unequal
    lengths, else the sum of the products, here taken left to right with a
    rounding after every operation.  numpy may add in another order or with
    a fused multiply-add, so that its sum can differ from this one in the
    last bit. *)
Definition np_dot (a b : list float) : outcome float :=
  if Nat.eqb (List.length a) (List.length b)
  then Returned (fold_left (fun acc xy => PrimFloat.add acc (PrimFloat.mul (fst xy) (snd xy)))
                           (combine a b) PrimFloat.zero)
  else Raised ValueError.

(** [np.linalg.norm(a)]: the square root of [a.dot(a)]. *)
Definition np_linalg_norm (a : list float) : float :=
  PrimFloat.sqrt (fold_left (fun acc x => PrimFloat.add acc (PrimFloat.mul x x))
                            a PrimFloat.zero).

(** ** AIService.count_tokens: [len(text) // 4] *)
Definition count_tokens (text : string) : Z := Py.len_str text / 4.

Section Service.
Variable env : Env.

Definition wait_async : M unit := emit EvWaitAsync.

Definition embed_query (query : string) : M (list float) :=
  emit (EvEmbedQuery query) ;;;
  match aembed_query env query with
  | Some v => ret v
  | None => raise ProviderError
  end.

Definition llm_invoke (req : LlmRequest) : M string :=
  emit (EvInvoke req) ;;;
  match ainvoke env req with
  | Some content => ret content
  | None => raise ProviderError
  end.

(** [select(DocumentChunk).where(document_id == d).order_by(chunk_index)] *)
Definition select_chunks (d : UUID) : list DocumentChunk :=
  Py.stable_sort (fun y x => chunk_index y <? chunk_index x)
    (filter (fun c => String.eqb (document_id c) d) (document_chunks env)).

(** [select(Document.filename).where(Document.id == d)], then [.scalar()] *)
Definition select_filename (d : UUID) : option string :=
  match filter (fun doc => String.eqb (doc_id doc) d) (documents env) with
  | [] => None
  | doc :: _ => Some (filename doc)
  end.

(** [select(ChatMessage).where(session_id == s).order_by(created_at)] *)
Definition select_messages (s : UUID) : list ChatMessage :=
  filter (fun m => String.eqb (session_id m) s) (chat_messages env).

(** *** cosine_similarity *)
Definition cosine_similarity (vec1 vec2 : list float) : outcome float :=
  match np_dot vec1 vec2 with
  | Raised e => Raised e
  | Returned d =>
      Returned (PrimFloat.div d (PrimFloat.mul (np_linalg_norm vec1) (np_linalg_norm vec2)))
  end.

(** *** retrieve_relevant_chunks *)

(** The scoring loop.  [if chunk.embedding:] holds of a non-empty list, the
    first case below; [None] and [[]] are skipped. *)
Fixpoint score_chunks (query_embedding : list float) (similarity_threshold : float)
         (chunks : list DocumentChunk) (scored_chunks : list (DocumentChunk * float))
  : outcome (list (DocumentChunk * float)) :=
  match chunks with
  | [] => Returned scored_chunks
  | chunk :: rest =>
      match embedding chunk with
      | Some (x :: v) =>
          match cosine_similarity query_embedding (x :: v) with
          | Raised e => Raised e
          | Returned score =>
              if PrimFloat.leb similarity_threshold score
              then score_chunks query_embedding similarity_threshold rest
                     (scored_chunks ++ [(chunk, score)])
              else score_chunks query_embedding similarity_threshold rest scored_chunks
          end
      | _ => score_chunks query_embedding similarity_threshold rest scored_chunks
      end
  end.

(** [scored_chunks.sort(key=lambda x: x[1], reverse=True)] *)
Definition sort_by_score (l : list (DocumentChunk * float)) : list (DocumentChunk * float) :=
  Py.stable_sort (Py.by_score_desc snd) l.

Definition retrieve_relevant_chunks (doc : UUID) (query : string)
           (num_chunks : Z) (similarity_threshold : float)
  : M (list (DocumentChunk * float)) :=
  wait_async ;;;
  query_embedding <- embed_query query ;;
  let chunks := select_chunks doc in
  scored_chunks <- lift (score_chunks query_embedding similarity_threshold chunks []) ;;
  ret (Py.slice_to num_chunks (sort_by_score scored_chunks)).

(** *** retrieve_from_multiple_documents *)

Fixpoint retrieve_each (document_ids : list UUID) (query : string)
         (num_chunks_per_doc : Z) (similarity_threshold : float)
         (all_chunks : list (DocumentChunk * float * UUID))
  : M (list (DocumentChunk * float * UUID)) :=
  match document_ids with
  | [] => ret all_chunks
  | d :: rest =>
      chunks <- retrieve_relevant_chunks d query num_chunks_per_doc similarity_threshold ;;
      retrieve_each rest query num_chunks_per_doc similarity_threshold
        (all_chunks ++ map (fun cs => (fst cs, snd cs, d)) chunks)
  end.

(** [all_chunks.sort(key=lambda x: x[1], reverse=True)] *)
Definition sort_all_by_score (l : list (DocumentChunk * float * UUID))
  : list (DocumentChunk * float * UUID) :=
  Py.stable_sort (Py.by_score_desc (fun x => snd (fst x))) l.

Definition retrieve_from_multiple_documents (document_ids : list UUID) (query : string)
           (num_chunks_per_doc : Z) (similarity_threshold : float)
  : M (list (DocumentChunk * float * UUID)) :=
  all_chunks <- retrieve_each document_ids query num_chunks_per_doc similarity_threshold [] ;;
  ret (sort_all_by_score all_chunks).

(** *** build_context *)

(** [chunk.token_count or self.ai_service.count_tokens(chunk.content)] *)
Definition chunk_tokens (chunk : DocumentChunk) : Z :=
  Py.or_int (token_count chunk) (count_tokens (content chunk)).

(** The block appended to [context_parts]; [n] is [len(citations) + 1]. *)
Definition context_part (n : Z) (chunk : DocumentChunk) : string :=
  let page_ref :=
    if Py.truthy_int (page_number chunk)
    then " (Page " +++ match page_number chunk with
                      | Some p => Py.str_int p
                      | None => "None"
                      end +++ ")"
    else EmptyString in
  "[Source " +++ Py.str_int n +++ page_ref +++ "]:" +++ Py.nl +++ content chunk.

(** [chunk.content[:200] + "..." if len(chunk.content) > 200 else chunk.content] *)
Definition snippet (text : string) : string :=
  if 200 <? Py.len_str text
  then Py.str_slice_to 200 text +++ "..."
  else text.

Definition citation (chunk : DocumentChunk) (score : float) : Citation :=
  {| cit_chunk_id := id chunk;
     cit_document := None;
     content_snippet := snippet (content chunk);
     cit_page_number := page_number chunk;
     relevance_score := score |}.

(** The [for] loop, with its [break]. *)
Fixpoint build_context_loop (max_tokens : Z) (chunks : list (DocumentChunk * float))
         (context_parts : list string) (citations : list Citation) (current_tokens : Z)
  : list string * list Citation :=
  match chunks with
  | [] => (context_parts, citations)
  | (chunk, score) :: rest =>
      let chunk_tokens := chunk_tokens chunk in
      if max_tokens <? current_tokens + chunk_tokens
      then (context_parts, citations)
      else
        build_context_loop max_tokens rest
          (context_parts ++ [context_part (Z.of_nat (List.length citations) + 1) chunk])
          (citations ++ [citation chunk score])
          (current_tokens + chunk_tokens)
  end.

Definition build_context (chunks : list (DocumentChunk * float)) (max_tokens : option Z)
  : string * list Citation :=
  let max_tokens := Py.or_int max_tokens (max_context_tokens env) in
  let (context_parts, citations) := build_context_loop max_tokens chunks [] [] 0 in
  (Py.join (Py.nl +++ Py.nl) context_parts, citations).

(** *** build_chat_history *)

Fixpoint history_loop (recent_messages : list ChatMessage) (history : list Message)
  : list Message :=
  match recent_messages with
  | [] => history
  | msg :: rest =>
      let role := role_value (role msg) in
      if String.eqb role "user"
      then history_loop rest (history ++ [HumanMessage (msg_content msg)])
      else if String.eqb role "assistant"
      then history_loop rest (history ++ [AIMessage (msg_content msg)])
      else history_loop rest history
  end.

Definition build_chat_history (messages : list ChatMessage) (context_window : Z)
  : list Message :=
  let recent_messages :=
    if context_window * 2 <? Z.of_nat (List.length messages)
    then Py.slice_from (- context_window * 2) messages
    else messages in
  history_loop recent_messages [].

(** *** _generate_follow_up_questions *)

(** [questions[:3]] on whatever [json.loads] gave: a list or a string can be
    sliced, anything else raises. *)
Definition json_slice3 (questions : json) : outcome json :=
  match questions with
  | JArr l => Returned (JArr (Py.slice_to 3 l))
  | JStr s => Returned (JStr (Py.str_slice_to 3 s))
  | _ => Raised TypeError
  end.

Definition _generate_follow_up_questions (context question answer : string) : M json :=
  try_except
    (wait_async ;;;
     content <- llm_invoke (FollowUpPrompt (Py.str_slice_to 3000 context) question answer) ;;
     questions <- match json_loads env content with
                  | Some v => ret v
                  | None => raise JSONDecodeError
                  end ;;
     lift (json_slice3 questions))
    (JArr []).

(** *** answer_question

    The dictionary returned, without [response_time_ms] (wall-clock time). *)
Record Answer := {
  answer : string;
  citations : list Citation;
  suggestions : json;
  context_used : Z;
  prompt_tokens : Z;
  completion_tokens : Z;
  total_tokens : Z;
  model_used : string
}.

Definition answer_question (session : ChatSession) (question : string)
           (num_context_chunks : Z) (similarity_threshold : float)
           (include_citations include_suggestions : bool) : M Answer :=
  relevant_chunks <- retrieve_relevant_chunks (sess_document_id session) question
                       num_context_chunks similarity_threshold ;;
  let (context, citations) := build_context relevant_chunks None in
  let messages := select_messages (sess_id session) in
  let chat_history := build_chat_history messages (context_window session) in
  wait_async ;;;
  answer <- llm_invoke
              (QaPrompt include_citations
                 (if Py.truthy_str context then context
                  else "No relevant context found in the document.")
                 question chat_history) ;;
  suggestions <- (if include_suggestions && Py.truthy_str context
                  then _generate_follow_up_questions context question answer
                  else ret (JArr [])) ;;
  let prompt_tokens := count_tokens (context +++ question) in
  let completion_tokens := count_tokens answer in
  ret {| answer := answer;
         citations := if include_citations then citations else [];
         suggestions := suggestions;
         context_used := Z.of_nat (List.length relevant_chunks);
         prompt_tokens := prompt_tokens;
         completion_tokens := completion_tokens;
         total_tokens := prompt_tokens + completion_tokens;
         model_used := chat_model env |}.

(** *** answer_multi_document_question *)

Definition multi_context_part (filename : option string) (chunk : DocumentChunk) : string :=
  let page_ref :=
    if Py.truthy_int (page_number chunk)
    then ", Page " +++ match page_number chunk with
                      | Some p => Py.str_int p
                      | None => "None"
                      end
    else EmptyString in
  "[From: " +++ match filename with Some f => f | None => "None" end
    +++ page_ref +++ "]:" +++ Py.nl +++ content chunk.

Definition multi_citation (filename : option string) (chunk : DocumentChunk)
           (score : float) (doc : UUID) : Citation :=
  {| cit_chunk_id := id chunk;
     cit_document := Some (doc, filename);
     content_snippet := Py.str_slice_to 200 (content chunk) +++ "...";
     cit_page_number := page_number chunk;
     relevance_score := score |}.

Fixpoint multi_context_loop (chunks : list (DocumentChunk * float * UUID))
         (context_parts : list string) (citations : list Citation)
  : list string * list Citation :=
  match chunks with
  | [] => (context_parts, citations)
  | (chunk, score, doc) :: rest =>
      let filename := select_filename doc in
      multi_context_loop rest
        (context_parts ++ [multi_context_part filename chunk])
        (citations ++ [multi_citation filename chunk score doc])
  end.

(** The dictionary returned, without [response_time_ms]. *)
Record MultiAnswer := {
  multi_answer : string;
  multi_citations : list Citation;
  documents_used : list string
}.

(** The default of [similarity_threshold], 0.7 as a binary64 float. *)
Definition default_similarity_threshold : float := 0x1.6666666666666p-1%float.

Definition answer_multi_document_question (document_ids : list UUID) (question : string)
           (num_chunks_per_doc : Z) : M MultiAnswer :=
  all_chunks <- retrieve_from_multiple_documents document_ids question num_chunks_per_doc
                  default_similarity_threshold ;;
  let (context_parts, citations) :=
    multi_context_loop (Py.slice_to 10 all_chunks) [] [] in
  let context := Py.join (Py.nl +++ Py.nl) context_parts in
  wait_async ;;;
  content <- llm_invoke (MultiDocPrompt context question) ;;
  ret {| multi_answer := content;
         multi_citations := citations;
         documents_used :=
           Py.list_set
             (flat_map (fun c => match cit_document c with
                                 | Some (d, _) => [d]
                                 | None => []
                                 end) citations) |}.

End Service.

End RAG.

(* ================================================================== *)
(** * Vocabulary of the specification *)
(* ================================================================== *)

Module Spec.
Import RAG.

(** Every stored embedding that gets scored has the dimension of the query
    embedding (the data model's invariant on chunks). *)
Definition dims_match (q : list float) (chunks : list DocumentChunk) : Prop :=
  Forall (fun c => match embedding c with
                   | Some (x :: v) => List.length (x :: v) = List.length q
                   | _ => True
                   end) chunks.

(** A retrieved pair [(chunk, score)]: the chunk is one of [chunks], it has
    an embedding, [score] is its cosine similarity to the query embedding [q],
    and [score >= thr]. *)
Definition scored_from (q : list float) (thr : float) (chunks : list DocumentChunk)
           (cs : DocumentChunk * float) : Prop :=
  In (fst cs) chunks /\
  Py.truthy_list (embedding (fst cs)) = true /\
  (exists e, embedding (fst cs) = Some e /\ cosine_similarity q e = Returned (snd cs)) /\
  PrimFloat.leb thr (snd cs) = true.

(** Retrieval order: descending similarity, ties by lower chunk index. *)
Definition retrieval_order : DocumentChunk * float -> DocumentChunk * float -> Prop :=
  Py.ranked_before snd (fun cs => chunk_index (fst cs)).

(** The order of the merged list: descending similarity. *)
Definition merged_order : DocumentChunk * float * UUID -> DocumentChunk * float * UUID -> Prop :=
  Py.ranked_before (fun x => snd (fst x)) (fun _ => 0).

(** The token count of a list of ranked chunks. *)
Definition sum_tokens (l : list (DocumentChunk * float)) : Z :=
  fold_right (fun cs acc => chunk_tokens (fst cs) + acc) 0 l.

(** The context blocks of [l], numbered from [m + 1]. *)
Fixpoint numbered_parts (m : nat) (l : list (DocumentChunk * float)) : list string :=
  match l with
  | [] => []
  | cs :: rest => context_part (Z.of_nat m + 1) (fst cs) :: numbered_parts (S m) rest
  end.

(** The last [n] elements of a list. *)
Definition last_turns {A : Type} (n : nat) (l : list A) : list A :=
  skipn (List.length l - n) l.

(** A turn as it is replayed: tagged by its role, a system turn not at all. *)
Definition replay (m : ChatMessage) : list Message :=
  match role m with
  | USER => [HumanMessage (msg_content m)]
  | ASSISTANT => [AIMessage (msg_content m)]
  | SYSTEM => []
  end.

Definition is_system_message (m : Message) : bool :=
  match m with
  | SystemMessage _ => true
  | _ => false
  end.

(** The suggestion call for this context, question and answer fails, or
    [json.loads] rejects what it returned. *)
Definition follow_up_fails (env : Env) (context question answer : string) : Prop :=
  let req := FollowUpPrompt (Py.str_slice_to 3000 context) question answer in
  ainvoke env req = None \/
  exists out, ainvoke env req = Some out /\ json_loads env out = None.

(** The citation the multi-document path builds for an entry of the merged
    list. *)
Definition multi_citation_of (env : Env) (x : DocumentChunk * float * UUID) : Citation :=
  multi_citation (select_filename env (snd x)) (fst (fst x)) (snd (fst x)) (snd x).

(** Which chunk a citation points to, and with which score. *)
Definition citation_key (c : Citation) : string * float :=
  (cit_chunk_id c, relevance_score c).

Definition entry_key (x : DocumentChunk * float * UUID) : string * float :=
  (id (fst (fst x)), snd (fst x)).

(** The context block the multi-document path builds for an entry of the
    merged list: the chunk's text under a header naming its document. *)
Definition multi_context_block_of (env : Env) (x : DocumentChunk * float * UUID) : string :=
  multi_context_part (select_filename env (snd x)) (fst (fst x)).

End Spec.

(* ================================================================== *)
(** * Concrete inputs *)
(* ================================================================== *)

Module Inputs.
Import RAG.

(** A clock with millisecond ticks.  The first acquisition happens at time 0,
    the second ten seconds later, and no tick passes at any other clock
    event: the sleep ends exactly when asked, and the calls that follow find
    the clock where the sleep left it. *)
Definition coarse_clock : RateLimiter.Clock :=
  {| RateLimiter.resolution := 1000;
     RateLimiter.elapse := fun n => if Nat.eqb n 2 then 10000 else 0 |}.

(** A clock with millisecond ticks that shows a new time at every reading,
    seven seconds apart. *)
Definition steady_clock : RateLimiter.Clock :=
  {| RateLimiter.resolution := 1000;
     RateLimiter.elapse := fun _ => 7000 |}.

Definition chunk (doc : UUID) (i : Z) (text : string) (e : option (list float))
           (tokens : option Z) : DocumentChunk :=
  {| id := doc +++ "-" +++ Py.str_int i;
     document_id := doc;
     content := text;
     chunk_index := i;
     page_number := Some (i + 1);
     embedding := e;
     token_count := tokens |}.

Definition session_d1 : ChatSession :=
  {| sess_id := "s1"; sess_document_id := "d1"; context_window := 2 |}.

Definition turn (r : MessageRole) (text : string) : ChatMessage :=
  {| session_id := "s1"; role := r; msg_content := text |}.

(** Two documents.  [d1] holds three chunks stored out of order, two of them
    of 3000 tokens, and one chunk without an embedding; [d2] holds one chunk.
    The chat model answers every prompt but the follow-up prompt. *)
Definition library : Env :=
  {| aembed_query := fun _ => Some [1; 0]%float;
     ainvoke := fun req => match req with
                           | FollowUpPrompt _ _ _ => None
                           | _ => Some "It is alpha."
                           end;
     json_loads := fun _ => None;
     document_chunks :=
       [ chunk "d1" 2 "gamma" (Some [0.5; 0.5]%float) (Some 3000);
         chunk "d1" 0 "alpha" (Some [1; 0]%float) (Some 3000);
         chunk "d1" 1 "beta" (Some [0; 1]%float) None;
         chunk "d1" 3 "delta" None None;
         chunk "d2" 0 "alpha again" (Some [2; 0]%float) (Some 10) ];
     documents := [ {| doc_id := "d1"; filename := "one.pdf" |};
                    {| doc_id := "d2"; filename := "two.pdf" |} ];
     chat_messages :=
       [ turn USER "q1"; turn ASSISTANT "a1"; turn SYSTEM "note";
         turn USER "q2"; turn ASSISTANT "a2"; turn USER "q3" ];
     max_context_tokens := 4000;
     chat_model := "gemini" |}.

(** The same library, with one stored embedding of the wrong dimension. *)
Definition library_with_odd_embedding : Env :=
  {| aembed_query := aembed_query library;
     ainvoke := ainvoke library;
     json_loads := json_loads library;
     document_chunks :=
       chunk "d1" 4 "epsilon" (Some [1]%float) None :: document_chunks library;
     documents := documents library;
     chat_messages := chat_messages library;
     max_context_tokens := max_context_tokens library;
     chat_model := chat_model library |}.

(** Ranked chunks with token counts 50, 60 and 40. *)
Definition ranked_50_60_40 : list (DocumentChunk * float) :=
  [ (chunk "d3" 0 "first" None (Some 50), 0.75%float);
    (chunk "d3" 1 "second" None (Some 60), 0.5%float);
    (chunk "d3" 2 "third" None (Some 40), 0.25%float) ].

(** Ten alternating user and assistant turns. *)
Definition ten_turns : list ChatMessage :=
  [ turn USER "q1"; turn ASSISTANT "a1"; turn USER "q2"; turn ASSISTANT "a2";
    turn USER "q3"; turn ASSISTANT "a3"; turn USER "q4"; turn ASSISTANT "a4";
    turn USER "q5"; turn ASSISTANT "a5" ].

End Inputs.

(* ================================================================== *)
(** * Further inputs *)
(* ================================================================== *)

Module MoreInputs.
Import RAG.

(** A limiter with limit 1 that recorded a request at time 0, on a clock
    with millisecond ticks. *)
Definition busy_limiter : RateLimiter.State :=
  {| RateLimiter.requests_per_minute := 1;
     RateLimiter.window_size := 60000;
     RateLimiter._request_times := [0];
     RateLimiter.now := 0;
     RateLimiter.events := 0 |}.

(** The library with one more chunk in [d1], whose stored embedding is all
    zero. *)
Definition library_with_zero_embedding : Env :=
  {| aembed_query := aembed_query Inputs.library;
     ainvoke := ainvoke Inputs.library;
     json_loads := json_loads Inputs.library;
     document_chunks :=
       Inputs.chunk "d1" 5 "zeta" (Some [0; 0]%float) None :: document_chunks Inputs.library;
     documents := documents Inputs.library;
     chat_messages := chat_messages Inputs.library;
     max_context_tokens := max_context_tokens Inputs.library;
     chat_model := chat_model Inputs.library |}.

(** A session on a document that has no chunks. *)
Definition session_d9 : ChatSession :=
  {| sess_id := "s9"; sess_document_id := "d9"; context_window := 2 |}.

End MoreInputs.

(* ================================================================== *)
(** * Further vocabulary *)
(* ================================================================== *)

Module MoreSpec.
Import RAG.

(** Every component of the vector is a zero, of either sign. *)
Definition zero_vector (v : list float) : bool :=
  forallb (fun x => PrimFloat.eqb x PrimFloat.zero) v.

(** A float that is a zero or a NaN. *)
Definition zero_or_nan (x : float) : Prop :=
  Prim2SF x = S754_nan \/ exists b, Prim2SF x = S754_zero b.

(** Some stored embedding that gets scored differs from the query embedding
    in dimension. *)
Definition dims_clash (q : list float) (chunks : list DocumentChunk) : Prop :=
  Exists (fun c => match embedding c with
                   | Some (x :: v) => List.length (x :: v) <> List.length q
                   | _ => False
                   end) chunks.

(** A trace in which every call to a provider comes right after a rate
    limiter acquisition of its own, and no acquisition is left over. *)
Fixpoint rate_limited (tr : list Event) : bool :=
  match tr with
  | [] => true
  | EvWaitAsync :: rest =>
      match rest with
      | EvEmbedQuery _ :: rest' => rate_limited rest'
      | EvInvoke _ :: rest' => rate_limited rest'
      | _ => false
      end
  | _ => false
  end.

Definition is_provider_call (ev : Event) : bool := negb (is_wait ev).

Definition is_follow_up (ev : Event) : bool :=
  match ev with
  | EvInvoke (FollowUpPrompt _ _ _) => true
  | _ => false
  end.

(** The request [answer_question] sends to the chat model for the chunks it
    retrieved. *)
Definition qa_request (env : Env) (session : ChatSession) (question : string)
           (include_citations : bool) (relevant : list (DocumentChunk * float)) : LlmRequest :=
  let context := fst (build_context env relevant None) in
  QaPrompt include_citations
    (if Py.truthy_str context then context
     else "No relevant context found in the document.")
    question
    (build_chat_history (select_messages env (sess_id session)) (context_window session)).

End MoreSpec.

(* ================================================================== *)
(** * More Python built-ins *)
(* ================================================================== *)

Module PyMore.

(** ** [range]

    The length CPython computes for [range(start, stop, step)] with a
    non-zero step, and the items [start + k * step]; a zero step is a
    [ValueError], written [None]. *)
Definition range_len (start stop step : Z) : Z :=
  if 0 <? step
  then (if start <? stop then (stop - start - 1) / step + 1 else 0)
  else (if stop <? start then (start - stop - 1) / (- step) + 1 else 0).

Definition range (start stop step : Z) : option (list Z) :=
  if step =? 0 then None
  else Some (map (fun k => start + Z.of_nat k * step)
                 (seq 0 (Z.to_nat (range_len start stop step)))).

(** ** [l[i:j]]

    A negative bound counts from the end, and both bounds are brought into
    [0 .. len(l)]. *)
Definition clamp (n x : Z) : Z :=
  if x <? 0 then Z.max 0 (x + n) else Z.min x n.

Definition slice {A : Type} (i j : Z) (l : list A) : list A :=
  let n := Z.of_nat (List.length l) in
  let lo := clamp n i in
  let hi := clamp n j in
  firstn (Z.to_nat (hi - lo)) (skipn (Z.to_nat lo) l).

(** ** Strings *)

(** [c.isspace()] for a character below U+0100. *)
Definition isspace (c : ascii) : bool :=
  let n := nat_of_ascii c in
  ((9 <=? n) && (n <=? 13) || (28 <=? n) && (n <=? 32) || (n =? 133) || (n =? 160))%nat.

Fixpoint lstrip (s : string) : string :=
  match s with
  | EmptyString => EmptyString
  | String c s' => if isspace c then lstrip s' else s
  end.

Fixpoint rstrip (s : string) : string :=
  match s with
  | EmptyString => EmptyString
  | String c s' =>
      match rstrip s' with
      | EmptyString => if isspace c then EmptyString else String c EmptyString
      | r => String c r
      end
  end.

(** [s.strip()] *)
Definition strip (s : string) : string := rstrip (lstrip s).

(** [s.find(sub, start)]: the least index at or after [start] where [sub]
    occurs, or [-1]. *)
Definition find (sub : string) (start : Z) (s : string) : Z :=
  let start := if start <? 0 then Z.max 0 (start + Py.len_str s) else start in
  match String.index (Z.to_nat start) sub s with
  | Some m => Z.of_nat m
  | None => -1
  end.

End PyMore.

(* ================================================================== *)
(** * app/services/ai_service.py: embeddings *)
(* ================================================================== *)

Module AIService.
Import RAG.

Section Provider.
(** [self.embeddings.aembed_query] and [self.embeddings.aembed_documents]:
    calls into the provider's library, which return or raise. *)
Variable aembed_query : string -> M (list float).
Variable aembed_documents : list string -> M (list (list float)).

Definition generate_embedding (text : string) : M (list float) :=
  wait_async ;;;
  aembed_query text.

(** The body of [for i in range(0, len(texts), batch_size)], over the
    values [i] still to come. *)
Fixpoint embed_batches (texts : list string) (batch_size : Z) (starts : list Z)
         (all_embeddings : list (list float)) : M (list (list float)) :=
  match starts with
  | [] => ret all_embeddings
  | i :: rest =>
      let batch := PyMore.slice i (i + batch_size) texts in
      wait_async ;;;
      batch_embeddings <- aembed_documents batch ;;
      embed_batches texts batch_size rest (all_embeddings ++ batch_embeddings)
  end.

Definition generate_embeddings_batch (texts : list string) (batch_size : Z)
  : M (list (list float)) :=
  match PyMore.range 0 (Z.of_nat (List.length texts)) batch_size with
  | None => raise ValueError
  | Some starts => embed_batches texts batch_size starts []
  end.

End Provider.

(** [batch_size: int = 100] *)
Definition default_batch_size : Z := 100.

End AIService.

(* ================================================================== *)
(** * app/services/rag_service.py: LangChain documents and the FAISS index *)
(* ================================================================== *)

Module VectorStore.
Import RAG.

(** A LangChain document: the text and the metadata dictionary; a key the
    dictionary does not hold is [None]. *)
Record LangChainDocument := {
  page_content : string;
  meta_chunk_id : string;
  meta_chunk_index : Z;
  meta_page_number : option Z;
  meta_relevance_score : option float;
  meta_source : option string
}.

Definition source_label (chunk : DocumentChunk) : string :=
  if Py.truthy_int (page_number chunk)
  then "Page " +++ match page_number chunk with
                   | Some p => Py.str_int p
                   | None => "None"
                   end
  else "Chunk " +++ Py.str_int (chunk_index chunk).

Fixpoint chunks_to_docs_loop (chunks : list (DocumentChunk * float))
         (docs : list LangChainDocument) : list LangChainDocument :=
  match chunks with
  | [] => docs
  | (chunk, score) :: rest =>
      chunks_to_docs_loop rest
        (docs ++ [ {| page_content := content chunk;
                      meta_chunk_id := id chunk;
                      meta_chunk_index := chunk_index chunk;
                      meta_page_number := page_number chunk;
                      meta_relevance_score := Some score;
                      meta_source := Some (source_label chunk) |} ])
  end.

Definition _chunks_to_langchain_docs (chunks : list (DocumentChunk * float))
  : list LangChainDocument :=
  chunks_to_docs_loop chunks [].

(** The document [create_in_memory_vectorstore] makes of a chunk. *)
Definition index_doc (chunk : DocumentChunk) : LangChainDocument :=
  {| page_content := content chunk;
     meta_chunk_id := id chunk;
     meta_chunk_index := chunk_index chunk;
     meta_page_number := page_number chunk;
     meta_relevance_score := None;
     meta_source := None |}.

Fixpoint index_docs_loop (chunks : list DocumentChunk) (docs : list LangChainDocument)
  : list LangChainDocument :=
  match chunks with
  | [] => docs
  | chunk :: rest =>
      if Py.truthy_list (embedding chunk)
      then index_docs_loop rest (docs ++ [index_doc chunk])
      else index_docs_loop rest docs
  end.

Section Faiss.
Variable FAISS : Type.
(** [FAISS.afrom_documents(docs, self.embeddings)]: embeds the documents
    and builds the index, or raises. *)
Variable afrom_documents : list LangChainDocument -> M FAISS.
Variable env : Env.

Definition create_in_memory_vectorstore (document_id : UUID) : M (option FAISS) :=
  let chunks := select_chunks env document_id in
  match chunks with
  | [] => ret None
  | _ :: _ =>
      let docs := index_docs_loop chunks [] in
      match docs with
      | [] => ret None
      | _ :: _ =>
          wait_async ;;;
          vectorstore <- afrom_documents docs ;;
          ret (Some vectorstore)
      end
  end.

End Faiss.

End VectorStore.

(* ================================================================== *)
(** * app/services/document_processor.py: chunking *)
(* ================================================================== *)

Module DocumentProcessor.

(** An entry of [ExtractedText.pages]. *)
Record PageInfo := {
  page_number : Z;
  content : string
}.

Record ExtractedText := {
  ext_content : string;
  page_count : Z;
  word_count : Z;
  character_count : Z;
  pages : list PageInfo
}.

Record TextChunk := {
  chunk_content : string;
  chunk_index : Z;
  chunk_page_number : option Z;
  start_char : Z;
  end_char : Z;
  token_count : Z
}.

(** The settings of a [RecursiveCharacterTextSplitter]; the separators are
    the same everywhere. *)
Record Splitter := {
  sp_chunk_size : Z;
  sp_chunk_overlap : Z
}.

(** A [DocumentProcessor]: its two attributes, and the splitter that
    [__init__] built. *)
Record Processor := {
  chunk_size : Z;
  chunk_overlap : Z;
  text_splitter : Splitter
}.

Definition init (settings_chunk_size settings_chunk_overlap : Z) : Processor :=
  {| chunk_size := settings_chunk_size;
     chunk_overlap := settings_chunk_overlap;
     text_splitter := {| sp_chunk_size := settings_chunk_size;
                         sp_chunk_overlap := settings_chunk_overlap |} |}.

(** A LangChain document as [chunk_text_langchain] returns it. *)
Record SplitDocument := {
  doc_page_content : string;
  doc_page_number : Z;
  doc_source : string;
  doc_chunk_index : Z
}.

Definition _estimate_tokens (text : string) : Z := Py.len_str text / 4.

(** The splitter [chunk_text] works with: a new one when a size is
    overridden, else the processor's own. *)
Definition splitter_for (self : Processor) (chunk_size_arg chunk_overlap_arg : option Z)
  : Splitter :=
  if Py.truthy_int chunk_size_arg || Py.truthy_int chunk_overlap_arg
  then {| sp_chunk_size := Py.or_int chunk_size_arg (chunk_size self);
          sp_chunk_overlap := Py.or_int chunk_overlap_arg (chunk_overlap self) |}
  else text_splitter self.

Section Chunking.
(** [splitter.split_documents([page_doc])]: the texts of the documents that
    LangChain returns for one page; each carries a copy of the page's
    metadata. *)
Variable split_text : Splitter -> string -> list string.

(** The loop over [split_docs]: the chunks so far, and the next index. *)
Fixpoint convert_docs (page_number : Z) (page_content : string) (split_docs : list string)
         (current_pos chunk_index : Z) (chunks : list TextChunk) : list TextChunk * Z :=
  match split_docs with
  | [] => (chunks, chunk_index)
  | content :: rest =>
      let found := PyMore.find (Py.str_slice_to 50 content) current_pos page_content in
      let start_char := if found =? -1 then current_pos else found in
      let end_char := start_char + Py.len_str content in
      convert_docs page_number page_content rest end_char (chunk_index + 1)
        (chunks ++ [ {| chunk_content := content;
                        chunk_index := chunk_index;
                        chunk_page_number := Some page_number;
                        start_char := start_char;
                        end_char := end_char;
                        token_count := _estimate_tokens content |} ])
  end.

(** The loop over [extracted.pages]. *)
Fixpoint chunk_pages (splitter : Splitter) (pages : list PageInfo)
         (chunk_index : Z) (chunks : list TextChunk) : list TextChunk :=
  match pages with
  | [] => chunks
  | page_info :: rest =>
      if negb (Py.truthy_str (PyMore.strip (content page_info)))
      then chunk_pages splitter rest chunk_index chunks
      else
        let split_docs := split_text splitter (content page_info) in
        let '(chunks', chunk_index') :=
          convert_docs (page_number page_info) (content page_info) split_docs
                       0 chunk_index chunks in
        chunk_pages splitter rest chunk_index' chunks'
  end.

Definition chunk_text (self : Processor) (extracted : ExtractedText)
           (chunk_size_arg chunk_overlap_arg : option Z) : list TextChunk :=
  let splitter := splitter_for self chunk_size_arg chunk_overlap_arg in
  chunk_pages splitter (pages extracted) 0 [].

(** [for i, doc in enumerate(split_docs)], with [base = len(all_docs)]. *)
Fixpoint number_docs (page_number : Z) (base : Z) (i : Z) (split_docs : list string)
  : list SplitDocument :=
  match split_docs with
  | [] => []
  | text :: rest =>
      {| doc_page_content := text;
         doc_page_number := page_number;
         doc_source := "page_" +++ Py.str_int page_number;
         doc_chunk_index := base + i |}
      :: number_docs page_number base (i + 1) rest
  end.

Fixpoint langchain_pages (splitter : Splitter) (pages : list PageInfo)
         (all_docs : list SplitDocument) : list SplitDocument :=
  match pages with
  | [] => all_docs
  | page_info :: rest =>
      if negb (Py.truthy_str (PyMore.strip (content page_info)))
      then langchain_pages splitter rest all_docs
      else
        let split_docs := split_text splitter (content page_info) in
        langchain_pages splitter rest
          (all_docs ++ number_docs (page_number page_info)
                                   (Z.of_nat (List.length all_docs)) 0 split_docs)
  end.

Definition chunk_text_langchain (self : Processor) (extracted : ExtractedText)
  : list SplitDocument :=
  langchain_pages (text_splitter self) (pages extracted) [].

End Chunking.

End DocumentProcessor.

(* ================================================================== *)
(** * app/api/chat.py and the database session (app/database.py) *)
(* ================================================================== *)

Module ChatApi.
Import RAG.

(** ** Tables *)

Inductive DocumentStatus :=
| PENDING | PROCESSING | CHUNKING | EMBEDDING | ANALYZING | COMPLETED | FAILED.

Definition DocumentStatus_eqb (a b : DocumentStatus) : bool :=
  match a, b with
  | PENDING, PENDING | PROCESSING, PROCESSING | CHUNKING, CHUNKING
  | EMBEDDING, EMBEDDING | ANALYZING, ANALYZING | COMPLETED, COMPLETED
  | FAILED, FAILED => true
  | _, _ => false
  end.

(** A row of [chat_sessions]: the columns the services read, and those the
    API keeps. *)
Record SessionRow := {
  session : ChatSession;
  is_active : bool;
  message_count : Z;
  total_tokens_used : Z
}.

(** The columns of an assistant message besides its session, role and
    content. *)
Record AnswerColumns := {
  col_session_id : UUID;
  col_citations : list Citation;
  col_context_chunks : list string;
  col_prompt_tokens : Z;
  col_completion_tokens : Z;
  col_total_tokens : Z;
  col_model_used : string;
  col_suggested_questions : json
}.

(** The database, with the providers and settings the services see.  The
    tables of chunks, documents and messages are those of [world];
    [document_status] is the [status] column of [documents], by document
    id; [chat_messages] is in order of [created_at], so a message added
    comes last. *)
Record Db := {
  world : Env;
  chat_sessions : list SessionRow;
  document_status : UUID -> DocumentStatus;
  answer_columns : list AnswerColumns
}.

Definition with_messages (env : Env) (messages : list ChatMessage) : Env :=
  {| aembed_query := aembed_query env;
     ainvoke := ainvoke env;
     json_loads := json_loads env;
     document_chunks := document_chunks env;
     documents := documents env;
     chat_messages := messages;
     max_context_tokens := max_context_tokens env;
     chat_model := chat_model env |}.

(** ** The session of a request

    The database as committed, and as the open transaction sees it. *)
Record AsyncSession := {
  committed : Db;
  pending : Db
}.

Definition begin (db : Db) : AsyncSession := {| committed := db; pending := db |}.

Definition commit (s : AsyncSession) : AsyncSession :=
  {| committed := pending s; pending := pending s |}.

Definition rollback (s : AsyncSession) : AsyncSession :=
  {| committed := committed s; pending := committed s |}.

(** [db.add(message)] and the flush that follows. *)
Definition add_message (s : AsyncSession) (m : ChatMessage) : AsyncSession :=
  {| committed := committed s;
     pending :=
       {| world := with_messages (world (pending s))
                                 (chat_messages (world (pending s)) ++ [m]);
          chat_sessions := chat_sessions (pending s);
          document_status := document_status (pending s);
          answer_columns := answer_columns (pending s) |} |}.

Definition add_answer_columns (s : AsyncSession) (c : AnswerColumns) : AsyncSession :=
  {| committed := committed s;
     pending :=
       {| world := world (pending s);
          chat_sessions := chat_sessions (pending s);
          document_status := document_status (pending s);
          answer_columns := answer_columns (pending s) ++ [c] |} |}.

(** Assignments to the attributes of the session row that was loaded: the
    first row of that id. *)
Fixpoint update_row (session_id : UUID) (f : SessionRow -> SessionRow)
         (rows : list SessionRow) : list SessionRow :=
  match rows with
  | [] => []
  | r :: rest =>
      if String.eqb (sess_id (session r)) session_id
      then f r :: rest
      else r :: update_row session_id f rest
  end.

Definition update_session (s : AsyncSession) (session_id : UUID)
           (f : SessionRow -> SessionRow) : AsyncSession :=
  {| committed := committed s;
     pending :=
       {| world := world (pending s);
          chat_sessions := update_row session_id f (chat_sessions (pending s));
          document_status := document_status (pending s);
          answer_columns := answer_columns (pending s) |} |}.

(** [select(ChatSession).where(ChatSession.id == session_id)], then
    [.scalar()] *)
Definition select_session (db : Db) (session_id : UUID) : option SessionRow :=
  List.find (fun r => String.eqb (sess_id (session r)) session_id) (chat_sessions db).

(** [select(Document).where(Document.id == doc_id)], then [.scalar()] *)
Definition select_document (db : Db) (doc_id : UUID) : option Document :=
  List.find (fun d => String.eqb (RAG.doc_id d) doc_id) (documents (world db)).

(** ** Requests and responses (app/schemas/chat.py) *)

Record AskQuestionRequest := {
  question : string;
  num_context_chunks : Z;
  similarity_threshold : float;
  include_citations : bool;
  include_suggestions : bool
}.

(** [schemas.Citation] *)
Record ApiCitation := {
  api_chunk_id : string;
  api_content_snippet : string;
  api_page_number : option Z;
  api_relevance_score : float
}.

Definition api_citation (c : Citation) : ApiCitation :=
  {| api_chunk_id := cit_chunk_id c;
     api_content_snippet := content_snippet c;
     api_page_number := cit_page_number c;
     api_relevance_score := relevance_score c |}.

(** [AskQuestionResponse], with the fields of its message that come from
    the answer. *)
Record AskQuestionResponse := {
  resp_content : string;
  resp_citations : list ApiCitation;
  resp_suggested_questions : list string;
  resp_context_used : Z;
  resp_total_tokens : Z;
  resp_model_used : string
}.

(** The validation of a [List[str]] field: a list whose items are all
    strings is taken as it is, anything else is a [ValidationError]
    ([None]). *)
Fixpoint validate_str_items (items : list json) : option (list string) :=
  match items with
  | [] => Some []
  | JStr s :: rest =>
      match validate_str_items rest with
      | Some strs => Some (s :: strs)
      | None => None
      end
  | _ :: _ => None
  end.

Definition validate_list_of_str (v : json) : option (list string) :=
  match v with
  | JArr items => validate_str_items items
  | _ => None
  end.

Record MultiDocumentChatRequest := {
  multi_question : string;
  document_ids : list UUID;
  num_context_chunks_per_doc : Z
}.

Record MultiDocumentChatResponse := {
  multi_resp_answer : string;
  multi_resp_citations : list ApiCitation;
  multi_resp_documents_used : list UUID;
  multi_resp_suggested_questions : list string
}.

(** How a request ends: an [HTTPException] of the handler, an exception of
    the services that nothing caught, or a [ValidationError] of a response
    model. *)
Inductive Failure :=
| HTTPException (status_code : Z)
| Unhandled (e : exn)
| ValidationError.

(** A handler's run on a session: the provider calls and acquisitions made,
    the response or the failure, and the session it leaves. *)
Definition Handler (A : Type) : Type :=
  AsyncSession -> list Event * (Failure + A) * AsyncSession.

(** ** ask_question

    The response models are built after the commit.  [ChatMessageResponse]
    and [AskQuestionResponse] both take the answer's suggestions as their
    [suggested_questions: List[str]], and the first of them raises when the
    suggestions are not a list of strings; the other fields get values of
    their declared types ([uuid.UUID] parses a chunk identifier back into
    the UUID it was printed from).  The database is taken to accept every
    row it is given. *)

Definition ask_question_handler (session_id : UUID) (request : AskQuestionRequest)
  : Handler AskQuestionResponse :=
  fun db =>
    match select_session (pending db) session_id with
    | None => ([], inl (HTTPException 404), db)
    | Some session_row =>
        if negb (is_active session_row)
        then ([], inl (HTTPException 400), db)
        else
          let user_message :=
            {| RAG.session_id := session_id; role := USER;
               msg_content := question request |} in
          let db := add_message db user_message in
          match answer_question (world (pending db)) (session session_row)
                  (question request) (num_context_chunks request)
                  (similarity_threshold request)
                  (include_citations request) (include_suggestions request) with
          | (calls, Raised e) => (calls, inl (Unhandled e), db)
          | (calls, Returned answer_data) =>
              let assistant_message :=
                {| RAG.session_id := session_id; role := ASSISTANT;
                   msg_content := answer answer_data |} in
              let db := add_message db assistant_message in
              let db := add_answer_columns db
                          {| col_session_id := session_id;
                             col_citations := citations answer_data;
                             col_context_chunks := map cit_chunk_id (citations answer_data);
                             col_prompt_tokens := prompt_tokens answer_data;
                             col_completion_tokens := completion_tokens answer_data;
                             col_total_tokens := total_tokens answer_data;
                             col_model_used := model_used answer_data;
                             col_suggested_questions := suggestions answer_data |} in
              let db := update_session db session_id
                          (fun row =>
                             {| session := session row;
                                is_active := is_active row;
                                message_count := message_count row + 2;
                                total_tokens_used :=
                                  total_tokens_used row + total_tokens answer_data |}) in
              let db := commit db in
              let citations := map api_citation (citations answer_data) in
              match validate_list_of_str (suggestions answer_data) with
              | None => (calls, inl ValidationError, db)
              | Some suggested_questions =>
                  (calls,
                   inr {| resp_content := answer answer_data;
                          resp_citations := citations;
                          resp_suggested_questions := suggested_questions;
                          resp_context_used := context_used answer_data;
                          resp_total_tokens := total_tokens answer_data;
                          resp_model_used := model_used answer_data |},
                   db)
              end
          end
    end.

(** ** multi_document_chat *)

(** The loop that verifies the documents: the failure it stops on. *)
Fixpoint verify_documents (db : Db) (document_ids : list UUID) : option Failure :=
  match document_ids with
  | [] => None
  | doc_id :: rest =>
      match select_document db doc_id with
      | None => Some (HTTPException 404)
      | Some _ =>
          if negb (DocumentStatus_eqb (document_status db doc_id) COMPLETED)
          then Some (HTTPException 400)
          else verify_documents db rest
      end
  end.

Definition multi_document_chat_handler (request : MultiDocumentChatRequest)
  : Handler MultiDocumentChatResponse :=
  fun db =>
    match verify_documents (pending db) (document_ids request) with
    | Some failure => ([], inl failure, db)
    | None =>
        match answer_multi_document_question (world (pending db)) (document_ids request)
                (multi_question request) (num_context_chunks_per_doc request) with
        | (calls, Raised e) => (calls, inl (Unhandled e), db)
        | (calls, Returned answer_data) =>
            (calls,
             inr {| multi_resp_answer := multi_answer answer_data;
                    multi_resp_citations := map api_citation (multi_citations answer_data);
                    multi_resp_documents_used := documents_used answer_data;
                    multi_resp_suggested_questions := [] |},
             db)
        end
    end.

(** ** get_async_session

    The handler runs on a new session; the session is committed when the
    handler returns and rolled back when it raises.  A rollback undoes what
    is pending, not what the handler has committed. *)
Record Reply (A : Type) := {
  calls : list Event;
  response : Failure + A;
  database : Db
}.
Arguments calls {A} r.
Arguments response {A} r.
Arguments database {A} r.

Definition get_async_session {A : Type} (handler : Handler A) (db : Db) : Reply A :=
  let '(made, r, s) := handler (begin db) in
  match r with
  | inr a => {| calls := made; response := inr a; database := committed (commit s) |}
  | inl e => {| calls := made; response := inl e; database := committed (rollback s) |}
  end.

Definition ask_question (db : Db) (session_id : UUID) (request : AskQuestionRequest)
  : Reply AskQuestionResponse :=
  get_async_session (ask_question_handler session_id request) db.

Definition multi_document_chat (db : Db) (request : MultiDocumentChatRequest)
  : Reply MultiDocumentChatResponse :=
  get_async_session (multi_document_chat_handler request) db.

End ChatApi.

(* ================================================================== *)
(** * Vocabulary and inputs for the further services *)
(* ================================================================== *)

Module BatchSpec.
Import RAG.

(** Whether a call returned, and the list it returned. *)
Definition returns {A : Type} (m : M A) : bool :=
  match result m with
  | Returned _ => true
  | Raised _ => false
  end.

Definition returned {A : Type} (m : M (list A)) : list A :=
  match result m with
  | Returned r => r
  | Raised _ => []
  end.

(** A rate limiter acquisition, then the provider call on one batch. *)
Definition batch_call (aembed_documents : list string -> M (list (list float)))
           (batch : list string) : list Event :=
  EvWaitAsync :: trace (aembed_documents batch).

End BatchSpec.

Module ChunkSpec.
Import DocumentProcessor.

(** A page [chunk_text] skips: nothing but white space. *)
Definition blank (p : PageInfo) : bool :=
  negb (Py.truthy_str (PyMore.strip (content p))).

Definition pages_read (extracted : ExtractedText) : list PageInfo :=
  filter (fun p => negb (blank p)) (pages extracted).

(** The offsets of a chunk span its length from a position that is not
    negative, and its token count is the estimate. *)
Definition well_placed (c : TextChunk) : Prop :=
  0 <= start_char c /\
  end_char c = start_char c + Py.len_str (chunk_content c) /\
  token_count c = Py.len_str (chunk_content c) / 4.

(** The chunks made of one page, for a splitter: the splitter's texts in
    order, all on the page's number, with offsets that do not overlap. *)
Definition chunks_of_page (split_text : Splitter -> string -> list string)
           (sp : Splitter) (p : PageInfo) (g : list TextChunk) : Prop :=
  map chunk_content g = split_text sp (content p) /\
  Forall (fun c => chunk_page_number c = Some (page_number p) /\ well_placed c) g /\
  StronglySorted (fun a b => end_char a <= start_char b) g.

Definition indices_from (i : Z) (n : nat) : list Z :=
  map (fun k => i + Z.of_nat k) (seq 0 n).

Definition total_length (texts : list string) : Z :=
  fold_right (fun t acc => Py.len_str t + acc) 0 texts.

(** What the two chunkers tell of a chunk alike. *)
Definition of_chunk (c : TextChunk) : string * Z * option Z :=
  (chunk_content c, chunk_index c, chunk_page_number c).

Definition of_document (d : SplitDocument) : string * Z * option Z :=
  (doc_page_content d, doc_chunk_index d, Some (doc_page_number d)).

End ChunkSpec.

Module ChunkInputs.
Import DocumentProcessor.

(** A splitter that cuts a text into runs of [chunk_size] characters, each
    starting [chunk_overlap] characters before the end of the one before. *)
Fixpoint windows (fuel : nat) (size step : nat) (s : string) : list string :=
  match fuel with
  | O => []
  | S fuel' =>
      if (String.length s <=? size)%nat then [s]
      else substring 0 size s :: windows fuel' size step (substring step (String.length s - step) s)
  end.

Definition window_splitter (sp : Splitter) (s : string) : list string :=
  windows (String.length s) (Z.to_nat (sp_chunk_size sp))
          (Z.to_nat (sp_chunk_size sp - sp_chunk_overlap sp)) s.

Definition one_page : ExtractedText :=
  {| ext_content := "abcdef";
     page_count := 1;
     word_count := 1;
     character_count := 6;
     pages := [ {| page_number := 1; content := "abcdef" |} ] |}.

Definition two_pages : ExtractedText :=
  {| ext_content := "abcdef";
     page_count := 3;
     word_count := 2;
     character_count := 10;
     pages := [ {| page_number := 1; content := "abcdef" |};
                {| page_number := 2; content := "  " |};
                {| page_number := 3; content := "gh" |} ] |}.

End ChunkInputs.

Module IndexSpec.
Import RAG.

(** The chunks of a document that have a non-empty stored embedding, in
    chunk-index order. *)
Definition embedded_chunks (env : Env) (document_id : UUID) : list DocumentChunk :=
  filter (fun c => Py.truthy_list (embedding c)) (select_chunks env document_id).

End IndexSpec.

Module ApiInputs.
Import RAG ChatApi.

(** The library behind the API: an open session on [d1] with six messages so
    far, a closed session, and [d2] still being embedded. *)
Definition db : Db :=
  {| world := Inputs.library;
     chat_sessions :=
       [ {| session := Inputs.session_d1; is_active := true;
            message_count := 6; total_tokens_used := 100 |};
         {| session := {| sess_id := "s2"; sess_document_id := "d1"; context_window := 2 |};
            is_active := false; message_count := 0; total_tokens_used := 0 |} ];
     document_status := fun d => if String.eqb d "d2" then EMBEDDING else COMPLETED;
     answer_columns := [] |}.

Definition ask (q : string) : AskQuestionRequest :=
  {| question := q;
     num_context_chunks := 5;
     similarity_threshold := 0.5%float;
     include_citations := true;
     include_suggestions := true |}.

(** The same database behind a chat model that answers every prompt, and
    whose reply to the follow-up prompt decodes to a JSON string. *)
Definition db_with_string_suggestions : Db :=
  {| world :=
       {| aembed_query := aembed_query Inputs.library;
          ainvoke := fun _ => Some "It is alpha.";
          json_loads := fun _ => Some (JStr "What is beta?");
          document_chunks := document_chunks Inputs.library;
          documents := documents Inputs.library;
          chat_messages := chat_messages Inputs.library;
          max_context_tokens := max_context_tokens Inputs.library;
          chat_model := chat_model Inputs.library |};
     chat_sessions := chat_sessions db;
     document_status := document_status db;
     answer_columns := answer_columns db |}.

Definition ask_many (docs : list UUID) : MultiDocumentChatRequest :=
  {| multi_question := "q"; document_ids := docs; num_context_chunks_per_doc := 3 |}.

End ApiInputs.

Module ApiSpec.
Import RAG ChatApi.

(** A document the multi-document chat accepts: it exists and its
    processing is completed. *)
Definition ready (db : Db) (doc_id : UUID) : bool :=
  match select_document db doc_id with
  | Some _ => DocumentStatus_eqb (document_status db doc_id) COMPLETED
  | None => false
  end.

Definition user_turn (session_id : UUID) (q : string) : ChatMessage :=
  {| session_id := session_id; role := USER; msg_content := q |}.

Definition assistant_turn (session_id : UUID) (a : string) : ChatMessage :=
  {| session_id := session_id; role := ASSISTANT; msg_content := a |}.

End ApiSpec.

(* ================================================================== *)
(** * Facts about the float comparisons *)
(* ================================================================== *)

Section FloatOrderFacts.
Import FloatOrder.

Lemma SFcompare_key (x y : spec_float) :
  SFcompare x y =
  match sf_key x, sf_key y with
  | Some a, Some b => Some (lex_compare a b)
  | _, _ => None
  end.
Proof.
  destruct x as [sx|sx| |sx mx ex], y as [sy|sy| |sy my ey]; simpl; try reflexivity;
    try (destruct sx; reflexivity); try (destruct sy; reflexivity);
    try (destruct sx, sy; reflexivity).
  destruct sx, sy; simpl; try reflexivity.
  rewrite Z.compare_opp, (Z.compare_antisym ey ex).
  destruct (ey ?= ex); simpl; reflexivity.
Qed.

Lemma lex_compare_Lt (a b : Z * Z * Z) : lex_compare a b = Lt <-> lex_lt a b.
Proof.
  destruct a as [[a1 a2] a3], b as [[b1 b2] b3]; unfold lex_compare, lex_lt.
  destruct (Z.compare_spec a1 b1), (Z.compare_spec a2 b2), (Z.compare_spec a3 b3);
    split; intros; try discriminate; try lia; reflexivity.
Qed.

Lemma lex_compare_Gt (a b : Z * Z * Z) : lex_compare a b = Gt <-> lex_lt b a.
Proof.
  destruct a as [[a1 a2] a3], b as [[b1 b2] b3]; unfold lex_compare, lex_lt.
  destruct (Z.compare_spec a1 b1), (Z.compare_spec a2 b2), (Z.compare_spec a3 b3);
    split; intros; try discriminate; try lia; reflexivity.
Qed.

Lemma ltb_key (x y : float) :
  PrimFloat.ltb x y = true <->
  exists a b, key x = Some a /\ key y = Some b /\ lex_lt a b.
Proof.
  rewrite ltb_spec. unfold SFltb, key. rewrite SFcompare_key.
  destruct (sf_key (Prim2SF x)) as [a|], (sf_key (Prim2SF y)) as [b|];
    try (split; [discriminate | intros (a' & b' & Ha & Hb & _); discriminate]).
  destruct (lex_compare a b) eqn:E; split; intros H; try discriminate; try reflexivity.
  - destruct H as (a' & b' & Ha & Hb & Hl). inversion Ha; inversion Hb; subst.
    apply lex_compare_Lt in Hl. congruence.
  - exists a, b. repeat split. now apply lex_compare_Lt.
  - destruct H as (a' & b' & Ha & Hb & Hl). inversion Ha; inversion Hb; subst.
    apply lex_compare_Lt in Hl. congruence.
Qed.

Lemma leb_key (x y : float) :
  PrimFloat.leb x y = true <->
  exists a b, key x = Some a /\ key y = Some b /\ ~ lex_lt b a.
Proof.
  rewrite leb_spec. unfold SFleb, key. rewrite SFcompare_key.
  destruct (sf_key (Prim2SF x)) as [a|], (sf_key (Prim2SF y)) as [b|];
    try (split; [discriminate | intros (a' & b' & Ha & Hb & _); discriminate]).
  destruct (lex_compare a b) eqn:E; split; intros H; try discriminate; try reflexivity.
  - exists a, b. repeat split. rewrite <- lex_compare_Gt. congruence.
  - exists a, b. repeat split. rewrite <- lex_compare_Gt. congruence.
  - destruct H as (a' & b' & Ha & Hb & Hl). inversion Ha; inversion Hb; subst.
    apply lex_compare_Gt in E. contradiction.
Qed.

Lemma float_le_trans (x y z : float) :
  PrimFloat.leb x y = true -> PrimFloat.leb y z = true -> PrimFloat.leb x z = true.
Proof.
  rewrite !leb_key. intros (a & b & Ha & Hb & Hab) (b' & c & Hb' & Hc & Hbc).
  rewrite Hb in Hb'. inversion Hb'; subst b'.
  exists a, c. repeat split; trivial.
  destruct a as [[? ?] ?], b as [[? ?] ?], c as [[? ?] ?]; unfold lex_lt in *; lia.
Qed.

Lemma float_lt_le (x y : float) :
  PrimFloat.ltb x y = true -> PrimFloat.leb x y = true.
Proof.
  rewrite ltb_key, leb_key. intros (a & b & Ha & Hb & Hab).
  exists a, b. repeat split; trivial.
  destruct a as [[? ?] ?], b as [[? ?] ?]; unfold lex_lt in *; lia.
Qed.

(** Between two numbers, "not less" is "greater or equal". *)
Lemma float_nlt_ge (x y : float) :
  is_number x -> is_number y ->
  PrimFloat.ltb x y = false -> PrimFloat.leb y x = true.
Proof.
  unfold is_number. rewrite !leb_key.
  intros (a & a' & Ha & _ & _) (b & b' & Hb & _ & _) Hlt.
  exists b, a. repeat split; trivial. intros Hl.
  assert (PrimFloat.ltb x y = true) by (apply ltb_key; eauto).
  congruence.
Qed.

Lemma float_le_nlt (x y : float) :
  PrimFloat.leb x y = true -> PrimFloat.ltb y x = false.
Proof.
  intros H. destruct (PrimFloat.ltb y x) eqn:E; trivial.
  apply ltb_key in E. apply leb_key in H.
  destruct E as (b & a & Hb & Ha & Hl), H as (a' & b' & Ha' & Hb' & Hn).
  rewrite Ha in Ha'; rewrite Hb in Hb'. inversion Ha'; inversion Hb'; subst. contradiction.
Qed.

(** Whatever passed a [>=] test is a number. *)
Lemma float_le_is_number_r (x y : float) :
  PrimFloat.leb x y = true -> is_number y.
Proof.
  unfold is_number. rewrite !leb_key. intros (a & b & Ha & Hb & _).
  exists b, b. repeat split; trivial.
  destruct b as [[? ?] ?]; unfold lex_lt; lia.
Qed.

End FloatOrderFacts.

(* ================================================================== *)
(** * Facts about the Python built-ins *)
(* ================================================================== *)

Section PyFacts.
Context {A : Type}.

Lemma insert_by_Forall (P : A -> Prop) (before : A -> A -> bool) (x : A) (l : list A) :
  P x -> Forall P l -> Forall P (Py.insert_by before x l).
Proof.
  intros Hx Hl. induction Hl as [|y l Hy Hl IH]; simpl.
  - constructor; [assumption | constructor].
  - destruct (before y x); constructor; auto.
Qed.

Lemma stable_sort_Forall (P : A -> Prop) (before : A -> A -> bool) (l : list A) :
  Forall P l -> Forall P (Py.stable_sort before l).
Proof.
  induction 1 as [|x l Hx Hl IH]; simpl.
  - constructor.
  - apply insert_by_Forall; assumption.
Qed.

Lemma insert_by_length (before : A -> A -> bool) (x : A) (l : list A) :
  List.length (Py.insert_by before x l) = S (List.length l).
Proof.
  induction l as [|y l IH]; simpl; [reflexivity|].
  destruct (before y x); simpl; [now rewrite IH | reflexivity].
Qed.

Lemma stable_sort_length (before : A -> A -> bool) (l : list A) :
  List.length (Py.stable_sort before l) = List.length l.
Proof.
  induction l as [|x l IH]; simpl; [reflexivity|].
  now rewrite insert_by_length, IH.
Qed.

(** A stable descending sort by a float key.  [score] is the key and [pos]
    the place an element had before the sort: the input is in order of
    [pos], its keys are numbers, and the output is in descending order of
    key, elements of equal key staying in order of [pos]. *)
Section Ranking.
Variable score : A -> float.
Variable pos : A -> Z.

Lemma insert_ranked (x : A) (l : list A) :
  FloatOrder.is_number (score x) ->
  Forall (fun y => FloatOrder.is_number (score y)) l ->
  Forall (fun y => pos x <= pos y) l ->
  StronglySorted (Py.ranked_before score pos) l ->
  StronglySorted (Py.ranked_before score pos) (Py.insert_by (Py.by_score_desc score) x l).
Proof.
  intros Hx Hnum Hpos Hs.
  induction Hs as [|y l Hs IH Hy]; simpl.
  - constructor; constructor.
  - inversion Hnum as [|? ? Hny Hnl]; subst.
    inversion Hpos as [|? ? Hpy Hpl]; subst.
    unfold Py.by_score_desc at 1. destruct (PrimFloat.ltb (score x) (score y)) eqn:E.
    + constructor; [apply IH; assumption|].
      apply insert_by_Forall; [|assumption].
      split; [now apply float_lt_le | congruence].
    + assert (Hxy : PrimFloat.leb (score y) (score x) = true)
        by (apply float_nlt_ge; assumption).
      constructor; [constructor; assumption|].
      constructor.
      * split; [assumption | intros _; assumption].
      * rewrite Forall_forall in Hy, Hpl |- *. intros z Hz.
        destruct (Hy z Hz) as [Hzy _].
        split; [eapply float_le_trans; eassumption | intros _; now apply Hpl].
Qed.

Lemma stable_sort_ranked (l : list A) :
  Forall (fun y => FloatOrder.is_number (score y)) l ->
  StronglySorted (fun a b => pos a <= pos b) l ->
  StronglySorted (Py.ranked_before score pos) (Py.stable_sort (Py.by_score_desc score) l).
Proof.
  intros Hnum Hs. induction Hs as [|x l Hs IH Hx]; simpl.
  - constructor.
  - inversion Hnum; subst.
    apply insert_ranked; auto using stable_sort_Forall.
Qed.

End Ranking.

Lemma StronglySorted_firstn (R : A -> A -> Prop) (n : nat) (l : list A) :
  StronglySorted R l -> StronglySorted R (firstn n l).
Proof.
  intros Hs. revert n. induction Hs as [|x l Hs IH Hx]; intros [|n]; simpl;
    try constructor; auto.
  rewrite Forall_forall in Hx |- *. intros y Hy. apply Hx.
  rewrite <- (firstn_skipn n l). apply in_or_app. now left.
Qed.

Lemma StronglySorted_app_cross (R : A -> A -> Prop) (l1 l2 : list A) :
  StronglySorted R (l1 ++ l2) ->
  forall a b, In a l1 -> In b l2 -> R a b.
Proof.
  induction l1 as [|x l1 IH]; simpl; intros Hs a b Ha Hb; [contradiction|].
  inversion Hs as [|? ? Hs' Hx]; subst.
  destruct Ha as [<-|Ha].
  - rewrite Forall_forall in Hx. apply Hx, in_or_app. now right.
  - now apply IH.
Qed.

Lemma slice_to_firstn (k : Z) (l : list A) :
  0 <= k -> Py.slice_to k l = firstn (Z.to_nat k) l.
Proof.
  intros Hk. unfold Py.slice_to.
  destruct (0 <=? k) eqn:E; [reflexivity | lia].
Qed.

End PyFacts.

(* ================================================================== *)
(** * The rate limiter *)
(* ================================================================== *)

Section RateLimiterFacts.
Import RateLimiter.
Variable clk : Clock.

Lemma newer_than_nonneg (a : Z) (q : list Z) : 0 <= newer_than a q.
Proof. unfold newer_than. lia. Qed.

Lemma newer_than_le_length (a : Z) (q : list Z) :
  newer_than a q <= Z.of_nat (List.length q).
Proof.
  unfold newer_than. induction q as [|t q IH]; simpl; [lia|].
  destruct (a <? t); simpl; lia.
Qed.

Lemma newer_than_all (a : Z) (q : list Z) :
  Forall (fun t => a < t) q -> newer_than a q = Z.of_nat (List.length q).
Proof.
  unfold newer_than. induction 1 as [|t q Ht Hq IH]; simpl; [reflexivity|].
  destruct (Z.ltb_spec a t); [simpl; lia | lia].
Qed.

Lemma newer_than_app (a : Z) (p q : list Z) :
  newer_than a (p ++ q) = newer_than a p + newer_than a q.
Proof. unfold newer_than. rewrite filter_app, length_app. lia. Qed.

Lemma newer_than_mono (a b : Z) (q : list Z) :
  a <= b -> newer_than b q <= newer_than a q.
Proof.
  intros Hab. unfold newer_than. induction q as [|t q IH]; simpl; [lia|].
  destruct (Z.ltb_spec b t), (Z.ltb_spec a t); simpl; lia.
Qed.

(** [_cleanup_old_requests] keeps a suffix of the deque. *)
Lemma popleft_suffix (c : Z) (q : list Z) :
  exists p, q = p ++ popleft_while_older c q.
Proof.
  induction q as [|t q [p Hp]]; simpl.
  - exists []. reflexivity.
  - destruct (t <? c).
    + exists (t :: p). simpl. now f_equal.
    + exists []. reflexivity.
Qed.

(** On a deque in order of time, nothing older than the cutoff stays. *)
Lemma popleft_sorted_ge (c : Z) (q : list Z) :
  StronglySorted Z.le q -> Forall (fun t => c <= t) (popleft_while_older c q).
Proof.
  induction 1 as [|t q Hs IH Ht]; simpl; [constructor|].
  destruct (Z.ltb_spec t c); [assumption|].
  constructor; [assumption|].
  eapply Forall_impl; [|exact Ht]. simpl. intros; lia.
Qed.

Lemma suffix_sorted (p q : list Z) :
  StronglySorted Z.le (p ++ q) -> StronglySorted Z.le q.
Proof.
  induction p as [|t p IH]; simpl; [trivial|].
  intros H. inversion H; subst. auto.
Qed.

Lemma suffix_Forall (P : Z -> Prop) (p q : list Z) :
  Forall P (p ++ q) -> Forall P q.
Proof. intros H. apply Forall_app in H. tauto. Qed.

Lemma sorted_snoc (q : list Z) (t : Z) :
  StronglySorted Z.le q -> Forall (fun x => x <= t) q -> StronglySorted Z.le (q ++ [t]).
Proof.
  induction 1 as [|x q Hs IH Hx]; simpl; intros Hle.
  - constructor; constructor.
  - inversion Hle; subst. constructor; [auto|].
    apply Forall_app. split; [assumption|]. constructor; [assumption | constructor].
Qed.

Lemma Forall_le_snoc (q : list Z) (t u : Z) :
  Forall (fun x => x <= t) q -> t <= u -> Forall (fun x => x <= u) (q ++ [u]).
Proof.
  intros Hq Htu. apply Forall_app. split.
  - eapply Forall_impl; [|exact Hq]. simpl. intros; lia.
  - constructor; [lia | constructor].
Qed.

(** The state after a recorded request: the shape every acquisition ends in. *)
Lemma recorded_well_formed (rpm : Z) (s : State) (q : list Z) (t : Z) (n : nat) :
  window_size s = 60 * resolution clk ->
  StronglySorted Z.le q ->
  Forall (fun x => x <= t) q ->
  newer_than (t - window_size s) q + 1 <= rpm ->
  well_formed clk rpm
    {| requests_per_minute := rpm; window_size := window_size s;
       _request_times := q ++ [t]; now := t; events := n |}.
Proof.
  intros HW Hs Hle Hc. unfold well_formed; simpl.
  repeat split; trivial.
  - now apply sorted_snoc.
  - eapply Forall_le_snoc; [eassumption | lia].
  - rewrite newer_than_app.
    assert (newer_than (t - window_size s) [t] <= 1)
      by (pose proof (newer_than_le_length (t - window_size s) [t]); simpl in *; lia).
    lia.
Qed.

(** One acquisition on an advancing clock returns, and keeps the limiter
    well formed: at most [rpm] timestamps in the window. *)
Lemma wait_sync_well_formed (rpm : Z) (s : State) :
  1 <= rpm -> 0 < resolution clk -> clock_advances clk ->
  well_formed clk rpm s ->
  exists s', wait_sync clk s = (inr tt, s') /\ well_formed clk rpm s'.
Proof.
  intros Hrpm Hres Hadv (HR & HW & Hsorted & Hle & Hcount).
  pose proof (Hadv (events s)) as He0.
  pose proof (Hadv (S (events s))) as He1.
  pose proof (Hadv (S (S (events s)))) as He2.
  pose proof (Hadv (S (S (S (events s))))) as He3.
  pose proof (Hadv (S (S (S (S (events s)))))) as He4.
  set (t1 := now s + elapse clk (events s)) in *.
  set (q1 := popleft_while_older (t1 - window_size s) (_request_times s)).
  destruct (popleft_suffix (t1 - window_size s) (_request_times s)) as [p Hp].
  fold q1 in Hp.
  assert (Hs1 : StronglySorted Z.le q1) by (eapply suffix_sorted; rewrite <- Hp; exact Hsorted).
  assert (Hle1 : Forall (fun t => t <= now s) q1) by (eapply suffix_Forall; rewrite <- Hp; exact Hle).
  assert (Hge1 : Forall (fun t => t1 - window_size s <= t) q1) by (apply popleft_sorted_ge; exact Hsorted).
  assert (Hlen1 : Z.of_nat (List.length q1) <= rpm).
  { rewrite <- (newer_than_all (now s - window_size s) q1).
    - rewrite Hp, newer_than_app in Hcount.
      pose proof (newer_than_nonneg (now s - window_size s) p). lia.
    - eapply Forall_impl; [|exact Hge1]. simpl. intros; lia. }
  unfold wait_sync, _get_wait_time, _cleanup_old_requests, _record_request,
    bind, time_time, get, set_request_times, sleep, ret, raise; simpl.
  fold t1. fold q1. rewrite HR.
  destruct (Z.ltb_spec (Z.of_nat (List.length q1)) rpm) as [Hlt|Hfull]; simpl.
  - (* a free slot *)
    eexists. split; [reflexivity|].
    rewrite <- HR. apply recorded_well_formed; trivial.
    + eapply Forall_impl; [|exact Hle1]. simpl. intros; lia.
    + pose proof (newer_than_le_length (t1 + elapse clk (S (events s)) - window_size s) q1). lia.
  - (* the window is full *)
    destruct q1 as [|oldest r] eqn:Eq1; cbn [List.length] in Hlen1, Hfull; [lia|].
    simpl.
    destruct (Z.ltb_spec 0 (Z.max 0 (oldest + window_size s - (t1 + elapse clk (S (events s))))))
      as [Hwait|Hnowait]; simpl.
    + (* sleep, clean up again, record *)
      eexists. split; [reflexivity|].
      rewrite <- HR.
      replace (Z.max 0 (oldest + window_size s - (t1 + elapse clk (S (events s)))))
        with (oldest + window_size s - (t1 + elapse clk (S (events s)))) by lia.
      destruct (Z.ltb_spec oldest
                  (t1 + elapse clk (S (events s))
                   + (oldest + window_size s - (t1 + elapse clk (S (events s))))
                   + elapse clk (S (S (events s))) + elapse clk (S (S (S (events s))))
                   - window_size s)) as [Hexp|Hkeep]; [|lia].
      match goal with
      | |- well_formed _ _ {| _request_times := popleft_while_older ?c r ++ _ |} =>
          destruct (popleft_suffix c r) as [p' Hp'];
          set (q2 := popleft_while_older c r) in *
      end.
      clearbody q2.
      apply StronglySorted_inv in Hs1. destruct Hs1 as [Hsr Hor].
      pose proof (Forall_inv_tail Hle1) as Hlr.
      apply recorded_well_formed; trivial.
      * eapply suffix_sorted. rewrite <- Hp'. exact Hsr.
      * eapply suffix_Forall with (p := p'). rewrite <- Hp'.
        eapply Forall_impl; [|exact Hlr]. simpl. intros; lia.
      * match goal with
        | |- newer_than ?a q2 + 1 <= _ => pose proof (newer_than_le_length a q2)
        end.
        assert (Z.of_nat (List.length q2) <= Z.of_nat (List.length r))
          by (apply (f_equal (@List.length Z)) in Hp'; rewrite length_app in Hp'; lia).
        lia.
    + (* the oldest request has left the window already *)
      eexists. split; [reflexivity|].
      rewrite <- HR.
      pose proof (Forall_inv Hle1) as Hlo. pose proof (Forall_inv_tail Hle1) as Hlr.
      simpl in Hlo.
      apply (recorded_well_formed _ s (oldest :: r)); trivial.
      * constructor; [lia|].
        eapply Forall_impl; [|exact Hlr]. simpl. intros; lia.
      * change (oldest :: r) with ([oldest] ++ r). rewrite newer_than_app.
        match goal with
        | |- newer_than ?a [oldest] + newer_than ?a r + 1 <= _ =>
            pose proof (newer_than_le_length a r);
            assert (newer_than a [oldest] = 0)
              by (unfold newer_than; simpl; destruct (Z.ltb_spec a oldest); [lia | reflexivity])
        end.
        lia.
Qed.

Lemma wait_async_eq_wait_sync (s : State) : wait_async clk s = wait_sync clk s.
Proof. reflexivity. Qed.

Lemma init_well_formed (rpm t0 : Z) :
  0 <= rpm -> well_formed clk rpm (init clk rpm t0).
Proof.
  intros Hrpm. unfold well_formed, init; simpl.
  repeat split; try constructor. unfold newer_than; simpl. lia.
Qed.

Lemma acquire_all_well_formed (rpm : Z) (calls : list Acquire) (s : State) :
  1 <= rpm -> 0 < resolution clk -> clock_advances clk ->
  well_formed clk rpm s ->
  exists s', acquire_all clk calls s = (inr tt, s') /\ well_formed clk rpm s'.
Proof.
  intros Hrpm Hres Hadv. revert s.
  induction calls as [|a calls IH]; intros s Hwf; simpl.
  - exists s. split; [reflexivity | assumption].
  - destruct (wait_sync_well_formed rpm s Hrpm Hres Hadv Hwf) as (s1 & Hrun & Hwf1).
    destruct (IH s1 Hwf1) as (s2 & Hrun2 & Hwf2).
    exists s2. split; [|assumption].
    unfold bind. destruct a; simpl; [|rewrite wait_async_eq_wait_sync];
      rewrite Hrun; exact Hrun2.
Qed.

(** X1.  On a clock that shows a later time at every reading, any number of
    acquisitions issued back to back return normally and never leave more than
    [rpm] timestamps in the 60-second window. *)
Lemma ceiling_holds_on_advancing_clock (rpm t0 : Z) (calls : list Acquire) :
  1 <= rpm -> 0 < resolution clk -> clock_advances clk ->
  exists s',
    acquire_all clk calls (init clk rpm t0) = (inr tt, s') /\
    requests_in_window s' <= rpm.
Proof.
  intros Hrpm Hres Hadv.
  destruct (acquire_all_well_formed rpm calls (init clk rpm t0) Hrpm Hres Hadv)
    as (s' & Hrun & Hwf); [apply init_well_formed; lia|].
  exists s'. split; [assumption|]. apply Hwf.
Qed.

End RateLimiterFacts.

(** C4 (the rate limiter's ceiling), at a failing input.  Limit 1, a clock
    with millisecond ticks: the first acquisition is recorded at 0 s; the
    second arrives at 10 s, sleeps the 50 s it computed and is recorded at
    60 s with the first timestamp still in the deque (it is not older than
    the cutoff); the third arrives within the same tick, finds a wait time of
    zero and is recorded at 60 s too.  Two timestamps now lie in the same
    60-second window, with a limit of one. *)
Theorem ceiling_exceeded_on_coarse_clock :
  exists s',
    RateLimiter.acquire_all Inputs.coarse_clock
      [RateLimiter.Sync; RateLimiter.Sync; RateLimiter.Sync]
      (RateLimiter.init Inputs.coarse_clock 1 0) = (inr tt, s') /\
    RateLimiter._request_times s' = [0; 60000; 60000] /\
    RateLimiter.now s' = 60000 /\
    RateLimiter.requests_per_minute s' = 1 /\
    RateLimiter.requests_in_window s' = 2.
Proof.
  eexists. split; [vm_compute; reflexivity|].
  repeat split.
Qed.

(** The same run through [wait_async]. *)
Lemma ceiling_exceeded_on_coarse_clock_async :
  RateLimiter.requests_in_window
    (snd (RateLimiter.acquire_all Inputs.coarse_clock
            [RateLimiter.Async; RateLimiter.Async; RateLimiter.Async]
            (RateLimiter.init Inputs.coarse_clock 1 0))) = 2.
Proof. vm_compute. reflexivity. Qed.

(** The advancing-clock lemma is not vacuous: four acquisitions with limit 2
    on the steady clock. *)
Lemma ceiling_holds_on_steady_clock :
  exists s',
    RateLimiter.acquire_all Inputs.steady_clock
      [RateLimiter.Sync; RateLimiter.Async; RateLimiter.Sync; RateLimiter.Async]
      (RateLimiter.init Inputs.steady_clock 2 0) = (inr tt, s') /\
    RateLimiter.requests_in_window s' <= 2.
Proof.
  apply (ceiling_holds_on_advancing_clock Inputs.steady_clock 2 0).
  - lia.
  - simpl. lia.
  - intros n. simpl. lia.
Defined.

(* ================================================================== *)
(** * Retrieval *)
(* ================================================================== *)

Section RetrievalFacts.
Import RAG Spec.
Variable env : Env.

(** [ORDER BY chunk_index]. *)
Lemma insert_by_index_sorted (x : DocumentChunk) (l : list DocumentChunk) :
  StronglySorted (fun a b => chunk_index a <= chunk_index b) l ->
  StronglySorted (fun a b => chunk_index a <= chunk_index b)
    (Py.insert_by (fun y x => chunk_index y <? chunk_index x) x l).
Proof.
  induction 1 as [|y l Hs IH Hy]; simpl.
  - constructor; constructor.
  - destruct (Z.ltb_spec (chunk_index y) (chunk_index x)).
    + constructor; [assumption|].
      apply insert_by_Forall; [lia | assumption].
    + constructor; [constructor; assumption|].
      constructor; [assumption|].
      eapply Forall_impl; [|exact Hy]. simpl. intros; lia.
Qed.

Lemma select_chunks_sorted (doc : UUID) :
  StronglySorted (fun a b => chunk_index a <= chunk_index b) (select_chunks env doc).
Proof.
  unfold select_chunks.
  induction (filter (fun c => String.eqb (document_id c) doc) (document_chunks env))
    as [|x l IH]; simpl.
  - constructor.
  - apply insert_by_index_sorted. exact IH.
Qed.

(** What the scoring loop appends, when it returns. *)
Lemma score_chunks_sound (q : list float) (thr : float) (chunks : list DocumentChunk) :
  forall acc out,
    score_chunks q thr chunks acc = Returned out ->
    exists r,
      out = acc ++ r /\
      Forall (scored_from q thr chunks) r /\
      (StronglySorted (fun a b => chunk_index a <= chunk_index b) chunks ->
       StronglySorted (fun a b => chunk_index (fst a) <= chunk_index (fst b)) r).
Proof.
  induction chunks as [|c rest IH]; simpl; intros acc out H.
  - inversion H; subst. exists []. rewrite app_nil_r.
    repeat split; constructor.
  - assert (Hweaken : forall r, Forall (scored_from q thr rest) r ->
                                Forall (scored_from q thr (c :: rest)) r).
    { intros r Hr. eapply Forall_impl; [|exact Hr].
      intros cs (Hin & Hrest). split; [now right | exact Hrest]. }
    assert (Hskip : score_chunks q thr rest acc = Returned out ->
                    exists r, out = acc ++ r /\
                              Forall (scored_from q thr (c :: rest)) r /\
                              (StronglySorted (fun a b => chunk_index a <= chunk_index b) (c :: rest) ->
                               StronglySorted (fun a b => chunk_index (fst a) <= chunk_index (fst b)) r)).
    { intros H'. destruct (IH _ _ H') as (r & -> & Hr & Hs).
      exists r. repeat split; auto.
      intros Hc. apply Hs. now inversion Hc. }
    destruct (embedding c) as [[|x v]|] eqn:Ee; auto.
    destruct (cosine_similarity q (x :: v)) as [score|e] eqn:Ec; [|discriminate].
    destruct (PrimFloat.leb thr score) eqn:Et; auto.
    destruct (IH _ _ H) as (r & -> & Hr & Hs).
    exists ((c, score) :: r). rewrite <- app_assoc. simpl.
    repeat split.
    + constructor; [|auto].
      unfold scored_from; simpl. rewrite Ee.
      split; [now left|]. split; [reflexivity|]. split; [eauto | assumption].
    + intros Hc. inversion Hc as [|? ? Hsr Hcr]; subst.
      constructor; [auto|].
      rewrite Forall_forall in Hr, Hcr |- *. intros cs Hcs.
      destruct (Hr cs Hcs) as (Hin & _). simpl. now apply Hcr.
Qed.

(** The scoring loop returns when the dimensions agree. *)
Lemma score_chunks_total (q : list float) (thr : float) (chunks : list DocumentChunk) :
  dims_match q chunks ->
  forall acc, exists out, score_chunks q thr chunks acc = Returned out.
Proof.
  induction 1 as [|c rest Hc Hrest IH]; simpl; intros acc.
  - eauto.
  - destruct (embedding c) as [[|x v]|] eqn:Ee; auto.
    unfold cosine_similarity, np_dot.
    rewrite Nat.eqb_sym. rewrite (proj2 (Nat.eqb_eq _ _) Hc).
    destruct (PrimFloat.leb thr _); auto.
Qed.

(** Nothing is retrieved when no chunk with an embedding reaches the
    threshold. *)
Lemma score_chunks_none (q : list float) (thr : float) (chunks : list DocumentChunk) :
  (forall c e s, In c chunks -> embedding c = Some e ->
                 cosine_similarity q e = Returned s -> PrimFloat.leb thr s = false) ->
  forall acc out, score_chunks q thr chunks acc = Returned out -> out = acc.
Proof.
  induction chunks as [|c rest IH]; simpl; intros Hlow acc out H.
  - now inversion H.
  - assert (Hrest : forall c' e s, In c' rest -> embedding c' = Some e ->
                                   cosine_similarity q e = Returned s ->
                                   PrimFloat.leb thr s = false)
      by (intros; eapply Hlow; eauto).
    destruct (embedding c) as [[|x v]|] eqn:Ee; eauto.
    destruct (cosine_similarity q (x :: v)) as [score|e] eqn:Ec; [|discriminate].
    rewrite (Hlow c (x :: v) score) in H; eauto.
Qed.

(** The calls one retrieval makes, whatever its outcome. *)
Lemma retrieve_trace (doc : UUID) (query : string) (k : Z) (thr : float) :
  trace (retrieve_relevant_chunks env doc query k thr) = [EvWaitAsync; EvEmbedQuery query].
Proof.
  unfold retrieve_relevant_chunks, embed_query, wait_async, emit, bind, lift, ret, raise, trace.
  simpl. destruct (aembed_query env query) as [q|]; simpl; [|reflexivity].
  destruct (score_chunks q thr (select_chunks env doc) []); reflexivity.
Qed.

(** The result of one retrieval, in terms of the scoring loop. *)
Lemma retrieve_result (doc : UUID) (query : string) (k : Z) (thr : float) :
  result (retrieve_relevant_chunks env doc query k thr) =
  match aembed_query env query with
  | None => Raised ProviderError
  | Some q =>
      match score_chunks q thr (select_chunks env doc) [] with
      | Raised e => Raised e
      | Returned scored => Returned (Py.slice_to k (sort_by_score scored))
      end
  end.
Proof.
  unfold retrieve_relevant_chunks, embed_query, wait_async, emit, bind, lift, ret, raise, result.
  simpl. destruct (aembed_query env query) as [q|]; simpl; [|reflexivity].
  destruct (score_chunks q thr (select_chunks env doc) []); reflexivity.
Qed.

Lemma slice_to_Forall {A : Type} (P : A -> Prop) (k : Z) (l : list A) :
  Forall P l -> Forall P (Py.slice_to k l).
Proof.
  intros H. unfold Py.slice_to.
  destruct (0 <=? k); rewrite Forall_forall in H |- *; intros x Hx; apply H;
    match type of Hx with
    | In _ (firstn ?n _) => rewrite <- (firstn_skipn n l); apply in_or_app; now left
    end.
Qed.

Lemma scored_is_number (q : list float) (thr : float) (chunks : list DocumentChunk)
      (r : list (DocumentChunk * float)) :
  Forall (scored_from q thr chunks) r ->
  Forall (fun cs => FloatOrder.is_number (snd cs)) r.
Proof.
  intros H. eapply Forall_impl; [|exact H].
  intros cs (_ & _ & _ & Hle). eapply float_le_is_number_r; exact Hle.
Qed.

End RetrievalFacts.

Section MonadFacts.
Import RAG.
Context {A B : Type}.

Lemma result_bind (m : M A) (k : A -> M B) :
  result (bind m k) =
  match result m with
  | Raised e => Raised e
  | Returned a => result (k a)
  end.
Proof.
  destruct m as [tr [a|e]]; unfold bind, result; simpl; [|reflexivity].
  destruct (k a); reflexivity.
Qed.

Lemma trace_bind (m : M A) (k : A -> M B) :
  trace (bind m k) =
  match result m with
  | Raised e => trace m
  | Returned a => trace m ++ trace (k a)
  end.
Proof.
  destruct m as [tr [a|e]]; unfold bind, result, trace; simpl; [|reflexivity].
  destruct (k a); reflexivity.
Qed.

End MonadFacts.

Section MultiRetrievalFacts.
Import RAG Spec.
Variable env : Env.

Lemma count_embeds_app (t1 t2 : list Event) :
  count_embeds (t1 ++ t2) = (count_embeds t1 + count_embeds t2)%nat.
Proof. unfold count_embeds. now rewrite filter_app, length_app. Qed.

Lemma count_waits_app (t1 t2 : list Event) :
  count_waits (t1 ++ t2) = (count_waits t1 + count_waits t2)%nat.
Proof. unfold count_waits. now rewrite filter_app, length_app. Qed.

(** When the loop over the documents returns, it has made one acquisition
    and one embedding call for each of them, and every chunk it gathered
    passed the threshold. *)
Lemma retrieve_each_returns (query : string) (k : Z) (thr : float) (docs : list UUID) :
  forall acc out,
    result (retrieve_each env docs query k thr acc) = Returned out ->
    trace (retrieve_each env docs query k thr acc) =
      flat_map (fun _ => [EvWaitAsync; EvEmbedQuery query]) docs /\
    (Forall (fun x => PrimFloat.leb thr (snd (fst x)) = true) acc ->
     Forall (fun x => PrimFloat.leb thr (snd (fst x)) = true) out).
Proof.
  induction docs as [|d rest IH]; intros acc out H.
  - simpl in *. unfold ret, result in H. simpl in H. inversion H; subst.
    split; [reflexivity | trivial].
  - cbn [retrieve_each] in *. rewrite result_bind in H. rewrite trace_bind.
    pose proof (retrieve_result env d query k thr) as Hres.
    destruct (result (retrieve_relevant_chunks env d query k thr)) as [chunks|e] eqn:Er;
      [|discriminate].
    destruct (IH _ _ H) as [Htr Hall].
    rewrite Htr, retrieve_trace. split; [reflexivity|].
    intros Hacc. apply Hall. apply Forall_app. split; [assumption|].
    destruct (aembed_query env query) as [q|]; [|discriminate].
    destruct (score_chunks q thr (select_chunks env d) []) as [scored|e] eqn:Es;
      [|discriminate].
    inversion Hres; subst chunks.
    destruct (score_chunks_sound q thr _ _ _ Es) as (r & -> & Hr & _).
    simpl. apply Forall_map. simpl.
    apply slice_to_Forall. apply stable_sort_Forall.
    eapply Forall_impl; [|exact Hr]. intros cs (_ & _ & _ & Hle). exact Hle.
Qed.

Lemma flat_map_pair_counts (query : string) (docs : list UUID) :
  count_embeds (flat_map (fun _ => [EvWaitAsync; EvEmbedQuery query]) docs) = List.length docs /\
  count_waits (flat_map (fun _ => [EvWaitAsync; EvEmbedQuery query]) docs) = List.length docs.
Proof.
  induction docs as [|d rest [IHe IHw]]; simpl; [split; reflexivity|].
  unfold count_embeds, count_waits in *. simpl. split; congruence.
Qed.

(** The merged list, when the multi-document retrieval returns. *)
Lemma retrieve_multi_returns (query : string) (k : Z) (thr : float) (docs : list UUID)
      (all : list (DocumentChunk * float * UUID)) :
  result (retrieve_from_multiple_documents env docs query k thr) = Returned all ->
  trace (retrieve_from_multiple_documents env docs query k thr) =
    flat_map (fun _ => [EvWaitAsync; EvEmbedQuery query]) docs /\
  StronglySorted merged_order all.
Proof.
  unfold retrieve_from_multiple_documents. rewrite result_bind, trace_bind.
  destruct (result (retrieve_each env docs query k thr [])) as [gathered|e] eqn:Er;
    [|discriminate].
  destruct (retrieve_each_returns query k thr docs [] gathered Er) as [Htr Hall].
  unfold ret, result, trace; simpl. intros H. inversion H; subst all.
  split; [rewrite app_nil_r; exact Htr|].
  unfold merged_order, sort_all_by_score.
  apply (stable_sort_ranked (fun x : DocumentChunk * float * UUID => snd (fst x)) (fun _ => 0)).
  - eapply Forall_impl; [|apply Hall; constructor].
    intros x Hx. eapply float_le_is_number_r; exact Hx.
  - clear. induction gathered as [|x l IH]; constructor; auto.
    apply Forall_forall. intros; lia.
Qed.

End MultiRetrievalFacts.

Section RetrievalCompleteness.
Import RAG Spec.
Variable env : Env.

Lemma insert_by_In {A : Type} (before : A -> A -> bool) (x y : A) (l : list A) :
  In y (Py.insert_by before x l) <-> x = y \/ In y l.
Proof.
  induction l as [|z l IH]; simpl; [tauto|].
  destruct (before z x); simpl; rewrite ?IH; tauto.
Qed.

Lemma stable_sort_In {A : Type} (before : A -> A -> bool) (y : A) (l : list A) :
  In y (Py.stable_sort before l) <-> In y l.
Proof.
  induction l as [|x l IH]; simpl; [tauto|].
  rewrite insert_by_In, IH. tauto.
Qed.

(** The scoring loop misses no chunk that has an embedding and reaches the
    threshold. *)
Lemma score_chunks_complete (q : list float) (thr : float) (chunks : list DocumentChunk) :
  forall acc out,
    score_chunks q thr chunks acc = Returned out ->
    (forall cs, In cs acc -> In cs out) /\
    (forall c x v s,
        In c chunks -> embedding c = Some (x :: v) ->
        cosine_similarity q (x :: v) = Returned s -> PrimFloat.leb thr s = true ->
        In (c, s) out).
Proof.
  induction chunks as [|c rest IH]; simpl; intros acc out H.
  - inversion H; subst. split; [auto | contradiction].
  - destruct (embedding c) as [[|x v]|] eqn:Ee.
    + destruct (IH _ _ H) as [Hacc Hall]. split; [assumption|].
      intros c' x' v' s [<-|Hin] He; [congruence | eauto].
    + destruct (cosine_similarity q (x :: v)) as [score|e] eqn:Ec; [|discriminate].
      destruct (PrimFloat.leb thr score) eqn:Et.
      * destruct (IH _ _ H) as [Hacc Hall]. split.
        -- intros cs Hcs. apply Hacc, in_or_app. now left.
        -- intros c' x' v' s [<-|Hin] He Hc Hs; [|eauto].
           rewrite Ee in He. inversion He; subst x' v'.
           rewrite Ec in Hc. inversion Hc; subst s.
           apply Hacc, in_or_app. right. now left.
      * destruct (IH _ _ H) as [Hacc Hall]. split; [assumption|].
        intros c' x' v' s [<-|Hin] He Hc Hs; [|eauto].
        rewrite Ee in He. inversion He; subst x' v'.
        rewrite Ec in Hc. inversion Hc; subst s. congruence.
    + destruct (IH _ _ H) as [Hacc Hall]. split; [assumption|].
      intros c' x' v' s [<-|Hin] He; [congruence | eauto].
Qed.

(** X8.  What a retrieval returns are the best: a chunk of the document that has
    an embedding and reaches the threshold is in the result, or else scores
    no higher than anything in it. *)
Lemma retrieve_keeps_the_best
      (doc : UUID) (query : string) (k : Z) (thr : float) (q : list float)
      (r : list (DocumentChunk * float)) :
  0 <= k ->
  aembed_query env query = Some q ->
  result (retrieve_relevant_chunks env doc query k thr) = Returned r ->
  forall c x v s,
    In c (select_chunks env doc) -> embedding c = Some (x :: v) ->
    cosine_similarity q (x :: v) = Returned s -> PrimFloat.leb thr s = true ->
    In (c, s) r \/ Forall (fun cs => PrimFloat.leb s (snd cs) = true) r.
Proof.
  intros Hk Hq. rewrite retrieve_result, Hq.
  destruct (score_chunks q thr (select_chunks env doc) []) as [scored|e] eqn:Es;
    [|discriminate].
  intros H. inversion H; subst r. clear H.
  intros c x v s Hin He Hc Hs.
  destruct (score_chunks_complete q thr _ _ _ Es) as [_ Hall].
  pose proof (Hall c x v s Hin He Hc Hs) as Hscored.
  apply (stable_sort_In (Py.by_score_desc snd)) in Hscored. fold (sort_by_score scored) in Hscored.
  destruct (score_chunks_sound q thr _ _ _ Es) as (r0 & Hr0 & Hfrom & Hidx).
  simpl in Hr0. subst r0.
  assert (Hsorted : StronglySorted retrieval_order (sort_by_score scored)).
  { apply (stable_sort_ranked (@snd DocumentChunk float) (fun cs => chunk_index (fst cs))).
    - eapply scored_is_number; exact Hfrom.
    - apply Hidx, select_chunks_sorted. }
  rewrite slice_to_firstn by assumption.
  rewrite <- (firstn_skipn (Z.to_nat k) (sort_by_score scored)) in Hscored, Hsorted.
  apply in_app_or in Hscored. destruct Hscored as [Hkept|Hcut]; [now left|].
  right. apply Forall_forall. intros cs Hcs.
  exact (proj1 (StronglySorted_app_cross _ _ _ Hsorted cs (c, s) Hcs Hcut)).
Qed.

End RetrievalCompleteness.

(** C5 (retrieval ranking).  With a count cap [k >= 0] and stored embeddings
    of the query's dimension, [retrieve_relevant_chunks] returns at most [k]
    pairs; each is a chunk of the document with a non-empty embedding, paired
    with its cosine similarity to the query, which is at least the threshold;
    the pairs are in descending order of similarity, and of two with equal
    similarity the one with the lower chunk index comes first. *)
Theorem retrieve_relevant_chunks_ranked
        (env : RAG.Env) (doc : RAG.UUID) (query : string) (k : Z) (thr : float)
        (q : list float) :
  0 <= k ->
  RAG.aembed_query env query = Some q ->
  Spec.dims_match q (RAG.select_chunks env doc) ->
  exists r,
    RAG.result (RAG.retrieve_relevant_chunks env doc query k thr) = RAG.Returned r /\
    Z.of_nat (List.length r) <= k /\
    Forall (Spec.scored_from q thr (RAG.select_chunks env doc)) r /\
    StronglySorted Spec.retrieval_order r.
Proof.
  intros Hk Hq Hdims.
  rewrite retrieve_result, Hq.
  destruct (score_chunks_total q thr _ Hdims []) as [scored Hs]. rewrite Hs.
  destruct (score_chunks_sound q thr _ _ _ Hs) as (r0 & -> & Hr0 & Hsorted).
  simpl. eexists. split; [reflexivity|].
  rewrite slice_to_firstn by assumption.
  split; [|split].
  - pose proof (firstn_le_length (Z.to_nat k) (RAG.sort_by_score r0)). lia.
  - rewrite <- (slice_to_firstn k) by assumption.
    apply slice_to_Forall. now apply stable_sort_Forall.
  - apply StronglySorted_firstn.
    apply (stable_sort_ranked (@snd RAG.DocumentChunk float)
             (fun cs => RAG.chunk_index (fst cs))).
    + eapply scored_is_number; exact Hr0.
    + apply Hsorted, select_chunks_sorted.
Qed.

Lemma retrieve_relevant_chunks_ranked_witness :
  exists r,
    RAG.result (RAG.retrieve_relevant_chunks Inputs.library "d1" "q" 5 0.5%float)
      = RAG.Returned r /\
    Z.of_nat (List.length r) <= 5 /\
    Forall (Spec.scored_from [1; 0]%float 0.5%float (RAG.select_chunks Inputs.library "d1")) r /\
    StronglySorted Spec.retrieval_order r.
Proof.
  apply (retrieve_relevant_chunks_ranked Inputs.library "d1" "q" 5 0.5%float [1; 0]%float).
  - lia.
  - reflexivity.
  - vm_compute. repeat constructor.
Defined.

(** The three chunks of [d1] that have an embedding, against the query
    embedding [[1, 0]] with threshold 0.5 and [k = 2]: "alpha" (similarity 1),
    then "gamma" (similarity 0.707...); "beta" (similarity 0) is left out. *)
Example retrieve_library_d1 :
  exists r,
    RAG.result (RAG.retrieve_relevant_chunks Inputs.library "d1" "q" 2 0.5%float)
      = RAG.Returned r /\
    map (fun cs => RAG.content (fst cs)) r = ["alpha"; "gamma"] /\
    map (fun cs => PrimFloat.leb 0.5%float (snd cs)) r = [true; true].
Proof. eexists. split; [vm_compute; reflexivity|]. split; vm_compute; reflexivity. Qed.

(** C10, as stated, fails: a stored embedding of one component against a
    query embedding of two makes [np.dot] raise, and the retrieval with it. *)
Lemma odd_embedding_raises :
  RAG.aembed_query Inputs.library_with_odd_embedding "q" = Some [1; 0]%float /\
  RAG.embedding (Inputs.chunk "d1" 4 "epsilon" (Some [1]%float) None) = Some [1]%float /\
  RAG.result (RAG.retrieve_relevant_chunks Inputs.library_with_odd_embedding "d1" "q" 5 0.5%float)
    = RAG.Raised RAG.ValueError.
Proof. vm_compute. repeat split. Qed.

(** C10, amended.  When every stored embedding that is neither missing nor
    empty has the query's dimension, the ranking step returns; no chunk with a
    missing or empty embedding is in the result, whatever the threshold; and
    the result is empty for a document without chunks and for one whose
    chunks all score below the threshold. *)
Theorem ranking_skips_missing_embeddings
        (env : RAG.Env) (doc : RAG.UUID) (query : string) (k : Z) (thr : float)
        (q : list float) :
  RAG.aembed_query env query = Some q ->
  Spec.dims_match q (RAG.select_chunks env doc) ->
  exists r,
    RAG.result (RAG.retrieve_relevant_chunks env doc query k thr) = RAG.Returned r /\
    Forall (fun cs => Py.truthy_list (RAG.embedding (fst cs)) = true) r /\
    (RAG.select_chunks env doc = [] -> r = []) /\
    ((forall c e s,
         In c (RAG.select_chunks env doc) -> RAG.embedding c = Some e ->
         RAG.cosine_similarity q e = RAG.Returned s -> PrimFloat.leb thr s = false) ->
     r = []).
Proof.
  intros Hq Hdims.
  rewrite retrieve_result, Hq.
  destruct (score_chunks_total q thr _ Hdims []) as [scored Hs]. rewrite Hs.
  eexists. split; [reflexivity|].
  assert (Hnil : Py.slice_to k (RAG.sort_by_score []) = @nil (RAG.DocumentChunk * float)).
  { unfold Py.slice_to. simpl. destruct (0 <=? k); apply firstn_nil. }
  split; [|split].
  - destruct (score_chunks_sound q thr _ _ _ Hs) as (r0 & -> & Hr0 & _). simpl.
    apply slice_to_Forall, stable_sort_Forall.
    eapply Forall_impl; [|exact Hr0]. intros cs (_ & Ht & _). exact Ht.
  - intros Hempty. rewrite Hempty in Hs. simpl in Hs. inversion Hs; subst. exact Hnil.
  - intros Hlow. rewrite (score_chunks_none q thr _ Hlow _ _ Hs). exact Hnil.
Qed.

Lemma ranking_skips_missing_embeddings_witness :
  exists r,
    RAG.result (RAG.retrieve_relevant_chunks Inputs.library "d1" "q" 5 0.5%float)
      = RAG.Returned r /\
    Forall (fun cs => Py.truthy_list (RAG.embedding (fst cs)) = true) r /\
    (RAG.select_chunks Inputs.library "d1" = [] -> r = []) /\
    ((forall c e s,
         In c (RAG.select_chunks Inputs.library "d1") -> RAG.embedding c = Some e ->
         RAG.cosine_similarity [1; 0]%float e = RAG.Returned s ->
         PrimFloat.leb 0.5%float s = false) ->
     r = []).
Proof.
  apply (ranking_skips_missing_embeddings Inputs.library "d1" "q" 5 0.5%float [1; 0]%float).
  - reflexivity.
  - vm_compute. repeat constructor.
Defined.

(** C2, as stated, fails: for two documents the query is embedded twice, each
    time behind its own rate limiter acquisition. *)
Lemma two_documents_two_embedding_calls :
  RAG.trace (RAG.retrieve_from_multiple_documents Inputs.library ["d1"; "d2"] "q" 3
               RAG.default_similarity_threshold) =
    [RAG.EvWaitAsync; RAG.EvEmbedQuery "q"; RAG.EvWaitAsync; RAG.EvEmbedQuery "q"] /\
  RAG.count_embeds
    (RAG.trace (RAG.retrieve_from_multiple_documents Inputs.library ["d1"; "d2"] "q" 3
                  RAG.default_similarity_threshold)) <> 1%nat.
Proof. split; [vm_compute; reflexivity | vm_compute; discriminate]. Qed.

(** C2, amended.  A multi-document retrieval that returns has embedded the
    query once for every document identifier in the list, each call behind
    one rate limiter acquisition of its own: the calls made are one
    acquisition followed by one embedding call, per document, in order. *)
Theorem one_embedding_call_per_document
        (env : RAG.Env) (docs : list RAG.UUID) (query : string) (k : Z) (thr : float)
        (all : list (RAG.DocumentChunk * float * RAG.UUID)) :
  RAG.result (RAG.retrieve_from_multiple_documents env docs query k thr) = RAG.Returned all ->
  RAG.trace (RAG.retrieve_from_multiple_documents env docs query k thr) =
    flat_map (fun _ => [RAG.EvWaitAsync; RAG.EvEmbedQuery query]) docs /\
  RAG.count_embeds (RAG.trace (RAG.retrieve_from_multiple_documents env docs query k thr))
    = List.length docs /\
  RAG.count_waits (RAG.trace (RAG.retrieve_from_multiple_documents env docs query k thr))
    = List.length docs.
Proof.
  intros H. destruct (retrieve_multi_returns env query k thr docs all H) as [Htr _].
  rewrite Htr. split; [reflexivity|]. apply flat_map_pair_counts.
Qed.

Lemma one_embedding_call_per_document_witness :
  RAG.trace (RAG.retrieve_from_multiple_documents Inputs.library ["d1"; "d2"; "d1"] "q" 3 0.5%float) =
    flat_map (fun _ => [RAG.EvWaitAsync; RAG.EvEmbedQuery "q"]) ["d1"; "d2"; "d1"] /\
  RAG.count_embeds
    (RAG.trace (RAG.retrieve_from_multiple_documents Inputs.library ["d1"; "d2"; "d1"] "q" 3 0.5%float))
    = 3%nat /\
  RAG.count_waits
    (RAG.trace (RAG.retrieve_from_multiple_documents Inputs.library ["d1"; "d2"; "d1"] "q" 3 0.5%float))
    = 3%nat.
Proof.
  eapply (one_embedding_call_per_document Inputs.library ["d1"; "d2"; "d1"] "q" 3 0.5%float).
  vm_compute. reflexivity.
Defined.

(* ================================================================== *)
(** * Context assembly *)
(* ================================================================== *)

Section ContextFacts.
Import RAG Spec.

Lemma build_context_loop_prefix (B : Z) (chunks : list (DocumentChunk * float)) :
  forall parts cits cur,
  exists n,
    (n <= List.length chunks)%nat /\
    build_context_loop B chunks parts cits cur =
      (parts ++ numbered_parts (List.length cits) (firstn n chunks),
       cits ++ map (fun cs => citation (fst cs) (snd cs)) (firstn n chunks)) /\
    (forall i, (i < n)%nat -> cur + sum_tokens (firstn (S i) chunks) <= B) /\
    ((n < List.length chunks)%nat -> B < cur + sum_tokens (firstn (S n) chunks)).
Proof.
  induction chunks as [|[c s] rest IH]; intros parts cits cur.
  - exists 0%nat. simpl. rewrite !app_nil_r. repeat split; lia.
  - cbn [build_context_loop].
    destruct (Z.ltb_spec B (cur + chunk_tokens c)) as [Hover|Hfits].
    + exists 0%nat. simpl. rewrite !app_nil_r.
      repeat split; try lia.
    + destruct (IH (parts ++ [context_part (Z.of_nat (List.length cits) + 1) c])
                   (cits ++ [citation c s]) (cur + chunk_tokens c))
        as (n & Hn & Heq & Hin & Hout).
      exists (S n). split; [simpl; lia|]. split; [|split].
      * rewrite Heq. rewrite length_app, Nat.add_1_r. simpl.
        now rewrite <- !app_assoc.
      * intros [|i] Hi; simpl.
        -- lia.
        -- specialize (Hin i ltac:(lia)). simpl in Hin. lia.
      * intros Hlt. specialize (Hout ltac:(simpl in Hlt; lia)).
        cbn [firstn sum_tokens fold_right fst] in *. unfold sum_tokens in Hout. lia.
Qed.

End ContextFacts.

(** C6 (context budget).  [B] is the budget in force, [max_tokens] or else the
    configured [max_context_tokens].  [build_context] keeps a prefix of the
    ranked chunks: every kept chunk still fits with all those before it, and
    the first chunk left out, if there is one, would take the running total
    above [B]; nothing after it is looked at.  The context is the join of the
    kept chunks' blocks and there is one citation per kept chunk; both are
    empty for an empty input and when the first chunk alone exceeds [B]. *)
Theorem build_context_greedy_prefix
        (env : RAG.Env) (chunks : list (RAG.DocumentChunk * float)) (max_tokens : option Z) :
  let B := Py.or_int max_tokens (RAG.max_context_tokens env) in
  exists n,
    (n <= List.length chunks)%nat /\
    (forall i, (i < n)%nat -> Spec.sum_tokens (firstn (S i) chunks) <= B) /\
    ((n < List.length chunks)%nat -> B < Spec.sum_tokens (firstn (S n) chunks)) /\
    RAG.build_context env chunks max_tokens =
      (Py.join (Py.nl +++ Py.nl) (Spec.numbered_parts 0 (firstn n chunks)),
       map (fun cs => RAG.citation (fst cs) (snd cs)) (firstn n chunks)) /\
    List.length (snd (RAG.build_context env chunks max_tokens)) = n /\
    (chunks = [] -> RAG.build_context env chunks max_tokens = (EmptyString, [])) /\
    (forall cs rest, chunks = cs :: rest -> B < RAG.chunk_tokens (fst cs) ->
                     RAG.build_context env chunks max_tokens = (EmptyString, [])).
Proof.
  intros B.
  destruct (build_context_loop_prefix B chunks [] [] 0) as (n & Hn & Heq & Hin & Hout).
  simpl in Heq.
  assert (Hbc : RAG.build_context env chunks max_tokens =
                (Py.join (Py.nl +++ Py.nl) (Spec.numbered_parts 0 (firstn n chunks)),
                 map (fun cs => RAG.citation (fst cs) (snd cs)) (firstn n chunks))).
  { unfold RAG.build_context. fold B. rewrite Heq. reflexivity. }
  exists n. split; [assumption|].
  split; [intros i Hi; specialize (Hin i Hi); lia|].
  split; [intros Hlt; specialize (Hout Hlt); lia|].
  split; [assumption|].
  split; [rewrite Hbc; simpl; rewrite length_map, length_firstn; lia|].
  split.
  - intros ->. rewrite Hbc. destruct n; reflexivity.
  - intros cs rest -> Hbig.
    destruct n as [|n].
    + rewrite Hbc. reflexivity.
    + specialize (Hin 0%nat ltac:(lia)). simpl in Hin. lia.
Qed.

(** Token counts 50, 60, 40 and a budget of 100: only the first chunk is
    kept, with one citation. *)
Example build_context_50_60_40 :
  map RAG.cit_chunk_id (snd (RAG.build_context Inputs.library Inputs.ranked_50_60_40 (Some 100)))
    = ["d3-0"] /\
  fst (RAG.build_context Inputs.library Inputs.ranked_50_60_40 (Some 100))
    = "[Source 1 (Page 1)]:" +++ Py.nl +++ "first".
Proof. split; vm_compute; reflexivity. Qed.

(** An explicit budget of 0 is falsy and selects the configured budget. *)
Remark zero_budget_selects_default
       (env : RAG.Env) (chunks : list (RAG.DocumentChunk * float)) :
  RAG.build_context env chunks (Some 0) = RAG.build_context env chunks None.
Proof. reflexivity. Qed.

(* ================================================================== *)
(** * Chat history *)
(* ================================================================== *)

Section HistoryFacts.
Import RAG Spec.

Lemma history_loop_replay (l : list ChatMessage) :
  forall acc, history_loop l acc = acc ++ flat_map replay l.
Proof.
  induction l as [|m l IH]; intros acc; simpl.
  - now rewrite app_nil_r.
  - unfold replay at 1. destruct (role m); simpl; rewrite IH;
      now rewrite <- ?app_assoc.
Qed.

Lemma replay_no_system (l : list ChatMessage) (m : Message) :
  In m (flat_map replay l) -> is_system_message m = false.
Proof.
  induction l as [|x l IH]; simpl; [contradiction|].
  intros H. apply in_app_or in H. destruct H as [H|H]; [|auto].
  unfold replay in H. destruct (role x); simpl in H; try contradiction;
    destruct H as [<-|[]]; reflexivity.
Qed.

Lemma replay_length (l : list ChatMessage) :
  Forall (fun m => role m <> SYSTEM) l ->
  List.length (flat_map replay l) = List.length l.
Proof.
  induction 1 as [|x l Hx Hl IH]; simpl; [reflexivity|].
  rewrite length_app, IH. unfold replay. destruct (role x); simpl; congruence.
Qed.

End HistoryFacts.

(** C8 (history window).  For a window size [K >= 1], [build_chat_history]
    replays the last [min(len, 2K)] turns in their order, each tagged by its
    role, system turns left out: no system message is in the history, and
    when the window holds no system turn the history has exactly
    [min(len, 2K)] turns. *)
Theorem build_chat_history_window (messages : list RAG.ChatMessage) (K : Z) :
  1 <= K ->
  let n := Nat.min (List.length messages) (Z.to_nat (2 * K)) in
  RAG.build_chat_history messages K = flat_map Spec.replay (Spec.last_turns n messages) /\
  (forall m, In m (RAG.build_chat_history messages K) -> Spec.is_system_message m = false) /\
  (Forall (fun m => RAG.role m <> RAG.SYSTEM) (Spec.last_turns n messages) ->
   List.length (RAG.build_chat_history messages K) = n).
Proof.
  intros HK n.
  assert (Heq : RAG.build_chat_history messages K =
                flat_map Spec.replay (Spec.last_turns n messages)).
  { unfold RAG.build_chat_history, Spec.last_turns. rewrite history_loop_replay. simpl.
    f_equal.
    destruct (Z.ltb_spec (K * 2) (Z.of_nat (List.length messages))) as [Hlong|Hshort].
    - unfold Py.slice_from.
      destruct (Z.leb_spec 0 (- K * 2)) as [Hneg|Hneg]; [lia|].
      f_equal. subst n. lia.
    - replace (List.length messages - n)%nat with 0%nat by (subst n; lia).
      reflexivity. }
  split; [exact Heq|]. split.
  - intros m. rewrite Heq. apply replay_no_system.
  - intros Hno. rewrite Heq, replay_length by assumption.
    unfold Spec.last_turns. rewrite length_skipn. subst n. lia.
Qed.

Lemma build_chat_history_window_witness :
  let n := Nat.min (List.length (RAG.chat_messages Inputs.library)) (Z.to_nat (2 * 2)) in
  RAG.build_chat_history (RAG.chat_messages Inputs.library) 2 =
    flat_map Spec.replay (Spec.last_turns n (RAG.chat_messages Inputs.library)) /\
  (forall m, In m (RAG.build_chat_history (RAG.chat_messages Inputs.library) 2) ->
             Spec.is_system_message m = false) /\
  (Forall (fun m => RAG.role m <> RAG.SYSTEM)
          (Spec.last_turns n (RAG.chat_messages Inputs.library)) ->
   List.length (RAG.build_chat_history (RAG.chat_messages Inputs.library) 2) = n).
Proof.
  apply (build_chat_history_window (RAG.chat_messages Inputs.library) 2). lia.
Defined.

(** Ten alternating turns and a window of 2: the last four turns, in order. *)
Example build_chat_history_ten_turns :
  RAG.build_chat_history Inputs.ten_turns 2 =
  [RAG.HumanMessage "q4"; RAG.AIMessage "a4"; RAG.HumanMessage "q5"; RAG.AIMessage "a5"].
Proof. vm_compute. reflexivity. Qed.

(** The window of the library's session holds a system turn, which is left
    out of the history. *)
Example build_chat_history_skips_system :
  RAG.build_chat_history (RAG.chat_messages Inputs.library) 2 =
  [RAG.HumanMessage "q2"; RAG.AIMessage "a2"; RAG.HumanMessage "q3"].
Proof. vm_compute. reflexivity. Qed.

(* ================================================================== *)
(** * Answering *)
(* ================================================================== *)

Section AnswerFacts.
Import RAG Spec.
Variable env : Env.

Lemma result_llm_invoke (req : LlmRequest) :
  result (llm_invoke env req) =
  match ainvoke env req with
  | Some content => Returned content
  | None => Raised ProviderError
  end.
Proof.
  unfold llm_invoke, emit, bind, ret, raise, result. simpl.
  destruct (ainvoke env req); reflexivity.
Qed.

Lemma result_wait_async : result wait_async = Returned tt.
Proof. reflexivity. Qed.

(** The suggestion step always returns. *)
Lemma follow_up_never_raises (context question answer : string) :
  exists j, result (_generate_follow_up_questions env context question answer) = Returned j.
Proof.
  unfold _generate_follow_up_questions, try_except.
  destruct (wait_async;;; _) as [tr [j|e]]; simpl; eauto.
Qed.

(** It returns the empty list when its provider call or the parse fails. *)
Lemma follow_up_failure_empty (context question answer : string) :
  follow_up_fails env context question answer ->
  result (_generate_follow_up_questions env context question answer) = Returned (JArr []).
Proof.
  unfold follow_up_fails, _generate_follow_up_questions, try_except, llm_invoke,
    wait_async, emit, bind, lift, ret, raise, result.
  simpl. intros [Hnone | (out & Hout & Hparse)].
  - rewrite Hnone. reflexivity.
  - rewrite Hout. simpl. rewrite Hparse. reflexivity.
Qed.

(** [context_used] is the number of chunks retrieved. *)
Lemma answer_question_context_used
      (session : ChatSession) (question : string) (k : Z) (thr : float)
      (include_citations include_suggestions : bool) (r : Answer) :
  result (answer_question env session question k thr include_citations include_suggestions)
    = Returned r ->
  exists relevant,
    result (retrieve_relevant_chunks env (sess_document_id session) question k thr)
      = Returned relevant /\
    context_used r = Z.of_nat (List.length relevant).
Proof.
  unfold answer_question. rewrite result_bind.
  destruct (result (retrieve_relevant_chunks env (sess_document_id session) question k thr))
    as [relevant|e]; [|discriminate].
  intros H. exists relevant. split; [reflexivity|].
  destruct (build_context env relevant None) as [context cits].
  rewrite result_bind, result_wait_async, result_bind, result_llm_invoke in H.
  destruct (ainvoke env _) as [ans|]; [|discriminate].
  rewrite result_bind in H.
  destruct (result (if include_suggestions && Py.truthy_str context
                    then _generate_follow_up_questions env context question ans
                    else ret (JArr []))) as [sugg|e]; [|discriminate].
  unfold ret, result in H. simpl in H. inversion H; subst r. reflexivity.
Qed.

(** The loop of the multi-document path keeps every chunk it is given. *)
Lemma multi_context_loop_all (chunks : list (DocumentChunk * float * UUID)) :
  forall parts cits,
    multi_context_loop env chunks parts cits =
    (parts ++ map (fun x => multi_context_part (select_filename env (snd x)) (fst (fst x))) chunks,
     cits ++ map (multi_citation_of env) chunks).
Proof.
  induction chunks as [|[[c s] d] rest IH]; intros parts cits; simpl.
  - now rewrite !app_nil_r.
  - rewrite IH, <- !app_assoc. reflexivity.
Qed.

End AnswerFacts.

(** C1 ([context_used]), at a failing input.  Document [d1] of the library,
    threshold 0.5: two chunks of 3000 tokens each are retrieved, the budget
    of 4000 tokens keeps one of them, and the answer reports
    [context_used = 2] beside its single citation. *)
Theorem context_used_counts_retrieved_chunks :
  exists r relevant,
    RAG.result (RAG.answer_question Inputs.library Inputs.session_d1 "q" 5 0.5%float true true)
      = RAG.Returned r /\
    RAG.result (RAG.retrieve_relevant_chunks Inputs.library "d1" "q" 5 0.5%float)
      = RAG.Returned relevant /\
    List.length relevant = 2%nat /\
    List.length (snd (RAG.build_context Inputs.library relevant None)) = 1%nat /\
    List.length (RAG.citations r) = 1%nat /\
    RAG.context_used r = 2.
Proof.
  do 2 eexists. split; [vm_compute; reflexivity|].
  split; [vm_compute; reflexivity|].
  repeat split.
Qed.

(** C9 (suggestion failure).  If the answer can be produced without the
    suggestion step, and the suggestion call for its context, question and
    answer fails or returns what [json.loads] rejects, then asking for
    suggestions returns that same answer, with the empty suggestion list. *)
Theorem suggestion_failure_is_isolated
        (env : RAG.Env) (session : RAG.ChatSession) (question : string) (k : Z) (thr : float)
        (include_citations : bool)
        (relevant : list (RAG.DocumentChunk * float)) (r0 : RAG.Answer) :
  RAG.result (RAG.retrieve_relevant_chunks env (RAG.sess_document_id session) question k thr)
    = RAG.Returned relevant ->
  RAG.result (RAG.answer_question env session question k thr include_citations false)
    = RAG.Returned r0 ->
  Spec.follow_up_fails env (fst (RAG.build_context env relevant None)) question (RAG.answer r0) ->
  RAG.result (RAG.answer_question env session question k thr include_citations true)
    = RAG.Returned r0 /\
  RAG.suggestions r0 = RAG.JArr [].
Proof.
  intros Hret Hoff Hfail.
  unfold RAG.answer_question in *.
  rewrite result_bind, Hret in Hoff |- *.
  destruct (RAG.build_context env relevant None) as [context cits]. simpl in Hfail.
  rewrite result_bind, result_wait_async, result_bind, result_llm_invoke in Hoff |- *.
  destruct (RAG.ainvoke env _) as [ans|]; [|discriminate].
  rewrite result_bind in Hoff |- *. simpl in Hoff.
  unfold RAG.ret, RAG.result in Hoff. simpl in Hoff. inversion Hoff; subst r0.
  simpl in Hfail |- *.
  split; [|reflexivity].
  destruct (Py.truthy_str context).
  - rewrite (follow_up_failure_empty env context question ans Hfail). reflexivity.
  - reflexivity.
Qed.

Lemma suggestion_failure_is_isolated_witness :
  exists r0,
    RAG.result (RAG.answer_question Inputs.library Inputs.session_d1 "q" 5 0.5%float true true)
      = RAG.Returned r0 /\
    RAG.suggestions r0 = RAG.JArr [].
Proof.
  eexists.
  eapply (suggestion_failure_is_isolated Inputs.library Inputs.session_d1 "q" 5 0.5%float true).
  - vm_compute. reflexivity.
  - vm_compute. reflexivity.
  - left. vm_compute. reflexivity.
Defined.

(* ================================================================== *)
(** * Citations and the multi-document path *)
(* ================================================================== *)

(** The snippet of the single-document path: the first 200 characters and an
    ellipsis for a longer content, the content itself otherwise. *)
Lemma snippet_spec (text : string) :
  (200 < Py.len_str text -> RAG.snippet text = Py.str_slice_to 200 text +++ "...") /\
  (Py.len_str text <= 200 -> RAG.snippet text = text).
Proof.
  unfold RAG.snippet. destruct (Z.ltb_spec 200 (Py.len_str text)); split; intros; trivial; lia.
Qed.

(** Every citation of [build_context] carries that snippet of its chunk. *)
Lemma build_context_snippets
      (env : RAG.Env) (chunks : list (RAG.DocumentChunk * float)) (max_tokens : option Z) :
  Forall (fun cit => exists cs, In cs chunks /\
                                RAG.cit_chunk_id cit = RAG.id (fst cs) /\
                                RAG.content_snippet cit = RAG.snippet (RAG.content (fst cs)))
         (snd (RAG.build_context env chunks max_tokens)).
Proof.
  unfold RAG.build_context.
  destruct (build_context_loop_prefix (Py.or_int max_tokens (RAG.max_context_tokens env))
              chunks [] [] 0) as (n & _ & Heq & _).
  rewrite Heq. simpl. apply Forall_forall. intros cit Hin.
  apply in_map_iff in Hin. destruct Hin as (cs & <- & Hcs).
  exists cs. repeat split.
  rewrite <- (firstn_skipn n chunks). apply in_or_app. now left.
Qed.

(** The snippet of the multi-document path always ends in the ellipsis. *)
Lemma multi_citation_snippet
      (f : option string) (c : RAG.DocumentChunk) (s : float) (d : RAG.UUID) :
  RAG.content_snippet (RAG.multi_citation f c s d) =
  Py.str_slice_to 200 (RAG.content c) +++ "...".
Proof. reflexivity. Qed.

(** C3 (citation snippets), at a failing input.  A multi-document question
    over document [d2], whose only chunk has the eleven-character content
    "alpha again": its citation's snippet is the content followed by the
    ellipsis, where the single-document path gives the content unchanged. *)
Theorem multi_document_snippet_of_short_content :
  exists r,
    RAG.result (RAG.answer_multi_document_question Inputs.library ["d2"] "q" 3)
      = RAG.Returned r /\
    map RAG.content_snippet (RAG.multi_citations r) = ["alpha again..."] /\
    RAG.snippet "alpha again" = "alpha again".
Proof.
  eexists. split; [vm_compute; reflexivity|].
  split; reflexivity.
Qed.

(** C7, as stated, fails on the token budget.  A multi-document question over
    document [d1]: both retrieved chunks, of 3000 tokens each, enter the
    context and are cited, where [build_context] with the configured budget
    of 4000 tokens keeps one of the same two. *)
Lemma multi_document_context_ignores_budget :
  exists r all,
    RAG.result (RAG.answer_multi_document_question Inputs.library ["d1"] "q" 3)
      = RAG.Returned r /\
    RAG.result (RAG.retrieve_from_multiple_documents Inputs.library ["d1"] "q" 3
                  RAG.default_similarity_threshold) = RAG.Returned all /\
    List.length (RAG.multi_citations r) = 2%nat /\
    List.length (snd (RAG.build_context Inputs.library (map fst (Py.slice_to 10 all)) None))
      = 1%nat.
Proof.
  do 2 eexists. split; [vm_compute; reflexivity|].
  split; [vm_compute; reflexivity|].
  split; reflexivity.
Qed.

(** Appending strings is associative. *)
Lemma string_append_assoc (a b c : string) : (a +++ b) +++ c = a +++ (b +++ c).
Proof. induction a as [|x a IH]; simpl; [reflexivity | now rewrite IH]. Qed.

(** A context block of the multi-document path ends in the chunk's text. *)
Lemma multi_context_block_content
      (env : RAG.Env) (x : RAG.DocumentChunk * float * RAG.UUID) :
  exists header,
    Spec.multi_context_block_of env x = header +++ RAG.content (fst (fst x)).
Proof.
  unfold Spec.multi_context_block_of, RAG.multi_context_part.
  eexists. rewrite <- !string_append_assoc. reflexivity.
Qed.

(** C7, amended.  When [answer_multi_document_question] returns, the context
    and the citations are built from the first ten entries (all of them, if
    fewer) of the merged list, which is in descending order of similarity
    across the documents: every entry used scores at least as high as every
    entry left out.  The context sent to the chat model, after the
    retrievals, is the blocks of these entries joined by blank lines, one
    block for each entry, in order, each ending in its chunk's text; the
    answer is the model's reply to that prompt; and there is one citation
    for each of these entries, in the same order.  No token budget is
    applied. *)
Theorem multi_document_context_top_ten
        (env : RAG.Env) (docs : list RAG.UUID) (question : string) (k : Z)
        (r : RAG.MultiAnswer) :
  RAG.result (RAG.answer_multi_document_question env docs question k) = RAG.Returned r ->
  exists all,
    RAG.result (RAG.retrieve_from_multiple_documents env docs question k
                  RAG.default_similarity_threshold) = RAG.Returned all /\
    StronglySorted Spec.merged_order all /\
    let used := firstn 10 all in
    let context :=
      Py.join (Py.nl +++ Py.nl) (map (Spec.multi_context_block_of env) used) in
    List.length used = Nat.min 10 (List.length all) /\
    RAG.trace (RAG.answer_multi_document_question env docs question k) =
      flat_map (fun _ => [RAG.EvWaitAsync; RAG.EvEmbedQuery question]) docs ++
      [RAG.EvWaitAsync; RAG.EvInvoke (RAG.MultiDocPrompt context question)] /\
    RAG.ainvoke env (RAG.MultiDocPrompt context question) = Some (RAG.multi_answer r) /\
    Forall (fun x => exists header,
                       Spec.multi_context_block_of env x =
                       header +++ RAG.content (fst (fst x))) used /\
    RAG.multi_citations r = map (Spec.multi_citation_of env) used /\
    map Spec.citation_key (RAG.multi_citations r) = map Spec.entry_key used /\
    List.length (RAG.multi_citations r) = Nat.min 10 (List.length all) /\
    (forall a b, In a used -> In b (skipn 10 all) ->
                 PrimFloat.leb (snd (fst b)) (snd (fst a)) = true).
Proof.
  intros H. pose proof H as Hres.
  unfold RAG.answer_multi_document_question in Hres. rewrite result_bind in Hres.
  destruct (RAG.result (RAG.retrieve_from_multiple_documents env docs question k
                          RAG.default_similarity_threshold)) as [all|e] eqn:Eall;
    [|discriminate].
  destruct (retrieve_multi_returns env question k _ docs all Eall) as [Htr Hsorted].
  assert (Hloop : RAG.multi_context_loop env (Py.slice_to 10 all) [] [] =
                  (map (Spec.multi_context_block_of env) (firstn 10 all),
                   map (Spec.multi_citation_of env) (firstn 10 all))).
  { rewrite multi_context_loop_all, (slice_to_firstn 10 all) by lia. reflexivity. }
  assert (Hlen : List.length (firstn 10 all) = Nat.min 10 (List.length all))
    by apply length_firstn.
  assert (Hcut : forall a b, In a (firstn 10 all) -> In b (skipn 10 all) ->
                             PrimFloat.leb (snd (fst b)) (snd (fst a)) = true).
  { intros a b Ha Hb.
    pose proof Hsorted as Hs. rewrite <- (firstn_skipn 10 all) in Hs.
    exact (proj1 (StronglySorted_app_cross _ _ _ Hs a b Ha Hb)). }
  assert (Htrace :
            RAG.trace (RAG.answer_multi_document_question env docs question k) =
            flat_map (fun _ => [RAG.EvWaitAsync; RAG.EvEmbedQuery question]) docs ++
            [RAG.EvWaitAsync;
             RAG.EvInvoke
               (RAG.MultiDocPrompt
                  (Py.join (Py.nl +++ Py.nl)
                     (map (Spec.multi_context_block_of env) (firstn 10 all)))
                  question)]).
  { unfold RAG.answer_multi_document_question. rewrite trace_bind, Eall, Htr. f_equal.
    rewrite Hloop. cbv beta iota.
    rewrite trace_bind, result_wait_async, trace_bind.
    unfold RAG.llm_invoke, RAG.wait_async, RAG.emit, RAG.bind, RAG.ret, RAG.raise,
      RAG.trace, RAG.result.
    destruct (RAG.ainvoke env _); reflexivity. }
  rewrite Hloop in Hres. cbv beta iota in Hres.
  rewrite result_bind, result_wait_async, result_bind, result_llm_invoke in Hres.
  set (used := firstn 10 all) in *.
  destruct (RAG.ainvoke env _) as [content|] eqn:Einv; [|discriminate].
  unfold RAG.ret, RAG.result in Hres. cbn [snd] in Hres.
  inversion Hres; subst r; clear Hres.
  exists all. split; [reflexivity|]. split; [assumption|].
  cbv zeta. fold used. cbn [RAG.multi_answer RAG.multi_citations].
  split; [exact Hlen|].
  split; [exact Htrace|].
  split; [exact Einv|].
  split; [apply Forall_forall; intros x _; apply multi_context_block_content|].
  split; [reflexivity|].
  split; [rewrite map_map; reflexivity|].
  split; [rewrite length_map; exact Hlen | exact Hcut].
Qed.

Lemma multi_document_context_top_ten_witness :
  exists r all,
    RAG.result (RAG.answer_multi_document_question Inputs.library ["d1"; "d2"] "q" 3)
      = RAG.Returned r /\
    RAG.result (RAG.retrieve_from_multiple_documents Inputs.library ["d1"; "d2"] "q" 3
                  RAG.default_similarity_threshold) = RAG.Returned all /\
    StronglySorted Spec.merged_order all /\
    List.length (firstn 10 all) = Nat.min 10 (List.length all) /\
    RAG.trace (RAG.answer_multi_document_question Inputs.library ["d1"; "d2"] "q" 3) =
      flat_map (fun _ => [RAG.EvWaitAsync; RAG.EvEmbedQuery "q"]) ["d1"; "d2"] ++
      [RAG.EvWaitAsync;
       RAG.EvInvoke
         (RAG.MultiDocPrompt
            (Py.join (Py.nl +++ Py.nl)
               (map (Spec.multi_context_block_of Inputs.library) (firstn 10 all)))
            "q")] /\
    RAG.multi_citations r = map (Spec.multi_citation_of Inputs.library) (firstn 10 all) /\
    map Spec.citation_key (RAG.multi_citations r) = map Spec.entry_key (firstn 10 all) /\
    List.length (RAG.multi_citations r) = Nat.min 10 (List.length all) /\
    (forall a b, In a (firstn 10 all) -> In b (skipn 10 all) ->
                 PrimFloat.leb (snd (fst b)) (snd (fst a)) = true).
Proof.
  eexists.
  assert (H : RAG.result (RAG.answer_multi_document_question Inputs.library ["d1"; "d2"] "q" 3)
              = RAG.Returned ?[r]) by (vm_compute; reflexivity).
  destruct (multi_document_context_top_ten Inputs.library ["d1"; "d2"] "q" 3 _ H)
    as (all & Hall & Hsorted & Hlen & Htrace & _ & _ & Hcit & Hkeys & Hcount & Hcut).
  exists all. split; [exact H|]. split; [exact Hall|]. split; [exact Hsorted|].
  split; [exact Hlen|]. split; [exact Htrace|]. split; [exact Hcit|].
  split; [exact Hkeys|]. split; [exact Hcount | exact Hcut].
Defined.

(** The context the library's two documents give: three blocks, the best
    match first. *)
Example multi_document_context_of_the_library :
  exists context,
    In (RAG.EvInvoke (RAG.MultiDocPrompt context "q"))
       (RAG.trace (RAG.answer_multi_document_question Inputs.library ["d1"; "d2"] "q" 3)) /\
    context =
      "[From: one.pdf, Page 1]:" +++ Py.nl +++ "alpha" +++ Py.nl +++ Py.nl +++
      "[From: two.pdf, Page 1]:" +++ Py.nl +++ "alpha again" +++ Py.nl +++ Py.nl +++
      "[From: one.pdf, Page 3]:" +++ Py.nl +++ "gamma".
Proof.
  eexists. split; [|reflexivity]. vm_compute. do 5 right. left. reflexivity.
Qed.

(* ================================================================== *)
(** * More on the rate limiter *)
(* ================================================================== *)

Section RateLimiterMore.
Import RateLimiter.
Variable clk : Clock.

(** On a deque in order of time the clean-up loop is a filter. *)
Lemma popleft_sorted_filter (c : Z) (q : list Z) :
  StronglySorted Z.le q ->
  popleft_while_older c q = filter (fun t => c <=? t) q.
Proof.
  induction 1 as [|t q Hs IH Ht]; simpl; [reflexivity|].
  destruct (Z.ltb_spec t c) as [Hold|Hnew].
  - destruct (Z.leb_spec c t); [lia | exact IH].
  - destruct (Z.leb_spec c t); [|lia].
    f_equal. symmetry. apply forallb_filter_id.
    apply forallb_forall. intros x Hx.
    rewrite Forall_forall in Ht. specialize (Ht x Hx). apply Z.leb_le. lia.
Qed.

Lemma cleanup_run (s : State) :
  _cleanup_old_requests clk s =
  (inr tt,
   {| requests_per_minute := requests_per_minute s;
      window_size := window_size s;
      _request_times :=
        popleft_while_older (now s + elapse clk (events s) - window_size s) (_request_times s);
      now := now s + elapse clk (events s);
      events := S (events s) |}).
Proof. reflexivity. Qed.

End RateLimiterMore.

(** X2.  With a limit of at least one request per minute, an acquisition by
    either entry point returns normally in every state and on every clock:
    it may drop timestamps from the front of the deque, and it appends the
    time it read last, leaving limit and window size as they were. *)
Theorem acquire_records_its_timestamp
        (clk : RateLimiter.Clock) (a : RateLimiter.Acquire) (s : RateLimiter.State) :
  1 <= RateLimiter.requests_per_minute s ->
  exists s' dropped kept,
    RateLimiter.acquire clk a s = (inr tt, s') /\
    RateLimiter._request_times s = dropped ++ kept /\
    RateLimiter._request_times s' = kept ++ [RateLimiter.now s'] /\
    RateLimiter.requests_per_minute s' = RateLimiter.requests_per_minute s /\
    RateLimiter.window_size s' = RateLimiter.window_size s.
Proof.
  intros Hrpm.
  assert (Hsync : exists s' dropped kept,
             RateLimiter.wait_sync clk s = (inr tt, s') /\
             RateLimiter._request_times s = dropped ++ kept /\
             RateLimiter._request_times s' = kept ++ [RateLimiter.now s'] /\
             RateLimiter.requests_per_minute s' = RateLimiter.requests_per_minute s /\
             RateLimiter.window_size s' = RateLimiter.window_size s).
  { destruct (popleft_suffix
                (RateLimiter.now s + RateLimiter.elapse clk (RateLimiter.events s)
                 - RateLimiter.window_size s) (RateLimiter._request_times s)) as [p Hp].
    unfold RateLimiter.wait_sync, RateLimiter._get_wait_time, RateLimiter._record_request,
      RateLimiter.bind. rewrite cleanup_run.
    unfold RateLimiter.get, RateLimiter.time_time, RateLimiter.set_request_times,
      RateLimiter.sleep, RateLimiter.ret, RateLimiter.raise. cbn - [Z.mul Z.add Z.sub Z.max Z.ltb RateLimiter.popleft_while_older].
    set (q1 := RateLimiter.popleft_while_older _ (RateLimiter._request_times s)) in *.
    destruct (Z.ltb_spec (Z.of_nat (List.length q1)) (RateLimiter.requests_per_minute s)).
    - cbn - [Z.mul Z.add Z.sub Z.max Z.ltb RateLimiter.popleft_while_older].
      eexists. exists p, q1. repeat split; try reflexivity. exact Hp.
    - destruct q1 as [|oldest r] eqn:Eq1; [simpl in *; lia|].
      cbn - [Z.mul Z.add Z.sub Z.max Z.ltb RateLimiter.popleft_while_older].
      match goal with |- context [0 <? ?w] => destruct (0 <? w) end;
        cbn - [Z.mul Z.add Z.sub Z.max Z.ltb RateLimiter.popleft_while_older].
      + match goal with
        | |- context [RateLimiter.popleft_while_older ?c (oldest :: r)] =>
            destruct (popleft_suffix c (oldest :: r)) as [p' Hp'];
            set (q2 := RateLimiter.popleft_while_older c (oldest :: r)) in *
        end.
        eexists. exists (p ++ p'), q2. repeat split; try reflexivity.
        rewrite Hp, Hp', app_assoc. reflexivity.
      + eexists. exists p, (oldest :: r). repeat split; try reflexivity. exact Hp. }
  destruct a; simpl; [exact Hsync|].
  rewrite wait_async_eq_wait_sync. exact Hsync.
Qed.

Lemma acquire_records_its_timestamp_witness :
  exists s' dropped kept,
    RateLimiter.acquire Inputs.steady_clock RateLimiter.Async
      (RateLimiter.init Inputs.steady_clock 3 0) = (inr tt, s') /\
    RateLimiter._request_times (RateLimiter.init Inputs.steady_clock 3 0) = dropped ++ kept /\
    RateLimiter._request_times s' = kept ++ [RateLimiter.now s'] /\
    RateLimiter.requests_per_minute s' = 3 /\
    RateLimiter.window_size s' = 60000.
Proof.
  apply (acquire_records_its_timestamp Inputs.steady_clock RateLimiter.Async
           (RateLimiter.init Inputs.steady_clock 3 0)).
  simpl. lia.
Defined.

(** X3.  With a limit of zero or less and an empty deque, an acquisition by
    either entry point raises [IndexError] (it reads the oldest timestamp of
    an empty deque) and records nothing. *)
Theorem acquire_with_nonpositive_limit_raises
        (clk : RateLimiter.Clock) (a : RateLimiter.Acquire) (s : RateLimiter.State) :
  RateLimiter.requests_per_minute s <= 0 ->
  RateLimiter._request_times s = [] ->
  exists s',
    RateLimiter.acquire clk a s = (inl RateLimiter.IndexError, s') /\
    RateLimiter._request_times s' = [].
Proof.
  intros Hrpm Hq.
  assert (Hsync : exists s',
             RateLimiter.wait_sync clk s = (inl RateLimiter.IndexError, s') /\
             RateLimiter._request_times s' = []).
  { unfold RateLimiter.wait_sync, RateLimiter._get_wait_time, RateLimiter.bind.
    rewrite cleanup_run. rewrite Hq.
    unfold RateLimiter.get, RateLimiter.raise. cbn - [Z.add Z.sub Z.ltb].
    destruct (Z.ltb_spec 0 (RateLimiter.requests_per_minute s)); [lia|].
    eexists. split; reflexivity. }
  destruct a; simpl; [exact Hsync|].
  rewrite wait_async_eq_wait_sync. exact Hsync.
Qed.

Lemma acquire_with_nonpositive_limit_raises_witness :
  exists s',
    RateLimiter.acquire Inputs.steady_clock RateLimiter.Sync
      (RateLimiter.init Inputs.steady_clock 0 0) = (inl RateLimiter.IndexError, s') /\
    RateLimiter._request_times s' = [].
Proof.
  apply (acquire_with_nonpositive_limit_raises Inputs.steady_clock RateLimiter.Sync
           (RateLimiter.init Inputs.steady_clock 0 0)).
  - simpl. lia.
  - reflexivity.
Defined.

(** X4.  On a clock that never runs backwards, with no recorded timestamp in
    the future, the wait time [_get_wait_time] returns lies between zero and
    the window size; when it is positive the deque is full and the wait ends
    exactly when its oldest timestamp is one window old. *)
Theorem wait_time_bounded
        (clk : RateLimiter.Clock) (s s' : RateLimiter.State) (w : Z) :
  (forall n, 0 <= RateLimiter.elapse clk n) ->
  0 <= RateLimiter.window_size s ->
  Forall (fun t => t <= RateLimiter.now s) (RateLimiter._request_times s) ->
  RateLimiter._get_wait_time clk s = (inr w, s') ->
  0 <= w <= RateLimiter.window_size s /\
  (0 < w ->
   exists oldest rest,
     RateLimiter._request_times s' = oldest :: rest /\
     RateLimiter.now s' + w = oldest + RateLimiter.window_size s /\
     RateLimiter.requests_per_minute s <= Z.of_nat (List.length (oldest :: rest))).
Proof.
  intros Hmono HW Hle.
  pose proof (Hmono (RateLimiter.events s)) as He0.
  pose proof (Hmono (S (RateLimiter.events s))) as He1.
  destruct (popleft_suffix
              (RateLimiter.now s + RateLimiter.elapse clk (RateLimiter.events s)
               - RateLimiter.window_size s) (RateLimiter._request_times s)) as [p Hp].
  unfold RateLimiter._get_wait_time, RateLimiter.bind. rewrite cleanup_run.
  unfold RateLimiter.get, RateLimiter.time_time, RateLimiter.ret, RateLimiter.raise.
  cbn - [Z.mul Z.add Z.sub Z.max Z.ltb RateLimiter.popleft_while_older].
  set (q1 := RateLimiter.popleft_while_older _ (RateLimiter._request_times s)) in *.
  destruct (Z.ltb_spec (Z.of_nat (List.length q1)) (RateLimiter.requests_per_minute s)).
  - intros Hrun. inversion Hrun; subst. split; [lia | intros; exfalso; lia].
  - destruct q1 as [|oldest r] eqn:Eq1; [discriminate|].
    cbn - [Z.mul Z.add Z.sub Z.max Z.ltb RateLimiter.popleft_while_older].
    intros Hrun. inversion Hrun; subst w s'. clear Hrun. simpl.
    assert (Hold : oldest <= RateLimiter.now s).
    { rewrite Hp in Hle. apply Forall_app in Hle. destruct Hle as [_ Hle].
      exact (Forall_inv Hle). }
    split; [lia|].
    intros Hpos. exists oldest, r. split; [reflexivity|]. split; [lia | assumption].
Qed.

Lemma wait_time_bounded_witness :
  exists w s',
    RateLimiter._get_wait_time Inputs.steady_clock MoreInputs.busy_limiter = (inr w, s') /\
    0 <= w <= 60000 /\
    (0 < w ->
     exists oldest rest,
       RateLimiter._request_times s' = oldest :: rest /\
       RateLimiter.now s' + w = oldest + 60000 /\
       1 <= Z.of_nat (List.length (oldest :: rest))).
Proof.
  do 2 eexists. split; [reflexivity|].
  apply (wait_time_bounded Inputs.steady_clock MoreInputs.busy_limiter).
  - intros n. simpl. lia.
  - simpl. lia.
  - constructor; [simpl; lia | constructor].
  - reflexivity.
Defined.

(** X5.  On a deque in order of time, [_cleanup_old_requests] reads the clock
    once and keeps exactly the timestamps that are not older than the window:
    those [t] with [now - window_size <= t]. *)
Theorem cleanup_keeps_exactly_the_recent
        (clk : RateLimiter.Clock) (s : RateLimiter.State) :
  StronglySorted Z.le (RateLimiter._request_times s) ->
  exists s',
    RateLimiter._cleanup_old_requests clk s = (inr tt, s') /\
    RateLimiter.now s' = RateLimiter.now s + RateLimiter.elapse clk (RateLimiter.events s) /\
    RateLimiter._request_times s' =
      filter (fun t => RateLimiter.now s' - RateLimiter.window_size s <=? t)
             (RateLimiter._request_times s).
Proof.
  intros Hs. rewrite cleanup_run. eexists. split; [reflexivity|].
  split; [reflexivity|]. simpl. now apply popleft_sorted_filter.
Qed.

Lemma cleanup_keeps_exactly_the_recent_witness :
  exists s',
    RateLimiter._cleanup_old_requests Inputs.steady_clock MoreInputs.busy_limiter = (inr tt, s') /\
    RateLimiter.now s' = 0 + 7000 /\
    RateLimiter._request_times s' =
      filter (fun t => RateLimiter.now s' - 60000 <=? t) [0].
Proof.
  apply (cleanup_keeps_exactly_the_recent Inputs.steady_clock MoreInputs.busy_limiter).
  repeat constructor.
Defined.

(** X6.  [get_current_usage] never raises and takes no slot: it only drops
    timestamps from the front of the deque.  It reports the number of
    timestamps left and the limit, and a number of remaining requests that is
    never negative, that adds up with the count to the limit while the count
    is within it, and that is zero once the count has reached it. *)
Theorem usage_reads_without_recording
        (clk : RateLimiter.Clock) (s : RateLimiter.State) :
  exists u s' dropped,
    RateLimiter.get_current_usage clk s = (inr u, s') /\
    RateLimiter._request_times s = dropped ++ RateLimiter._request_times s' /\
    RateLimiter.usage_requests_in_window u = Z.of_nat (List.length (RateLimiter._request_times s')) /\
    RateLimiter.usage_requests_per_minute_limit u = RateLimiter.requests_per_minute s /\
    0 <= RateLimiter.usage_remaining_requests u /\
    (RateLimiter.usage_requests_in_window u <= RateLimiter.requests_per_minute s ->
     RateLimiter.usage_requests_in_window u + RateLimiter.usage_remaining_requests u
       = RateLimiter.requests_per_minute s) /\
    (RateLimiter.requests_per_minute s <= RateLimiter.usage_requests_in_window u ->
     RateLimiter.usage_remaining_requests u = 0).
Proof.
  destruct (popleft_suffix
              (RateLimiter.now s + RateLimiter.elapse clk (RateLimiter.events s)
               - RateLimiter.window_size s) (RateLimiter._request_times s)) as [p Hp].
  unfold RateLimiter.get_current_usage, RateLimiter.bind. rewrite cleanup_run.
  unfold RateLimiter.get, RateLimiter.ret.
  cbn - [Z.mul Z.add Z.sub Z.max Z.ltb RateLimiter.popleft_while_older].
  do 2 eexists. exists p. split; [reflexivity|].
  cbn - [Z.mul Z.add Z.sub Z.max Z.ltb RateLimiter.popleft_while_older].
  split; [exact Hp|]. repeat split; lia.
Qed.

(** X7.  When [get_current_usage] reports a remaining request, the next
    acquisition does not wait: its wait time is zero, and it returns after
    reading the clock twice (once to clean up, once to record), without
    sleeping. *)
Theorem free_slot_means_no_wait
        (clk : RateLimiter.Clock) (s s1 : RateLimiter.State) (u : RateLimiter.Usage) :
  RateLimiter.get_current_usage clk s = (inr u, s1) ->
  0 < RateLimiter.usage_remaining_requests u ->
  exists s2 s3,
    RateLimiter._get_wait_time clk s1 = (inr 0, s2) /\
    RateLimiter.wait_sync clk s1 = (inr tt, s3) /\
    RateLimiter.events s3 = S (S (RateLimiter.events s1)).
Proof.
  unfold RateLimiter.get_current_usage, RateLimiter.bind. rewrite cleanup_run.
  unfold RateLimiter.get, RateLimiter.ret.
  cbn - [Z.mul Z.add Z.sub Z.max Z.ltb RateLimiter.popleft_while_older].
  intros Hrun Hfree. inversion Hrun; subst u s1. clear Hrun.
  cbn - [Z.mul Z.add Z.sub Z.max Z.ltb RateLimiter.popleft_while_older] in Hfree.
  set (q1 := RateLimiter.popleft_while_older _ (RateLimiter._request_times s)) in *.
  unfold RateLimiter.wait_sync, RateLimiter._get_wait_time, RateLimiter._record_request,
    RateLimiter.bind. rewrite cleanup_run.
  unfold RateLimiter.get, RateLimiter.time_time, RateLimiter.set_request_times,
    RateLimiter.ret.
  cbn - [Z.mul Z.add Z.sub Z.max Z.ltb RateLimiter.popleft_while_older].
  match goal with
  | |- context [RateLimiter.popleft_while_older ?c q1] =>
      destruct (popleft_suffix c q1) as [p' Hp'];
      set (q2 := RateLimiter.popleft_while_older c q1) in *
  end.
  assert (Hlen : Z.of_nat (List.length q2) <= Z.of_nat (List.length q1))
    by (apply (f_equal (@List.length Z)) in Hp'; rewrite length_app in Hp'; lia).
  destruct (Z.ltb_spec (Z.of_nat (List.length q2)) (RateLimiter.requests_per_minute s));
    [|lia].
  cbn - [Z.mul Z.add Z.sub Z.max Z.ltb RateLimiter.popleft_while_older].
  do 2 eexists. repeat split.
Qed.

Lemma free_slot_means_no_wait_witness :
  exists s2 s3,
    RateLimiter._get_wait_time Inputs.steady_clock
      (snd (RateLimiter.get_current_usage Inputs.steady_clock
              (RateLimiter.init Inputs.steady_clock 2 0))) = (inr 0, s2) /\
    RateLimiter.wait_sync Inputs.steady_clock
      (snd (RateLimiter.get_current_usage Inputs.steady_clock
              (RateLimiter.init Inputs.steady_clock 2 0))) = (inr tt, s3) /\
    RateLimiter.events s3 = 3%nat.
Proof.
  eapply (free_slot_means_no_wait Inputs.steady_clock
            (RateLimiter.init Inputs.steady_clock 2 0)).
  - reflexivity.
  - simpl. lia.
Defined.

(* ================================================================== *)
(** * More on retrieval *)
(* ================================================================== *)

Lemma retrieve_keeps_the_best_witness :
  exists s,
    RAG.cosine_similarity [1; 0]%float [0.5; 0.5]%float = RAG.Returned s /\
    PrimFloat.leb 0.5%float s = true /\
    (In (Inputs.chunk "d1" 2 "gamma" (Some [0.5; 0.5]%float) (Some 3000), s)
        [(Inputs.chunk "d1" 0 "alpha" (Some [1; 0]%float) (Some 3000), 1%float)] \/
     Forall (fun cs => PrimFloat.leb s (snd cs) = true)
            [(Inputs.chunk "d1" 0 "alpha" (Some [1; 0]%float) (Some 3000), 1%float)]).
Proof.
  assert (Hs : RAG.cosine_similarity [1; 0]%float [0.5; 0.5]%float = RAG.Returned ?[s])
    by (vm_compute; reflexivity).
  eexists. split; [exact Hs|].
  assert (Hleb : PrimFloat.leb 0.5%float
                   (match RAG.cosine_similarity [1; 0]%float [0.5; 0.5]%float with
                    | RAG.Returned s => s
                    | RAG.Raised _ => 0%float
                    end) = true) by (vm_compute; reflexivity).
  rewrite Hs in Hleb. split; [exact Hleb|].
  apply (retrieve_keeps_the_best Inputs.library "d1" "q" 1 0.5%float [1; 0]%float)
    with (x := 0.5%float) (v := [0.5%float]).
  - lia.
  - reflexivity.
  - vm_compute. reflexivity.
  - vm_compute. auto 6.
  - reflexivity.
  - exact Hs.
  - exact Hleb.
Defined.

Section RetrievalErrors.
Import RAG Spec MoreSpec.

Lemma cosine_similarity_returns (q e : list float) :
  (exists s, cosine_similarity q e = Returned s) <-> List.length q = List.length e.
Proof.
  unfold cosine_similarity, np_dot.
  destruct (Nat.eqb_spec (List.length q) (List.length e)) as [Heq|Hne]; split; intros H.
  - exact Heq.
  - eexists. reflexivity.
  - destruct H as [s H]. discriminate.
  - contradiction.
Qed.

Lemma cosine_similarity_raises (q e : list float) (x : exn) :
  cosine_similarity q e = Raised x -> x = ValueError /\ List.length q <> List.length e.
Proof.
  unfold cosine_similarity, np_dot.
  destruct (Nat.eqb_spec (List.length q) (List.length e)); intros H; [discriminate|].
  inversion H. split; [reflexivity | assumption].
Qed.

Lemma score_chunks_clash (q : list float) (thr : float) (chunks : list DocumentChunk) :
  dims_clash q chunks -> forall acc, score_chunks q thr chunks acc = Raised ValueError.
Proof.
  induction chunks as [|c rest IH]; intros Hclash acc.
  - inversion Hclash.
  - simpl. apply Exists_cons in Hclash.
    destruct (embedding c) as [[|x v]|] eqn:Ee.
    + destruct Hclash as [[]|Hrest]. now apply IH.
    + destruct (cosine_similarity q (x :: v)) as [s|e] eqn:Ec.
      * assert (Hlen : List.length q = List.length (x :: v))
          by (apply cosine_similarity_returns; eauto).
        destruct Hclash as [Hc|Hrest]; [congruence|].
        destruct (PrimFloat.leb thr s); now apply IH.
      * apply cosine_similarity_raises in Ec. destruct Ec as [-> _]. reflexivity.
    + destruct Hclash as [[]|Hrest]. now apply IH.
Qed.

Lemma score_chunks_raised (q : list float) (thr : float) (chunks : list DocumentChunk) :
  forall acc e, score_chunks q thr chunks acc = Raised e ->
                e = ValueError /\ dims_clash q chunks.
Proof.
  induction chunks as [|c rest IH]; simpl; intros acc e H; [discriminate|].
  assert (Hrest : forall acc', score_chunks q thr rest acc' = Raised e ->
                               e = ValueError /\ dims_clash q (c :: rest)).
  { intros acc' H'. destruct (IH _ _ H') as [-> Hc]. split; [reflexivity|].
    now apply Exists_cons_tl. }
  destruct (embedding c) as [[|x v]|] eqn:Ee; eauto.
  destruct (cosine_similarity q (x :: v)) as [s|e'] eqn:Ec.
  - destruct (PrimFloat.leb thr s); eauto.
  - inversion H; subst e'. apply cosine_similarity_raises in Ec. destruct Ec as [-> Hlen].
    split; [reflexivity|]. apply Exists_cons_hd. rewrite Ee. congruence.
Qed.

End RetrievalErrors.

(** X9.  Once the query is embedded, [retrieve_relevant_chunks] raises exactly
    when some chunk of the document has a non-empty stored embedding whose
    dimension differs from the query embedding's, and what it raises is
    numpy's [ValueError]; in every other case it returns. *)
Theorem retrieval_raises_exactly_on_dimension_clash
        (env : RAG.Env) (doc : RAG.UUID) (query : string) (k : Z) (thr : float)
        (q : list float) :
  RAG.aembed_query env query = Some q ->
  (RAG.result (RAG.retrieve_relevant_chunks env doc query k thr) = RAG.Raised RAG.ValueError
   <-> MoreSpec.dims_clash q (RAG.select_chunks env doc)) /\
  (forall e, RAG.result (RAG.retrieve_relevant_chunks env doc query k thr) = RAG.Raised e ->
             e = RAG.ValueError).
Proof.
  intros Hq. rewrite retrieve_result, Hq.
  destruct (RAG.score_chunks q thr (RAG.select_chunks env doc) []) as [scored|e] eqn:Es.
  - split; [split|]; try discriminate.
    intros Hclash. rewrite (score_chunks_clash q thr _ Hclash) in Es. discriminate.
  - destruct (score_chunks_raised q thr _ _ _ Es) as [-> Hclash].
    split; [split; trivial|]. intros e H. now inversion H.
Qed.

Lemma retrieval_raises_exactly_on_dimension_clash_witness :
  (RAG.result (RAG.retrieve_relevant_chunks Inputs.library_with_odd_embedding "d1" "q" 5 0.5%float)
     = RAG.Raised RAG.ValueError
   <-> MoreSpec.dims_clash [1; 0]%float
         (RAG.select_chunks Inputs.library_with_odd_embedding "d1")) /\
  (forall e,
      RAG.result (RAG.retrieve_relevant_chunks Inputs.library_with_odd_embedding "d1" "q" 5 0.5%float)
        = RAG.Raised e -> e = RAG.ValueError).
Proof.
  apply (retrieval_raises_exactly_on_dimension_clash Inputs.library_with_odd_embedding
           "d1" "q" 5 0.5%float [1; 0]%float).
  reflexivity.
Defined.

Section ZeroVectors.
Import RAG Spec MoreSpec.

Lemma eqb_zero (x : float) :
  PrimFloat.eqb x PrimFloat.zero = true -> zero_or_nan x.
Proof.
  rewrite eqb_spec. change (Prim2SF PrimFloat.zero) with (S754_zero false).
  unfold SFeqb, zero_or_nan.
  destruct (Prim2SF x) as [b|b| |b m e]; simpl; try discriminate; eauto;
    destruct b; discriminate.
Qed.

Lemma mul_zero_or_nan_r (x y : float) : zero_or_nan y -> zero_or_nan (PrimFloat.mul x y).
Proof.
  unfold zero_or_nan. rewrite mul_spec. unfold SF64mul, SFmul.
  intros [->|[b ->]]; destruct (Prim2SF x); eauto.
Qed.

Lemma mul_zero_or_nan_l (x y : float) : zero_or_nan x -> zero_or_nan (PrimFloat.mul x y).
Proof.
  unfold zero_or_nan. rewrite mul_spec. unfold SF64mul, SFmul.
  intros [->|[b ->]]; destruct (Prim2SF y); eauto.
Qed.

Lemma add_zero_or_nan (x y : float) :
  zero_or_nan x -> zero_or_nan y -> zero_or_nan (PrimFloat.add x y).
Proof.
  unfold zero_or_nan. rewrite add_spec.
  intros [Hx|[b Hx]] [Hy|[b' Hy]]; rewrite Hx, Hy; simpl; eauto.
  destruct b, b'; eauto.
Qed.

Lemma sqrt_zero_or_nan (x : float) : zero_or_nan x -> zero_or_nan (PrimFloat.sqrt x).
Proof.
  unfold zero_or_nan. rewrite sqrt_spec. unfold SF64sqrt, SFsqrt.
  intros [->|[b ->]]; eauto.
Qed.

(** Zero, or NaN, divided by zero, or NaN, is NaN. *)
Lemma div_zero_or_nan (x y : float) :
  zero_or_nan x -> zero_or_nan y -> Prim2SF (PrimFloat.div x y) = S754_nan.
Proof.
  unfold zero_or_nan. rewrite div_spec.
  intros [Hx|[b Hx]] [Hy|[b' Hy]]; rewrite Hx, Hy; reflexivity.
Qed.

(** No threshold is reached by a NaN. *)
Lemma leb_nan (t x : float) : Prim2SF x = S754_nan -> PrimFloat.leb t x = false.
Proof.
  intros H. rewrite leb_spec, H. unfold SFleb, SFcompare.
  destruct (Prim2SF t); reflexivity.
Qed.

Lemma sum_zero_or_nan {A : Type} (term : A -> float) (l : list A) :
  Forall (fun a => zero_or_nan (term a)) l ->
  forall acc, zero_or_nan acc ->
              zero_or_nan (fold_left (fun acc a => PrimFloat.add acc (term a)) l acc).
Proof.
  induction 1 as [|a l Ha Hl IH]; simpl; intros acc Hacc; [assumption|].
  apply IH. now apply add_zero_or_nan.
Qed.

Lemma zero_vector_components (v : list float) :
  zero_vector v = true -> Forall zero_or_nan v.
Proof.
  unfold zero_vector. rewrite forallb_forall, Forall_forall.
  intros H x Hx. apply eqb_zero. now apply H.
Qed.

Lemma zero_is_zero_or_nan : zero_or_nan PrimFloat.zero.
Proof. right. exists false. reflexivity. Qed.

Lemma norm_zero_vector (v : list float) :
  zero_vector v = true -> zero_or_nan (np_linalg_norm v).
Proof.
  intros Hv. unfold np_linalg_norm. apply sqrt_zero_or_nan.
  apply (sum_zero_or_nan (fun x => PrimFloat.mul x x)); [|apply zero_is_zero_or_nan].
  eapply Forall_impl; [|apply zero_vector_components; exact Hv].
  intros x Hx. now apply mul_zero_or_nan_l.
Qed.

Lemma combine_Forall_l {A B : Type} (P : A -> Prop) (a : list A) (b : list B) :
  Forall P a -> Forall (fun xy => P (fst xy)) (combine a b).
Proof.
  intros Ha. apply Forall_forall. intros [x y] Hin. simpl.
  rewrite Forall_forall in Ha. apply Ha. eapply in_combine_l. exact Hin.
Qed.

Lemma combine_Forall_r {A B : Type} (P : B -> Prop) (a : list A) (b : list B) :
  Forall P b -> Forall (fun xy => P (snd xy)) (combine a b).
Proof.
  intros Hb. apply Forall_forall. intros [x y] Hin. simpl.
  rewrite Forall_forall in Hb. apply Hb. eapply in_combine_r. exact Hin.
Qed.

(** The similarity to or of a zero vector is NaN: zero divided by zero. *)
Lemma cosine_similarity_zero_vector (q e : list float) (s : float) :
  zero_vector q = true \/ zero_vector e = true ->
  cosine_similarity q e = Returned s ->
  Prim2SF s = S754_nan.
Proof.
  unfold cosine_similarity, np_dot.
  destruct (Nat.eqb (List.length q) (List.length e)); [|discriminate].
  intros Hzero H. inversion H; subst s. clear H.
  apply div_zero_or_nan.
  - apply (sum_zero_or_nan (fun xy : float * float => PrimFloat.mul (fst xy) (snd xy)));
      [|apply zero_is_zero_or_nan].
    destruct Hzero as [Hq|He].
    + eapply Forall_impl; [|apply combine_Forall_l, zero_vector_components; exact Hq].
      intros xy Hxy. now apply mul_zero_or_nan_l.
    + eapply Forall_impl; [|apply combine_Forall_r, zero_vector_components; exact He].
      intros xy Hxy. now apply mul_zero_or_nan_r.
  - destruct Hzero as [Hq|He].
    + apply mul_zero_or_nan_l. now apply norm_zero_vector.
    + apply mul_zero_or_nan_r. now apply norm_zero_vector.
Qed.

End ZeroVectors.

(** X10.  A stored embedding whose components are all zero has similarity NaN
    to every query (zero divided by zero, without an exception), so its chunk
    is in no retrieval result, whatever the threshold; and when the query
    embedding itself is all zero, nothing is retrieved. *)
Theorem zero_embedding_never_retrieved
        (env : RAG.Env) (doc : RAG.UUID) (query : string) (k : Z) (thr : float)
        (q : list float) (r : list (RAG.DocumentChunk * float)) :
  RAG.aembed_query env query = Some q ->
  RAG.result (RAG.retrieve_relevant_chunks env doc query k thr) = RAG.Returned r ->
  Forall (fun cs => forall e, RAG.embedding (fst cs) = Some e ->
                              MoreSpec.zero_vector e = false) r /\
  (MoreSpec.zero_vector q = true -> r = []).
Proof.
  intros Hq. rewrite retrieve_result, Hq.
  destruct (RAG.score_chunks q thr (RAG.select_chunks env doc) []) as [scored|x] eqn:Es;
    [|discriminate].
  intros H. inversion H; subst r. clear H.
  destruct (score_chunks_sound q thr _ _ _ Es) as (r0 & Hr0 & Hfrom & _).
  simpl in Hr0. subst r0.
  assert (Hnonzero : Forall (fun cs : RAG.DocumentChunk * float =>
                               forall e, RAG.embedding (fst cs) = Some e ->
                                         MoreSpec.zero_vector e = false /\
                                         MoreSpec.zero_vector q = false) scored).
  { eapply Forall_impl; [|exact Hfrom].
    intros cs (_ & _ & (e & He & Hcos) & Hthr) e' He'.
    rewrite He in He'. inversion He'; subst e'.
    destruct (MoreSpec.zero_vector e) eqn:Ze, (MoreSpec.zero_vector q) eqn:Zq;
      try (split; reflexivity);
      rewrite (leb_nan thr (snd cs)) in Hthr; try discriminate;
      apply (cosine_similarity_zero_vector q e); auto. }
  split.
  - apply slice_to_Forall, stable_sort_Forall.
    eapply Forall_impl; [|exact Hnonzero]. intros cs H e He. exact (proj1 (H e He)).
  - intros Zq. destruct scored as [|cs rest].
    + unfold Py.slice_to. simpl. destruct (0 <=? k); apply firstn_nil.
    + exfalso. pose proof (Forall_inv Hnonzero) as Hcs. pose proof (Forall_inv Hfrom) as Hf.
      destruct Hf as (_ & _ & (e & He & _) & _).
      destruct (Hcs e He) as [_ Hq0]. congruence.
Qed.

Lemma zero_embedding_never_retrieved_witness :
  exists r,
    RAG.result (RAG.retrieve_relevant_chunks MoreInputs.library_with_zero_embedding
                  "d1" "q" 5 (-1)%float) = RAG.Returned r /\
    Forall (fun cs => forall e, RAG.embedding (fst cs) = Some e ->
                                MoreSpec.zero_vector e = false) r /\
    (MoreSpec.zero_vector [1; 0]%float = true -> r = []).
Proof.
  assert (H : RAG.result (RAG.retrieve_relevant_chunks MoreInputs.library_with_zero_embedding
                            "d1" "q" 5 (-1)%float) = RAG.Returned ?[r])
    by (vm_compute; reflexivity).
  eexists. split; [exact H|].
  exact (zero_embedding_never_retrieved MoreInputs.library_with_zero_embedding
           "d1" "q" 5 (-1)%float [1; 0]%float _ eq_refl H).
Defined.

(** With a threshold of -1 every chunk of [d1] with a usable embedding is
    retrieved, "beta" with similarity 0 included; "zeta", whose embedding is
    all zero, and "delta", which has none, are not. *)
Example retrieve_with_zero_embedding :
  exists r,
    RAG.result (RAG.retrieve_relevant_chunks MoreInputs.library_with_zero_embedding
                  "d1" "q" 5 (-1)%float) = RAG.Returned r /\
    map (fun cs => RAG.content (fst cs)) r = ["alpha"; "gamma"; "beta"].
Proof. eexists. split; vm_compute; reflexivity. Qed.

(* ================================================================== *)
(** * The calls an answer makes *)
(* ================================================================== *)

Section Traces.
Import RAG Spec MoreSpec.
Variable env : Env.

Lemma list_pair_ind {A : Type} (P : list A -> Prop) :
  P [] -> (forall a, P [a]) -> (forall a b l, P l -> P (a :: b :: l)) ->
  forall l, P l.
Proof.
  intros Hnil Hone Hstep l.
  assert (H : P l /\ forall a, P (a :: l)).
  { induction l as [|b l [IH1 IH2]]; split; auto. }
  exact (proj1 H).
Qed.

Lemma rate_limited_app (t1 t2 : list Event) :
  rate_limited t1 = true -> rate_limited (t1 ++ t2) = rate_limited t2.
Proof.
  revert t1. apply (list_pair_ind (fun t1 => rate_limited t1 = true ->
                                             rate_limited (t1 ++ t2) = rate_limited t2)).
  - reflexivity.
  - intros [| |]; discriminate.
  - intros a b l IH H. destruct a; try discriminate.
    destruct b; try discriminate; simpl in *; auto.
Qed.

(** In a rate-limited trace the acquisitions and the provider calls are
    equally many. *)
Lemma rate_limited_counts (tr : list Event) :
  rate_limited tr = true ->
  count_waits tr = List.length (filter is_provider_call tr).
Proof.
  revert tr. apply (list_pair_ind (fun tr => rate_limited tr = true ->
                                             count_waits tr = List.length (filter is_provider_call tr))).
  - reflexivity.
  - intros [| |]; discriminate.
  - intros a b l IH H. destruct a; try discriminate.
    destruct b; try discriminate; unfold count_waits in *; simpl in *; auto.
Qed.

Lemma trace_llm_invoke (req : LlmRequest) : trace (llm_invoke env req) = [EvInvoke req].
Proof.
  unfold llm_invoke, emit, bind, ret, raise, trace. simpl.
  destruct (ainvoke env req); reflexivity.
Qed.

Lemma trace_follow_up (context question answer : string) :
  trace (_generate_follow_up_questions env context question answer) =
  [EvWaitAsync; EvInvoke (FollowUpPrompt (Py.str_slice_to 3000 context) question answer)].
Proof.
  unfold _generate_follow_up_questions, try_except, llm_invoke, wait_async, emit, bind,
    lift, ret, raise, trace.
  simpl. destruct (ainvoke env _) as [content|]; [|reflexivity].
  simpl. destruct (json_loads env content) as [j|]; [|reflexivity].
  simpl. destruct (json_slice3 j); reflexivity.
Qed.

(** The calls [answer_question] makes, and how it ends, in terms of the
    retrieval and of the chat model's replies. *)
Lemma answer_question_run
      (session : ChatSession) (question : string) (k : Z) (thr : float)
      (include_citations include_suggestions : bool) :
  let retrieval := retrieve_relevant_chunks env (sess_document_id session) question k thr in
  match result retrieval with
  | Raised e =>
      answer_question env session question k thr include_citations include_suggestions
      = ([EvWaitAsync; EvEmbedQuery question], Raised e)
  | Returned relevant =>
      let context := fst (build_context env relevant None) in
      let req := qa_request env session question include_citations relevant in
      match ainvoke env req with
      | None =>
          answer_question env session question k thr include_citations include_suggestions
          = ([EvWaitAsync; EvEmbedQuery question; EvWaitAsync; EvInvoke req],
             Raised ProviderError)
      | Some ans =>
          exists r,
            answer_question env session question k thr include_citations include_suggestions
            = ([EvWaitAsync; EvEmbedQuery question; EvWaitAsync; EvInvoke req]
                 ++ (if include_suggestions && Py.truthy_str context
                     then [EvWaitAsync;
                           EvInvoke (FollowUpPrompt (Py.str_slice_to 3000 context) question ans)]
                     else []),
               Returned r) /\
            answer r = ans /\
            citations r = (if include_citations then snd (build_context env relevant None) else []) /\
            context_used r = Z.of_nat (List.length relevant) /\
            prompt_tokens r = count_tokens (context +++ question) /\
            completion_tokens r = count_tokens ans /\
            total_tokens r = prompt_tokens r + completion_tokens r /\
            (include_suggestions && Py.truthy_str context = false -> suggestions r = JArr []) /\
            (include_suggestions && Py.truthy_str context = true ->
             result (_generate_follow_up_questions env context question ans)
               = Returned (suggestions r))
      end
  end.
Proof.
  intros retrieval.
  pose proof (retrieve_trace env (sess_document_id session) question k thr) as Htr.
  fold retrieval in Htr.
  set (run := answer_question env session question k thr include_citations include_suggestions).
  assert (Hpair : run = (trace run, result run)) by (destruct run; reflexivity).
  assert (Htrace : trace run =
                   trace retrieval ++
                   match result retrieval with
                   | Raised _ => []
                   | Returned relevant =>
                       let context := fst (build_context env relevant None) in
                       let req := qa_request env session question include_citations relevant in
                       [EvWaitAsync; EvInvoke req] ++
                       match ainvoke env req with
                       | None => []
                       | Some ans =>
                           if include_suggestions && Py.truthy_str context
                           then [EvWaitAsync;
                                 EvInvoke (FollowUpPrompt (Py.str_slice_to 3000 context)
                                             question ans)]
                           else []
                       end
                   end).
  { subst run. unfold answer_question. fold retrieval. rewrite trace_bind.
    destruct (result retrieval) as [relevant|e]; [|now rewrite app_nil_r].
    f_equal. unfold qa_request.
    destruct (build_context env relevant None) as [context cits]. cbn [fst snd]. cbv zeta.
    rewrite trace_bind, result_wait_async, trace_bind, result_llm_invoke, trace_llm_invoke.
    change (trace wait_async) with [EvWaitAsync].
    destruct (ainvoke env _) as [ans|]; [|reflexivity].
    rewrite trace_bind.
    destruct (include_suggestions && Py.truthy_str context).
    - destruct (follow_up_never_raises env context question ans) as [j Hj].
      rewrite Hj, trace_follow_up. reflexivity.
    - reflexivity. }
  assert (Hresult : result run =
                    match result retrieval with
                    | Raised e => Raised e
                    | Returned relevant =>
                        let context := fst (build_context env relevant None) in
                        let req := qa_request env session question include_citations relevant in
                        match ainvoke env req with
                        | None => Raised ProviderError
                        | Some ans =>
                            match result (if include_suggestions && Py.truthy_str context
                                          then _generate_follow_up_questions env context question ans
                                          else ret (JArr [])) with
                            | Raised e => Raised e
                            | Returned sugg =>
                                Returned
                                  {| answer := ans;
                                     citations := if include_citations
                                                  then snd (build_context env relevant None)
                                                  else [];
                                     suggestions := sugg;
                                     context_used := Z.of_nat (List.length relevant);
                                     prompt_tokens := count_tokens (context +++ question);
                                     completion_tokens := count_tokens ans;
                                     total_tokens :=
                                       count_tokens (context +++ question) + count_tokens ans;
                                     model_used := chat_model env |}
                            end
                        end
                    end).
  { subst run. unfold answer_question. fold retrieval. rewrite result_bind.
    destruct (result retrieval) as [relevant|e]; [|reflexivity].
    unfold qa_request.
    destruct (build_context env relevant None) as [context cits]. cbn [fst snd]. cbv zeta.
    rewrite result_bind, result_wait_async, result_bind, result_llm_invoke.
    destruct (ainvoke env _) as [ans|]; [|reflexivity].
    rewrite result_bind.
    destruct (result (if include_suggestions && Py.truthy_str context
                      then _generate_follow_up_questions env context question ans
                      else ret (JArr []))); reflexivity. }
  rewrite Htr in Htrace.
  destruct (result retrieval) as [relevant|e].
  - cbv zeta in Htrace, Hresult |- *.
    destruct (ainvoke env (qa_request env session question include_citations relevant))
      as [ans|].
    + destruct (include_suggestions && Py.truthy_str (fst (build_context env relevant None)))
        eqn:Esug.
      * destruct (follow_up_never_raises env (fst (build_context env relevant None)) question ans)
          as [j Hj].
        rewrite Hj in Hresult.
        eexists. split; [rewrite Hpair, Htrace, Hresult; reflexivity|].
        simpl. repeat split; try reflexivity; try discriminate.
        intros _. exact Hj.
      * unfold ret, result at 2 in Hresult. simpl in Hresult.
        eexists. split; [rewrite Hpair, Htrace, Hresult; reflexivity|].
        simpl. repeat split; try reflexivity; try discriminate.
    + rewrite Hpair, Htrace, Hresult. reflexivity.
  - rewrite Hpair, Htrace, Hresult. reflexivity.
Qed.

Lemma retrieve_each_rate_limited (query : string) (k : Z) (thr : float) (docs : list UUID) :
  forall acc, rate_limited (trace (retrieve_each env docs query k thr acc)) = true.
Proof.
  induction docs as [|d rest IH]; intros acc; [reflexivity|].
  cbn [retrieve_each]. rewrite trace_bind, retrieve_trace.
  destruct (result (retrieve_relevant_chunks env d query k thr)); [|reflexivity].
  simpl. apply IH.
Qed.

Lemma retrieve_multi_rate_limited (query : string) (k : Z) (thr : float) (docs : list UUID) :
  rate_limited (trace (retrieve_from_multiple_documents env docs query k thr)) = true.
Proof.
  unfold retrieve_from_multiple_documents. rewrite trace_bind.
  pose proof (retrieve_each_rate_limited query k thr docs []) as H.
  destruct (result (retrieve_each env docs query k thr [])); [|exact H].
  unfold ret, trace at 2. simpl. rewrite app_nil_r. exact H.
Qed.

(** The calls [answer_multi_document_question] makes after the retrieval. *)
Lemma answer_multi_trace (docs : list UUID) (question : string) (k : Z) :
  let retrieval :=
    retrieve_from_multiple_documents env docs question k default_similarity_threshold in
  trace (answer_multi_document_question env docs question k) =
  trace retrieval ++
  match result retrieval with
  | Raised _ => []
  | Returned all =>
      [EvWaitAsync;
       EvInvoke (MultiDocPrompt
                   (Py.join (Py.nl +++ Py.nl)
                      (map (fun x => multi_context_part (select_filename env (snd x)) (fst (fst x)))
                           (Py.slice_to 10 all)))
                   question)]
  end.
Proof.
  intros retrieval. unfold answer_multi_document_question. fold retrieval.
  rewrite trace_bind.
  destruct (result retrieval) as [all|e]; [|now rewrite app_nil_r].
  f_equal. rewrite multi_context_loop_all. cbv beta iota.
  rewrite trace_bind, result_wait_async, trace_bind, trace_llm_invoke.
  destruct (result (llm_invoke env _)); reflexivity.
Qed.

End Traces.

(** X11.  In every run of [answer_question] and of
    [answer_multi_document_question], whether it returns or raises, each call
    to the embedding provider or to the chat model comes right after a rate
    limiter acquisition of its own: the calls made are acquisition and
    provider call in turn, equally many of each. *)
Theorem provider_calls_are_rate_limited
        (env : RAG.Env) (session : RAG.ChatSession) (question : string) (k : Z) (thr : float)
        (include_citations include_suggestions : bool)
        (docs : list RAG.UUID) (per_doc : Z) :
  let single :=
    RAG.trace (RAG.answer_question env session question k thr
                 include_citations include_suggestions) in
  let multi := RAG.trace (RAG.answer_multi_document_question env docs question per_doc) in
  MoreSpec.rate_limited single = true /\
  MoreSpec.rate_limited multi = true /\
  RAG.count_waits single = List.length (filter MoreSpec.is_provider_call single) /\
  RAG.count_waits multi = List.length (filter MoreSpec.is_provider_call multi).
Proof.
  intros single multi.
  assert (Hs : MoreSpec.rate_limited single = true).
  { subst single.
    pose proof (answer_question_run env session question k thr
                  include_citations include_suggestions) as Hrun.
    cbv zeta in Hrun.
    destruct (RAG.result (RAG.retrieve_relevant_chunks env _ question k thr)) as [relevant|e].
    - destruct (RAG.ainvoke env _) as [ans|].
      + destruct Hrun as (r & -> & _).
        destruct (include_suggestions && Py.truthy_str _); reflexivity.
      + rewrite Hrun. reflexivity.
    - rewrite Hrun. reflexivity. }
  assert (Hm : MoreSpec.rate_limited multi = true).
  { subst multi. rewrite answer_multi_trace.
    rewrite rate_limited_app by apply retrieve_multi_rate_limited.
    destruct (RAG.result _); reflexivity. }
  repeat split; auto using rate_limited_counts.
Qed.

(** X12.  [answer_question] raises only when the retrieval raises, and then
    with the same exception and without any call to the chat model, or when
    the chat model fails on the answer prompt, and then with the provider's
    error; in neither case has a follow-up prompt been sent.  Nothing the
    suggestion step does makes it raise. *)
Theorem answer_question_fails_only_in_retrieval_or_generation
        (env : RAG.Env) (session : RAG.ChatSession) (question : string) (k : Z) (thr : float)
        (include_citations include_suggestions : bool) (e : RAG.exn) :
  let retrieval :=
    RAG.retrieve_relevant_chunks env (RAG.sess_document_id session) question k thr in
  let run :=
    RAG.answer_question env session question k thr include_citations include_suggestions in
  (RAG.result run = RAG.Raised e <->
   RAG.result retrieval = RAG.Raised e \/
   exists relevant,
     RAG.result retrieval = RAG.Returned relevant /\
     RAG.ainvoke env (MoreSpec.qa_request env session question include_citations relevant)
       = None /\
     e = RAG.ProviderError) /\
  (RAG.result retrieval = RAG.Raised e ->
   RAG.trace run = [RAG.EvWaitAsync; RAG.EvEmbedQuery question]) /\
  (RAG.result run = RAG.Raised e -> filter MoreSpec.is_follow_up (RAG.trace run) = []).
Proof.
  intros retrieval run.
  pose proof (answer_question_run env session question k thr
                include_citations include_suggestions) as Hrun.
  cbv zeta in Hrun. fold retrieval run in Hrun.
  destruct (RAG.result retrieval) as [relevant|e0].
  - destruct (RAG.ainvoke env (MoreSpec.qa_request env session question include_citations relevant))
      as [ans|] eqn:Hans.
    + destruct Hrun as (r & Hrun & _). rewrite Hrun. unfold RAG.result. simpl.
      split; [split|split]; try discriminate.
      intros [H|(rel & H & Hnone & _)]; [discriminate|].
      inversion H; subst rel. congruence.
    + rewrite Hrun. unfold RAG.result, RAG.trace. simpl.
      split; [split|split]; try discriminate.
      * intros H. inversion H; subst e. right. exists relevant. auto.
      * intros [H|(rel & _ & _ & ->)]; [discriminate | reflexivity].
      * reflexivity.
  - rewrite Hrun. unfold RAG.result, RAG.trace. simpl.
    split; [split|split].
    + intros H. inversion H. left. reflexivity.
    + intros [H|(rel & H & _)]; [inversion H; reflexivity | discriminate].
    + reflexivity.
    + reflexivity.
Qed.

(** X13.  When the retrieval returns no chunk, [answer_question] still asks
    the chat model, with the "no relevant context" marker in place of the
    context, and sends no follow-up prompt even when suggestions are asked
    for; the answer it then returns has no citations, no suggestions,
    [context_used = 0], and prompt tokens counted on the question alone. *)
Theorem empty_retrieval_is_answered_without_context
        (env : RAG.Env) (session : RAG.ChatSession) (question : string) (k : Z) (thr : float)
        (include_citations include_suggestions : bool) :
  RAG.result (RAG.retrieve_relevant_chunks env (RAG.sess_document_id session) question k thr)
    = RAG.Returned [] ->
  let run :=
    RAG.answer_question env session question k thr include_citations include_suggestions in
  let req :=
    RAG.QaPrompt include_citations "No relevant context found in the document." question
      (RAG.build_chat_history (RAG.select_messages env (RAG.sess_id session))
         (RAG.context_window session)) in
  RAG.trace run = [RAG.EvWaitAsync; RAG.EvEmbedQuery question; RAG.EvWaitAsync; RAG.EvInvoke req] /\
  match RAG.ainvoke env req with
  | None => RAG.result run = RAG.Raised RAG.ProviderError
  | Some ans =>
      exists r,
        RAG.result run = RAG.Returned r /\
        RAG.answer r = ans /\
        RAG.citations r = [] /\
        RAG.suggestions r = RAG.JArr [] /\
        RAG.context_used r = 0 /\
        RAG.prompt_tokens r = RAG.count_tokens question
  end.
Proof.
  intros Hempty run req.
  pose proof (answer_question_run env session question k thr
                include_citations include_suggestions) as Hrun.
  cbv zeta in Hrun. rewrite Hempty in Hrun. fold run in Hrun.
  change (MoreSpec.qa_request env session question include_citations []) with req in Hrun.
  change (fst (RAG.build_context env [] None)) with EmptyString in Hrun.
  destruct (RAG.ainvoke env req) as [ans|].
  - destruct Hrun as (r & Hrun & Hans & Hcit & Hused & Hprompt & _ & _ & Hnosug & _).
    rewrite andb_false_r in Hrun, Hnosug.
    rewrite Hrun. split; [reflexivity|].
    exists r. split; [reflexivity|]. split; [assumption|].
    split; [rewrite Hcit; destruct include_citations; reflexivity|].
    split; [auto|]. split; assumption.
  - rewrite Hrun. split; reflexivity.
Qed.

Lemma empty_retrieval_is_answered_without_context_witness :
  let run := RAG.answer_question Inputs.library MoreInputs.session_d9 "q" 5 0.5%float true true in
  let req :=
    RAG.QaPrompt true "No relevant context found in the document." "q"
      (RAG.build_chat_history (RAG.select_messages Inputs.library "s9") 2) in
  RAG.trace run = [RAG.EvWaitAsync; RAG.EvEmbedQuery "q"; RAG.EvWaitAsync; RAG.EvInvoke req] /\
  match RAG.ainvoke Inputs.library req with
  | None => RAG.result run = RAG.Raised RAG.ProviderError
  | Some ans =>
      exists r,
        RAG.result run = RAG.Returned r /\
        RAG.answer r = ans /\
        RAG.citations r = [] /\
        RAG.suggestions r = RAG.JArr [] /\
        RAG.context_used r = 0 /\
        RAG.prompt_tokens r = RAG.count_tokens "q"
  end.
Proof.
  apply (empty_retrieval_is_answered_without_context Inputs.library MoreInputs.session_d9
           "q" 5 0.5%float true true).
  vm_compute. reflexivity.
Defined.

Section Slices.

Lemma substring_0_length (n : nat) (s : string) :
  String.length (substring 0 n s) = Nat.min n (String.length s).
Proof.
  revert s. induction n as [|n IH]; intros [|c s]; simpl; try reflexivity.
  now rewrite IH.
Qed.

Lemma substring_0_all (n : nat) (s : string) :
  (String.length s <= n)%nat -> substring 0 n s = s.
Proof.
  revert s. induction n as [|n IH]; intros [|c s]; simpl; intros H; try reflexivity.
  - lia.
  - f_equal. apply IH. lia.
Qed.

Lemma substring_0_prefix (n : nat) (s : string) :
  exists rest, s = substring 0 n s +++ rest.
Proof.
  revert s. induction n as [|n IH]; intros [|c s]; simpl.
  - exists EmptyString. reflexivity.
  - eexists. reflexivity.
  - exists EmptyString. reflexivity.
  - destruct (IH s) as (rest & Hrest). exists rest. now rewrite <- Hrest.
Qed.

Lemma slice_to_length_le {A : Type} (k : nat) (l : list A) :
  (List.length (Py.slice_to (Z.of_nat k) l) <= k)%nat.
Proof.
  rewrite slice_to_firstn by lia. rewrite Nat2Z.id. apply firstn_le_length.
Qed.

Lemma slice_to_StronglySorted {A : Type} (R : A -> A -> Prop) (k : Z) (l : list A) :
  StronglySorted R l -> StronglySorted R (Py.slice_to k l).
Proof.
  intros H. unfold Py.slice_to. destruct (0 <=? k); now apply StronglySorted_firstn.
Qed.

Lemma StronglySorted_map {A B : Type} (R : B -> B -> Prop) (f : A -> B) (l : list A) :
  StronglySorted (fun a b => R (f a) (f b)) l -> StronglySorted R (map f l).
Proof.
  induction 1 as [|x l Hs IH Hx]; simpl; constructor; auto.
  apply Forall_map. exact Hx.
Qed.

Lemma firstn_Forall {A : Type} (P : A -> Prop) (n : nat) (l : list A) :
  Forall P l -> Forall P (firstn n l).
Proof.
  intros H. rewrite Forall_forall in H |- *. intros x Hx. apply H.
  rewrite <- (firstn_skipn n l). apply in_or_app. now left.
Qed.

Lemma StronglySorted_weaken {A : Type} (R S : A -> A -> Prop) (l : list A) :
  (forall a b, R a b -> S a b) -> StronglySorted R l -> StronglySorted S l.
Proof.
  intros HRS. induction 1 as [|x l Hs IH Hx]; constructor; auto.
  eapply Forall_impl; [|exact Hx]. auto.
Qed.

End Slices.

(** X14.  [_generate_follow_up_questions] always returns, after exactly one
    acquisition and one call of the chat model; the context it sends is the
    first 3000 characters of the context, a prefix of it of length
    [min(3000, len(context))], and so all of it when it is no longer; and
    what it returns is a list of at most three items or, when the model
    answered with a JSON string, a string of at most three characters. *)
Theorem follow_up_questions_bounded
        (env : RAG.Env) (context question answer : string) :
  exists j sent rest,
    RAG.result (RAG._generate_follow_up_questions env context question answer)
      = RAG.Returned j /\
    RAG.trace (RAG._generate_follow_up_questions env context question answer)
      = [RAG.EvWaitAsync; RAG.EvInvoke (RAG.FollowUpPrompt sent question answer)] /\
    context = sent +++ rest /\
    String.length sent = Nat.min 3000 (String.length context) /\
    (String.length sent <= 3000)%nat /\
    ((String.length context <= 3000)%nat -> sent = context) /\
    ((exists l, j = RAG.JArr l /\ (List.length l <= 3)%nat) \/
     (exists s, j = RAG.JStr s /\ (String.length s <= 3)%nat)).
Proof.
  assert (Hj : exists j,
             RAG.result (RAG._generate_follow_up_questions env context question answer)
               = RAG.Returned j /\
             ((exists l, j = RAG.JArr l /\ (List.length l <= 3)%nat) \/
              (exists s, j = RAG.JStr s /\ (String.length s <= 3)%nat))).
  { unfold RAG._generate_follow_up_questions, RAG.try_except, RAG.llm_invoke,
      RAG.wait_async, RAG.emit, RAG.bind, RAG.lift, RAG.ret, RAG.raise, RAG.result.
    simpl.
    destruct (RAG.ainvoke env _) as [content|]; simpl;
      [|eexists; split; [reflexivity | left; exists []; split; [reflexivity | simpl; lia]]].
    destruct (RAG.json_loads env content) as [v|]; simpl;
      [|eexists; split; [reflexivity | left; exists []; split; [reflexivity | simpl; lia]]].
    destruct v; simpl;
      try (eexists; split; [reflexivity | left; exists []; split; [reflexivity | simpl; lia]]).
    - eexists. split; [reflexivity|]. right. eexists. split; [reflexivity|].
      unfold Py.str_slice_to. rewrite substring_0_length. lia.
    - eexists. split; [reflexivity|]. left. eexists. split; [reflexivity|].
      apply (slice_to_length_le 3). }
  destruct Hj as (j & Hj & Hshape).
  destruct (substring_0_prefix 3000 context) as (rest & Hrest).
  exists j, (Py.str_slice_to 3000 context), rest.
  split; [exact Hj|]. split; [apply trace_follow_up|].
  split; [exact Hrest|].
  split; [unfold Py.str_slice_to; apply substring_0_length|].
  split; [unfold Py.str_slice_to; rewrite substring_0_length; lia|].
  split; [apply substring_0_all | exact Hshape].
Qed.

(** X15.  Raising the budget in force never takes a chunk out of the context:
    the citations [build_context] returns under the smaller budget are the
    first of those it returns under the larger one. *)
Theorem larger_budget_keeps_more
        (env : RAG.Env) (chunks : list (RAG.DocumentChunk * float)) (m m' : option Z) :
  Py.or_int m (RAG.max_context_tokens env) <= Py.or_int m' (RAG.max_context_tokens env) ->
  exists more,
    snd (RAG.build_context env chunks m') = snd (RAG.build_context env chunks m) ++ more.
Proof.
  intros HB. unfold RAG.build_context.
  destruct (build_context_loop_prefix (Py.or_int m (RAG.max_context_tokens env))
              chunks [] [] 0) as (n & Hn & Heq & Hin & Hout).
  destruct (build_context_loop_prefix (Py.or_int m' (RAG.max_context_tokens env))
              chunks [] [] 0) as (n' & Hn' & Heq' & Hin' & Hout').
  rewrite Heq, Heq'. simpl.
  assert (Hle : (n <= n')%nat).
  { destruct (Nat.le_gt_cases n n') as [H|H]; [assumption|].
    specialize (Hin n' H). specialize (Hout' ltac:(lia)). lia. }
  exists (map (fun cs => RAG.citation (fst cs) (snd cs)) (skipn n (firstn n' chunks))).
  rewrite <- map_app. f_equal.
  rewrite <- (firstn_skipn n (firstn n' chunks)) at 1.
  f_equal. rewrite firstn_firstn. f_equal. lia.
Qed.

Lemma larger_budget_keeps_more_witness :
  exists more,
    snd (RAG.build_context Inputs.library Inputs.ranked_50_60_40 (Some 150)) =
    snd (RAG.build_context Inputs.library Inputs.ranked_50_60_40 (Some 100)) ++ more.
Proof.
  apply (larger_budget_keeps_more Inputs.library Inputs.ranked_50_60_40 (Some 100) (Some 150)).
  simpl. lia.
Defined.

Section RankedRetrieval.
Import RAG Spec.
Variable env : Env.

(** Whatever a retrieval returns is ranked and above the threshold. *)
Lemma retrieve_returned_ranked (doc : UUID) (query : string) (k : Z) (thr : float)
      (r : list (DocumentChunk * float)) :
  result (retrieve_relevant_chunks env doc query k thr) = Returned r ->
  StronglySorted retrieval_order r /\
  Forall (fun cs => PrimFloat.leb thr (snd cs) = true) r /\
  (0 <= k -> Z.of_nat (List.length r) <= k).
Proof.
  rewrite retrieve_result.
  destruct (aembed_query env query) as [q|]; [|discriminate].
  destruct (score_chunks q thr (select_chunks env doc) []) as [scored|e] eqn:Es;
    [|discriminate].
  intros H. inversion H; subst r. clear H.
  destruct (score_chunks_sound q thr _ _ _ Es) as (r0 & Hr0 & Hfrom & Hidx).
  simpl in Hr0. subst r0.
  split; [|split].
  - apply slice_to_StronglySorted.
    apply (stable_sort_ranked (@snd DocumentChunk float) (fun cs => chunk_index (fst cs))).
    + eapply scored_is_number; exact Hfrom.
    + apply Hidx, select_chunks_sorted.
  - apply slice_to_Forall, stable_sort_Forall.
    eapply Forall_impl; [|exact Hfrom]. intros cs (_ & _ & _ & Hle). exact Hle.
  - intros Hk. rewrite slice_to_firstn by assumption.
    pose proof (firstn_le_length (Z.to_nat k) (sort_by_score scored)). lia.
Qed.

End RankedRetrieval.

(** X16.  The citations of an answer asked with citations are in descending
    order of relevance score, each score is at least the similarity
    threshold, and there are no more of them than [context_used] reports,
    which in turn is at most the number of chunks asked for. *)
Theorem answer_citations_are_ranked
        (env : RAG.Env) (session : RAG.ChatSession) (question : string) (k : Z) (thr : float)
        (include_suggestions : bool) (r : RAG.Answer) :
  RAG.result (RAG.answer_question env session question k thr true include_suggestions)
    = RAG.Returned r ->
  StronglySorted
    (fun a b => PrimFloat.leb (RAG.relevance_score b) (RAG.relevance_score a) = true)
    (RAG.citations r) /\
  Forall (fun c => PrimFloat.leb thr (RAG.relevance_score c) = true) (RAG.citations r) /\
  Z.of_nat (List.length (RAG.citations r)) <= RAG.context_used r /\
  (0 <= k -> RAG.context_used r <= k).
Proof.
  pose proof (answer_question_run env session question k thr true include_suggestions) as Hrun.
  cbv zeta in Hrun.
  destruct (RAG.result (RAG.retrieve_relevant_chunks env _ question k thr))
    as [relevant|e] eqn:Hret.
  - destruct (retrieve_returned_ranked env _ _ _ _ _ Hret) as (Hsorted & Hthr & Hlen).
    destruct (RAG.ainvoke env _) as [ans|].
    + destruct Hrun as (r' & Hrun & _ & Hcit & Hused & _).
      rewrite Hrun. unfold RAG.result. simpl. intros H. inversion H; subst r'. clear H.
      rewrite Hcit, Hused. unfold RAG.build_context.
      destruct (build_context_loop_prefix (Py.or_int None (RAG.max_context_tokens env))
                  relevant [] [] 0) as (n & Hn & Heq & _).
      rewrite Heq. simpl.
      split; [|split; [|split]].
      * apply StronglySorted_map. apply StronglySorted_firstn.
        eapply StronglySorted_weaken; [|exact Hsorted]. intros a b Hab. exact (proj1 Hab).
      * apply Forall_map. apply firstn_Forall. exact Hthr.
      * rewrite length_map, length_firstn. lia.
      * exact Hlen.
    + rewrite Hrun. discriminate.
  - rewrite Hrun. discriminate.
Qed.

Lemma answer_citations_are_ranked_witness :
  exists r,
    RAG.result (RAG.answer_question Inputs.library Inputs.session_d1 "q" 5 0.5%float true false)
      = RAG.Returned r /\
    StronglySorted
      (fun a b => PrimFloat.leb (RAG.relevance_score b) (RAG.relevance_score a) = true)
      (RAG.citations r) /\
    Forall (fun c => PrimFloat.leb 0.5%float (RAG.relevance_score c) = true) (RAG.citations r) /\
    Z.of_nat (List.length (RAG.citations r)) <= RAG.context_used r /\
    (0 <= 5 -> RAG.context_used r <= 5).
Proof.
  assert (H : RAG.result (RAG.answer_question Inputs.library Inputs.session_d1 "q" 5
                            0.5%float true false) = RAG.Returned ?[r])
    by (vm_compute; reflexivity).
  eexists. split; [exact H|].
  exact (answer_citations_are_ranked Inputs.library Inputs.session_d1 "q" 5 0.5%float false _ H).
Defined.

(** X17.  A context window of zero does not silence the history: for a window
    [K <= 0], [build_chat_history] replays every turn but the first [-2K],
    so with [K = 0] it replays the whole conversation. *)
Theorem build_chat_history_nonpositive_window (messages : list RAG.ChatMessage) (K : Z) :
  K <= 0 ->
  RAG.build_chat_history messages K =
    flat_map Spec.replay (skipn (Z.to_nat (- 2 * K)) messages) /\
  (K = 0 -> RAG.build_chat_history messages K = flat_map Spec.replay messages).
Proof.
  intros HK.
  assert (Heq : RAG.build_chat_history messages K =
                flat_map Spec.replay (skipn (Z.to_nat (- 2 * K)) messages)).
  { unfold RAG.build_chat_history. rewrite history_loop_replay. cbn [app]. f_equal.
    destruct (Z.ltb_spec (K * 2) (Z.of_nat (List.length messages))) as [Hlong|Hshort].
    - unfold Py.slice_from.
      destruct (Z.leb_spec 0 (- K * 2)); [|lia].
      f_equal. lia.
    - assert (K = 0 /\ List.length messages = 0%nat) as [-> Hnil] by lia.
      destruct messages; [reflexivity | discriminate]. }
  split; [exact Heq|].
  intros ->. rewrite Heq. reflexivity.
Qed.

Lemma build_chat_history_nonpositive_window_witness :
  RAG.build_chat_history Inputs.ten_turns 0 =
    flat_map Spec.replay (skipn (Z.to_nat (- 2 * 0)) Inputs.ten_turns) /\
  (0 = 0 -> RAG.build_chat_history Inputs.ten_turns 0 = flat_map Spec.replay Inputs.ten_turns).
Proof.
  apply (build_chat_history_nonpositive_window Inputs.ten_turns 0). lia.
Defined.

(* ================================================================== *)
(** * More on the multi-document path *)
(* ================================================================== *)

Section MultiMore.
Import RAG Spec MoreSpec.
Variable env : Env.

(** Every chunk the loop over the documents gathers is tagged with one of
    the documents asked for. *)
Lemma retrieve_each_tags (query : string) (k : Z) (thr : float) (docs : list UUID) :
  forall acc out,
    result (retrieve_each env docs query k thr acc) = Returned out ->
    Forall (fun x => In (snd x) docs \/ In x acc) out.
Proof.
  induction docs as [|d rest IH]; intros acc out H.
  - simpl in H. unfold ret, result in H. simpl in H. inversion H; subst.
    apply Forall_forall. intros x Hx. now right.
  - cbn [retrieve_each] in H. rewrite result_bind in H.
    destruct (result (retrieve_relevant_chunks env d query k thr)) as [chunks|e];
      [|discriminate].
    specialize (IH _ _ H). eapply Forall_impl; [|exact IH].
    intros x [Hin|Hin]; [left; now right|].
    apply in_app_or in Hin. destruct Hin as [Hin|Hin]; [now right|].
    apply in_map_iff in Hin. destruct Hin as (cs & <- & _). left. now left.
Qed.

Lemma retrieve_multi_tags (query : string) (k : Z) (thr : float) (docs : list UUID)
      (all : list (DocumentChunk * float * UUID)) :
  result (retrieve_from_multiple_documents env docs query k thr) = Returned all ->
  Forall (fun x => In (snd x) docs) all.
Proof.
  unfold retrieve_from_multiple_documents. rewrite result_bind.
  destruct (result (retrieve_each env docs query k thr [])) as [gathered|e] eqn:Er;
    [|discriminate].
  unfold ret, result. simpl. intros H. inversion H; subst all.
  apply stable_sort_Forall.
  eapply Forall_impl; [|exact (retrieve_each_tags query k thr docs [] gathered Er)].
  intros x [Hin|[]]. exact Hin.
Qed.

(** The answer of the multi-document path, in terms of the merged list. *)
Lemma answer_multi_result (docs : list UUID) (question : string) (k : Z) (r : MultiAnswer) :
  result (answer_multi_document_question env docs question k) = Returned r ->
  exists all,
    result (retrieve_from_multiple_documents env docs question k default_similarity_threshold)
      = Returned all /\
    multi_citations r = map (multi_citation_of env) (Py.slice_to 10 all) /\
    documents_used r = Py.list_set (map (fun x => snd x) (Py.slice_to 10 all)).
Proof.
  unfold answer_multi_document_question. rewrite result_bind.
  destruct (result (retrieve_from_multiple_documents env docs question k
                      default_similarity_threshold)) as [all|e]; [|discriminate].
  rewrite multi_context_loop_all. cbv beta iota.
  rewrite result_bind, result_wait_async, result_bind, result_llm_invoke.
  destruct (ainvoke env _) as [content|]; [|discriminate].
  unfold ret, result. simpl. intros H. inversion H; subst r. simpl.
  exists all. split; [reflexivity|]. split; [reflexivity|].
  f_equal. induction (Py.slice_to 10 all) as [|x l IH]; simpl; [reflexivity|].
  now rewrite IH.
Qed.

End MultiMore.

(** X18.  [documents_used] in a multi-document answer lists, without
    repetition, exactly the documents that are cited; each of them is one of
    the documents asked about, and a document none of whose chunks is cited
    is not listed. *)
Theorem documents_used_are_the_cited_documents
        (env : RAG.Env) (docs : list RAG.UUID) (question : string) (k : Z)
        (r : RAG.MultiAnswer) :
  RAG.result (RAG.answer_multi_document_question env docs question k) = RAG.Returned r ->
  NoDup (RAG.documents_used r) /\
  (forall d, In d (RAG.documents_used r) <->
             exists c name, In c (RAG.multi_citations r) /\
                            RAG.cit_document c = Some (d, name)) /\
  (forall d, In d (RAG.documents_used r) -> In d docs).
Proof.
  intros H. destruct (answer_multi_result env docs question k r H) as (all & Hall & Hcit & Hused).
  pose proof (retrieve_multi_tags env question k _ docs all Hall) as Htags.
  rewrite Hused, Hcit. unfold Py.list_set.
  split; [apply NoDup_nodup|]. split.
  - intros d. rewrite nodup_In, in_map_iff. split.
    + intros (x & <- & Hx). exists (Spec.multi_citation_of env x), (RAG.select_filename env (snd x)).
      split; [now apply in_map | reflexivity].
    + intros (c & name & Hc & Hdoc). apply in_map_iff in Hc. destruct Hc as (x & <- & Hx).
      exists x. split; [|assumption]. simpl in Hdoc. now inversion Hdoc.
  - intros d. rewrite nodup_In, in_map_iff. intros (x & <- & Hx).
    assert (Hin : In x all).
    { unfold Py.slice_to in Hx. simpl in Hx.
      rewrite <- (firstn_skipn 10 all). apply in_or_app. now left. }
    rewrite Forall_forall in Htags. now apply Htags.
Qed.

Lemma documents_used_are_the_cited_documents_witness :
  exists r,
    RAG.result (RAG.answer_multi_document_question Inputs.library ["d1"; "d2"; "d9"] "q" 3)
      = RAG.Returned r /\
    NoDup (RAG.documents_used r) /\
    (forall d, In d (RAG.documents_used r) <->
               exists c name, In c (RAG.multi_citations r) /\
                              RAG.cit_document c = Some (d, name)) /\
    (forall d, In d (RAG.documents_used r) -> In d ["d1"; "d2"; "d9"]).
Proof.
  assert (H : RAG.result (RAG.answer_multi_document_question Inputs.library
                            ["d1"; "d2"; "d9"] "q" 3) = RAG.Returned ?[r])
    by (vm_compute; reflexivity).
  eexists. split; [exact H|].
  exact (documents_used_are_the_cited_documents Inputs.library ["d1"; "d2"; "d9"] "q" 3 _ H).
Defined.

(** Documents [d1] and [d2] are cited, [d9], which has no chunks, is not. *)
Example documents_used_of_the_library :
  exists r,
    RAG.result (RAG.answer_multi_document_question Inputs.library ["d1"; "d2"; "d9"] "q" 3)
      = RAG.Returned r /\
    RAG.documents_used r = ["d2"; "d1"].
Proof. eexists. split; vm_compute; reflexivity. Qed.

(** X19.  When the retrieval over the documents returns nothing, among them
    when no document is given, the multi-document path still asks the chat
    model, with an empty context and without the "no relevant context" marker
    of the single-document path; an answer it returns then has no citations
    and no documents used. *)
Theorem multi_document_answer_without_context
        (env : RAG.Env) (docs : list RAG.UUID) (question : string) (k : Z) :
  RAG.result (RAG.retrieve_from_multiple_documents env docs question k
                RAG.default_similarity_threshold) = RAG.Returned [] ->
  RAG.trace (RAG.answer_multi_document_question env docs question k) =
    flat_map (fun _ => [RAG.EvWaitAsync; RAG.EvEmbedQuery question]) docs ++
    [RAG.EvWaitAsync; RAG.EvInvoke (RAG.MultiDocPrompt EmptyString question)] /\
  (forall r,
      RAG.result (RAG.answer_multi_document_question env docs question k) = RAG.Returned r ->
      RAG.multi_citations r = [] /\ RAG.documents_used r = []) /\
  (RAG.ainvoke env (RAG.MultiDocPrompt EmptyString question) <> None ->
   exists r, RAG.result (RAG.answer_multi_document_question env docs question k)
             = RAG.Returned r).
Proof.
  intros Hempty. split; [|split].
  - pose proof (answer_multi_trace env docs question k) as Htr. cbv zeta in Htr.
    rewrite Hempty in Htr. rewrite Htr.
    destruct (retrieve_multi_returns env question k _ docs [] Hempty) as [-> _].
    reflexivity.
  - intros r H. destruct (answer_multi_result env docs question k r H) as (all & Hall & Hcit & Hused).
    rewrite Hempty in Hall. inversion Hall; subst all. rewrite Hcit, Hused. split; reflexivity.
  - intros Hsome. unfold RAG.answer_multi_document_question.
    rewrite result_bind, Hempty.
    change (Py.slice_to 10 (@nil (RAG.DocumentChunk * float * RAG.UUID))) with
      (@nil (RAG.DocumentChunk * float * RAG.UUID)).
    cbn [RAG.multi_context_loop Py.join].
    rewrite result_bind, result_wait_async, result_bind, result_llm_invoke.
    destruct (RAG.ainvoke env _) as [content|]; [|contradiction].
    eexists. reflexivity.
Qed.

Lemma multi_document_answer_without_context_witness :
  RAG.trace (RAG.answer_multi_document_question Inputs.library ["d9"] "q" 3) =
    flat_map (fun _ => [RAG.EvWaitAsync; RAG.EvEmbedQuery "q"]) ["d9"] ++
    [RAG.EvWaitAsync; RAG.EvInvoke (RAG.MultiDocPrompt EmptyString "q")] /\
  (forall r,
      RAG.result (RAG.answer_multi_document_question Inputs.library ["d9"] "q" 3) = RAG.Returned r ->
      RAG.multi_citations r = [] /\ RAG.documents_used r = []) /\
  (RAG.ainvoke Inputs.library (RAG.MultiDocPrompt EmptyString "q") <> None ->
   exists r, RAG.result (RAG.answer_multi_document_question Inputs.library ["d9"] "q" 3)
             = RAG.Returned r).
Proof.
  apply (multi_document_answer_without_context Inputs.library ["d9"] "q" 3).
  vm_compute. reflexivity.
Defined.

(* ================================================================== *)
(** * Batched embeddings *)
(* ================================================================== *)

Section SliceFacts.
Context {A : Type}.

Lemma slice_nonneg (i j : Z) (l : list A) :
  0 <= i <= j ->
  PyMore.slice i j l = firstn (Z.to_nat (j - i)) (skipn (Z.to_nat i) l).
Proof.
  intros Hij. unfold PyMore.slice, PyMore.clamp.
  destruct (Z.ltb_spec i 0) as [?|_]; [lia|].
  destruct (Z.ltb_spec j 0) as [?|_]; [lia|].
  set (n := Z.of_nat (List.length l)).
  destruct (Z.le_gt_cases i n) as [Hi|Hi].
  - rewrite (Z.min_l i n) by assumption.
    destruct (Z.le_gt_cases j n) as [Hj|Hj].
    + rewrite (Z.min_l j n) by assumption. reflexivity.
    + rewrite (Z.min_r j n) by lia.
      rewrite !firstn_all2; [reflexivity | |]; rewrite length_skipn; subst n; lia.
  - rewrite (Z.min_r i n) by lia.
    rewrite (skipn_all2 l (n := Z.to_nat n)) by (subst n; lia).
    rewrite (skipn_all2 l (n := Z.to_nat i)) by (subst n; lia).
    rewrite !firstn_nil. reflexivity.
Qed.

Lemma firstn_plus (a c : nat) (l : list A) :
  firstn (a + c) l = firstn a l ++ firstn c (skipn a l).
Proof.
  revert l. induction a as [|a IH]; intros [|x l]; simpl; try reflexivity.
  - rewrite firstn_nil. reflexivity.
  - rewrite IH. reflexivity.
Qed.

Lemma concat_windows (b : nat) (l : list A) (m s : nat) :
  List.concat (map (fun k => firstn b (skipn (k * b) l)) (seq s m)) =
  firstn (m * b) (skipn (s * b) l).
Proof.
  revert s. induction m as [|m IH]; intros s; simpl; [reflexivity|].
  rewrite IH. rewrite firstn_plus. f_equal.
  rewrite skipn_skipn. replace (b + s * b)%nat with (S s * b)%nat by lia. reflexivity.
Qed.

End SliceFacts.

Section RangeFacts.

Lemma range_len_ceil (n b : Z) :
  0 <= n -> 1 <= b -> PyMore.range_len 0 n b = (n + b - 1) / b.
Proof.
  intros Hn Hb. unfold PyMore.range_len.
  destruct (Z.ltb_spec 0 b) as [_|?]; [|lia].
  destruct (Z.ltb_spec 0 n) as [Hp|Hz].
  - replace (n + b - 1) with (n - 0 - 1 + 1 * b) by lia.
    rewrite Z.div_add by lia. reflexivity.
  - assert (n = 0) by lia. subst n. symmetry. apply Z.div_small. lia.
Qed.

Lemma range_len_bounds (n b : Z) :
  0 <= n -> 1 <= b ->
  0 <= PyMore.range_len 0 n b /\
  n <= PyMore.range_len 0 n b * b /\
  (0 < n -> (PyMore.range_len 0 n b - 1) * b < n) /\
  (0 < PyMore.range_len 0 n b -> 0 < n).
Proof.
  intros Hn Hb. unfold PyMore.range_len.
  destruct (Z.ltb_spec 0 b) as [_|?]; [|lia].
  destruct (Z.ltb_spec 0 n) as [Hp|Hz]; [|lia].
  replace (n - 0 - 1) with (n - 1) by lia.
  pose proof (Z.div_mod (n - 1) b ltac:(lia)) as Hdm.
  pose proof (Z.mod_pos_bound (n - 1) b ltac:(lia)) as Hmod.
  assert (0 <= (n - 1) / b) by (apply Z.div_pos; lia).
  nia.
Qed.

End RangeFacts.
Section BatchFacts.
Import RAG.
Variable aembed_documents : list string -> M (list (list float)).

Lemma flat_map_map {X Y Z : Type} (g : X -> Y) (f : Y -> list Z) (l : list X) :
  flat_map f (map g l) = flat_map (fun x => f (g x)) l.
Proof. induction l as [|x l IH]; simpl; [reflexivity | now rewrite IH]. Qed.

Lemma removelast_map {X Y : Type} (f : X -> Y) (l : list X) :
  removelast (map f l) = map f (removelast l).
Proof.
  induction l as [|x l IH]; simpl; [reflexivity|].
  destruct l as [|y l]; simpl in *; [reflexivity | now rewrite IH].
Qed.

Lemma embed_batches_returns (texts : list string) (b : Z) (starts : list Z)
      (acc : list (list float)) :
  Forall (fun i => BatchSpec.returns
                     (aembed_documents (PyMore.slice i (i + b) texts)) = true) starts ->
  AIService.embed_batches aembed_documents texts b starts acc =
    (flat_map (fun i => BatchSpec.batch_call aembed_documents
                          (PyMore.slice i (i + b) texts)) starts,
     Returned (acc ++ flat_map (fun i => BatchSpec.returned
                                          (aembed_documents (PyMore.slice i (i + b) texts)))
                               starts)).
Proof.
  revert acc. induction starts as [|i starts IH]; intros acc Hall; simpl.
  - rewrite app_nil_r. reflexivity.
  - inversion Hall as [|? ? Hi Hrest]; subst.
    unfold BatchSpec.returns, BatchSpec.returned, BatchSpec.batch_call, result, trace in *.
    destruct (aembed_documents (PyMore.slice i (i + b) texts)) as [tr [r|e]] eqn:E;
      simpl in Hi; [|discriminate].
    unfold bind. rewrite (IH (acc ++ r) Hrest). simpl. rewrite app_assoc. reflexivity.
Qed.

Lemma embed_batches_raises (texts : list string) (b : Z) (pre : list Z) (i : Z)
      (post : list Z) (acc : list (list float)) (e : exn) :
  Forall (fun i => BatchSpec.returns
                     (aembed_documents (PyMore.slice i (i + b) texts)) = true) pre ->
  result (aembed_documents (PyMore.slice i (i + b) texts)) = Raised e ->
  AIService.embed_batches aembed_documents texts b (pre ++ i :: post) acc =
    (flat_map (fun i => BatchSpec.batch_call aembed_documents
                          (PyMore.slice i (i + b) texts)) pre
       ++ BatchSpec.batch_call aembed_documents (PyMore.slice i (i + b) texts),
     Raised e).
Proof.
  revert acc. induction pre as [|j pre IH]; intros acc Hall Hfail; simpl.
  - unfold BatchSpec.batch_call, result, trace in *.
    destruct (aembed_documents (PyMore.slice i (i + b) texts)) as [tr [r|e']] eqn:E;
      simpl in Hfail; [discriminate|]. inversion Hfail; subst e'.
    reflexivity.
  - inversion Hall as [|? ? Hj Hrest]; subst.
    unfold BatchSpec.returns, BatchSpec.batch_call, result, trace in *.
    destruct (aembed_documents (PyMore.slice j (j + b) texts)) as [tr [r|e']] eqn:E;
      simpl in Hj; [|discriminate].
    unfold bind. rewrite (IH (acc ++ r) Hrest Hfail). simpl. rewrite app_assoc. reflexivity.
Qed.

(** The batches of the loop, for a batch size of at least one: the texts cut
    into consecutive runs. *)
Lemma batches_cover (texts : list string) (b : Z) :
  1 <= b ->
  exists starts,
    PyMore.range 0 (Z.of_nat (List.length texts)) b = Some starts /\
    let batches := map (fun i => PyMore.slice i (i + b) texts) starts in
    List.concat batches = texts /\
    Forall (fun batch => (1 <= List.length batch)%nat /\ Z.of_nat (List.length batch) <= b)
           batches /\
    Forall (fun batch => Z.of_nat (List.length batch) = b) (removelast batches) /\
    Z.of_nat (List.length batches) = (Z.of_nat (List.length texts) + b - 1) / b.
Proof.
  intros Hb.
  set (n := Z.of_nat (List.length texts)).
  assert (Hn : 0 <= n) by (subst n; lia).
  destruct (range_len_bounds n b Hn Hb) as (Hm0 & Hcover & Hlast & Hpos).
  pose proof (range_len_ceil n b Hn Hb) as Hceil.
  set (mz := PyMore.range_len 0 n b) in *.
  set (m := Z.to_nat mz).
  set (B := Z.to_nat b).
  unfold PyMore.range. destruct (Z.eqb_spec b 0) as [?|_]; [lia|].
  fold mz. fold m. eexists. split; [reflexivity|].
  cbv zeta. rewrite map_map.
  assert (Hwin : forall k,
             PyMore.slice (0 + Z.of_nat k * b) (0 + Z.of_nat k * b + b) texts =
             firstn B (skipn (k * B) texts)).
  { intros k. rewrite slice_nonneg by lia.
    f_equal; [|f_equal]; subst B; lia. }
  rewrite (map_ext _ _ Hwin).
  assert (Hlen : forall k, (k < m)%nat ->
             List.length (firstn B (skipn (k * B) texts)) =
             Nat.min B (List.length texts - k * B)).
  { intros k _. rewrite length_firstn, length_skipn. reflexivity. }
  assert (HmZ : Z.of_nat m = mz) by (subst m; lia).
  assert (HBZ : Z.of_nat B = b) by (subst B; lia).
  assert (Hprod : forall k, Z.of_nat (k * B) = Z.of_nat k * b).
  { intros k. rewrite Nat2Z.inj_mul, HBZ. reflexivity. }
  assert (Hmin : forall k, (k < m)%nat ->
             Z.of_nat (Nat.min B (List.length texts - k * B)) = Z.min b (n - Z.of_nat k * b)).
  { intros k Hk. rewrite Nat2Z.inj_min, HBZ.
    assert (0 < n) by (apply Hpos; lia). specialize (Hlast ltac:(assumption)).
    rewrite Nat2Z.inj_sub; [rewrite Hprod; reflexivity|].
    apply Nat2Z.inj_le. rewrite Hprod. fold n. nia. }
  split; [|split; [|split]].
  - rewrite concat_windows. simpl. rewrite firstn_all2; [reflexivity|].
    apply Nat2Z.inj_le. rewrite Hprod, HmZ. fold n. lia.
  - apply Forall_forall. intros batch Hin.
    apply in_map_iff in Hin. destruct Hin as (k & <- & Hk).
    apply in_seq in Hk. rewrite Hlen by lia.
    assert (0 < n) by (apply Hpos; lia).
    specialize (Hlast ltac:(assumption)).
    pose proof (Hmin k ltac:(lia)) as Hz.
    split; [apply Nat2Z.inj_le; rewrite Hz; change (Z.of_nat 1) with 1; nia
           | rewrite Hz; lia].
  - rewrite removelast_map.
    apply Forall_forall. intros batch Hin.
    apply in_map_iff in Hin. destruct Hin as (k & <- & Hk).
    assert (Hk' : (S k < m)%nat).
    { destruct m as [|m'] eqn:Em; [contradiction|].
      rewrite seq_S in Hk. rewrite removelast_last in Hk.
      apply in_seq in Hk. lia. }
    rewrite Hlen by lia.
    assert (0 < n) by (apply Hpos; lia).
    specialize (Hlast ltac:(assumption)).
    rewrite (Hmin k ltac:(lia)). nia.
  - rewrite length_map, length_seq. rewrite <- Hceil. exact HmZ.
Qed.

End BatchFacts.

(** X20.  For a batch size of at least one, [generate_embeddings_batch] cuts
    the texts into consecutive batches that together are the texts in order:
    every batch holds at least one text, every batch but the last holds
    exactly [batch_size], and there are [ceil(len(texts) / batch_size)] of
    them.  It acquires the rate limiter once before each provider call.
    When every call returns, the result is the calls' results in order; when
    a call raises, that exception is raised at once, no later batch is sent
    and the embeddings already received are dropped. *)
Theorem embeddings_are_requested_batch_by_batch
        (aembed_documents : list string -> RAG.M (list (list float)))
        (texts : list string) (b : Z) :
  1 <= b ->
  exists batches,
    List.concat batches = texts /\
    Forall (fun batch => (1 <= List.length batch)%nat /\ Z.of_nat (List.length batch) <= b)
           batches /\
    Forall (fun batch => Z.of_nat (List.length batch) = b) (removelast batches) /\
    Z.of_nat (List.length batches) = (Z.of_nat (List.length texts) + b - 1) / b /\
    (Forall (fun batch => BatchSpec.returns (aembed_documents batch) = true) batches ->
     AIService.generate_embeddings_batch aembed_documents texts b =
       (flat_map (BatchSpec.batch_call aembed_documents) batches,
        RAG.Returned (flat_map (fun batch => BatchSpec.returned (aembed_documents batch))
                               batches))) /\
    (forall pre failing post e,
        batches = pre ++ failing :: post ->
        Forall (fun batch => BatchSpec.returns (aembed_documents batch) = true) pre ->
        RAG.result (aembed_documents failing) = RAG.Raised e ->
        AIService.generate_embeddings_batch aembed_documents texts b =
          (flat_map (BatchSpec.batch_call aembed_documents) pre
             ++ BatchSpec.batch_call aembed_documents failing,
           RAG.Raised e)).
Proof.
  intros Hb.
  destruct (batches_cover texts b Hb) as (starts & Hrange & Hconcat & Hsizes & Hfull & Hcount).
  cbv zeta in *.
  exists (map (fun i => PyMore.slice i (i + b) texts) starts).
  split; [exact Hconcat|]. split; [exact Hsizes|]. split; [exact Hfull|].
  split; [exact Hcount|].
  unfold AIService.generate_embeddings_batch. rewrite Hrange. split.
  - intros Hall. rewrite embed_batches_returns.
    + rewrite !flat_map_map. reflexivity.
    + apply Forall_forall. intros i Hi.
      rewrite Forall_forall in Hall. apply Hall.
      apply (in_map (fun i => PyMore.slice i (i + b) texts)). exact Hi.
  - intros pre failing post e Hsplit Hpre Hfail.
    apply map_eq_app in Hsplit.
    destruct Hsplit as (spre & srest & -> & <- & Hrest).
    destruct srest as [|i spost]; [discriminate|].
    simpl in Hrest. inversion Hrest; subst failing post.
    rewrite embed_batches_raises with (e := e).
    + rewrite flat_map_map. reflexivity.
    + apply Forall_forall. intros j Hj.
      rewrite Forall_forall in Hpre. apply Hpre.
      apply (in_map (fun i => PyMore.slice i (i + b) texts)). exact Hj.
    + exact Hfail.
Qed.

Lemma embeddings_are_requested_batch_by_batch_witness :
  1 <= 2 /\
  exists batches,
    List.concat batches = ["a"; "b"; "c"] /\
    Z.of_nat (List.length batches) = 2.
Proof.
  split; [lia|].
  destruct (embeddings_are_requested_batch_by_batch
              (fun batch => RAG.ret (map (fun _ => [1%float]) batch)) ["a"; "b"; "c"] 2
              ltac:(lia))
    as (batches & Hconcat & _ & _ & Hcount & _).
  exists batches. split; [exact Hconcat | exact Hcount].
Defined.

(** X21.  A batch size of zero makes [generate_embeddings_batch] raise
    [ValueError] (from [range]) before any call; a negative batch size makes
    it return no embeddings at all, without any call and without an error,
    whatever the texts. *)
Theorem embeddings_batch_size_not_positive
        (aembed_documents : list string -> RAG.M (list (list float)))
        (texts : list string) (b : Z) :
  b <= 0 ->
  AIService.generate_embeddings_batch aembed_documents texts b =
    ([], if b =? 0 then RAG.Raised RAG.ValueError else RAG.Returned []).
Proof.
  intros Hb. unfold AIService.generate_embeddings_batch, PyMore.range.
  destruct (Z.eqb_spec b 0) as [->|Hnz]; [reflexivity|].
  unfold PyMore.range_len.
  destruct (Z.ltb_spec 0 b) as [?|_]; [lia|].
  destruct (Z.ltb_spec (Z.of_nat (List.length texts)) 0) as [?|_]; [lia|].
  reflexivity.
Qed.

Lemma embeddings_batch_size_not_positive_witness :
  -1 <= 0 /\
  AIService.generate_embeddings_batch
    (fun batch => RAG.ret (map (fun _ => [1%float]) batch)) ["a"; "b"; "c"] (-1) =
    ([], RAG.Returned []).
Proof.
  split; [lia|].
  apply (embeddings_batch_size_not_positive
           (fun batch => RAG.ret (map (fun _ => [1%float]) batch)) ["a"; "b"; "c"] (-1)).
  lia.
Defined.

(** X22.  When the provider returns one vector for each text it is given,
    a call of [generate_embeddings_batch] that returns, with a batch size of
    at least one, returns one vector for each text. *)
Theorem one_embedding_per_text
        (aembed_documents : list string -> RAG.M (list (list float)))
        (texts : list string) (b : Z) (out : list (list float)) :
  1 <= b ->
  (forall batch r, RAG.result (aembed_documents batch) = RAG.Returned r ->
                   List.length r = List.length batch) ->
  RAG.result (AIService.generate_embeddings_batch aembed_documents texts b) = RAG.Returned out ->
  List.length out = List.length texts.
Proof.
  intros Hb Hprov Hout.
  destruct (batches_cover texts b Hb) as (starts & Hrange & Hconcat & _).
  cbv zeta in Hconcat.
  unfold AIService.generate_embeddings_batch in Hout. rewrite Hrange in Hout.
  assert (Hgen : forall starts0 acc out,
             RAG.result (AIService.embed_batches aembed_documents texts b starts0 acc)
               = RAG.Returned out ->
             List.length out =
             (List.length acc +
              List.length (List.concat (map (fun i => PyMore.slice i (i + b) texts) starts0)))%nat).
  { clear - Hprov. induction starts0 as [|i starts0 IH]; intros acc out0 Hout.
    - unfold RAG.result, RAG.ret in Hout. simpl in Hout. inversion Hout. simpl. lia.
    - cbn [AIService.embed_batches] in Hout. rewrite !result_bind in Hout.
      cbn [RAG.result RAG.wait_async RAG.emit snd] in Hout.
      destruct (RAG.result (aembed_documents (PyMore.slice i (i + b) texts))) as [r|e] eqn:E;
        [|discriminate].
      apply IH in Hout. cbn [map List.concat]. rewrite length_app in *.
      rewrite (Hprov _ _ E) in Hout. lia. }
  apply Hgen in Hout. rewrite Hconcat in Hout. simpl in Hout. exact Hout.
Qed.

Lemma one_embedding_per_text_witness :
  List.length [[1%float]; [1%float]; [1%float]] = List.length ["a"; "b"; "c"].
Proof.
  apply (one_embedding_per_text
           (fun batch => RAG.ret (map (fun _ => [1%float]) batch)) ["a"; "b"; "c"] 2).
  - lia.
  - intros batch r H. unfold RAG.result, RAG.ret in H. simpl in H. inversion H.
    apply length_map.
  - vm_compute. reflexivity.
Defined.

(* ================================================================== *)
(** * Chunking *)
(* ================================================================== *)

Section ChunkFacts.
Import DocumentProcessor.
Variable split_text : Splitter -> string -> list string.

Lemma index_ge (sub : string) (s : string) :
  forall n m, String.index n sub s = Some m -> (n <= m)%nat.
Proof.
  induction s as [|c s IH]; intros n m H.
  - destruct n; simpl in H; [|discriminate].
    destruct sub; inversion H. lia.
  - destruct n as [|n]; [lia|].
    simpl in H. destruct (String.index n sub s) as [k|] eqn:E; [|discriminate].
    inversion H; subst. apply IH in E. lia.
Qed.

Lemma find_from (sub : string) (start : Z) (s : string) :
  0 <= start ->
  PyMore.find sub start s = -1 \/ start <= PyMore.find sub start s.
Proof.
  intros Hs. unfold PyMore.find.
  destruct (Z.ltb_spec start 0) as [?|_]; [lia|].
  destruct (String.index (Z.to_nat start) sub s) as [m|] eqn:E; [|now left].
  right. apply index_ge in E. lia.
Qed.

Lemma indices_from_S (i : Z) (n : nat) :
  ChunkSpec.indices_from i (S n) = i :: ChunkSpec.indices_from (i + 1) n.
Proof.
  unfold ChunkSpec.indices_from. simpl. f_equal; [lia|].
  rewrite <- seq_shift, map_map. apply map_ext. intros k. lia.
Qed.

Lemma indices_from_app (i : Z) (n m : nat) :
  ChunkSpec.indices_from i (n + m) =
  ChunkSpec.indices_from i n ++ ChunkSpec.indices_from (i + Z.of_nat n) m.
Proof.
  revert i. induction n as [|n IH]; intros i.
  - simpl. replace (i + 0) with i by lia. reflexivity.
  - change (S n + m)%nat with (S (n + m)). rewrite !indices_from_S, IH. simpl.
    do 3 f_equal. lia.
Qed.

(** The loop over the texts of one page. *)
Lemma convert_docs_spec (pn : Z) (pc : string) (docs : list string) :
  forall pos idx chunks,
    0 <= pos ->
    exists g,
      convert_docs pn pc docs pos idx chunks = (chunks ++ g, idx + Z.of_nat (List.length docs)) /\
      map chunk_content g = docs /\
      map chunk_index g = ChunkSpec.indices_from idx (List.length docs) /\
      Forall (fun c => chunk_page_number c = Some pn /\ ChunkSpec.well_placed c /\
                       pos <= start_char c) g /\
      StronglySorted (fun a b => end_char a <= start_char b) g /\
      (docs <> [] ->
       exists c, In c g /\ pos + ChunkSpec.total_length docs <= end_char c).
Proof.
  induction docs as [|d docs IH]; intros pos idx chunks Hpos.
  - exists []. simpl. rewrite app_nil_r, Z.add_0_r.
    repeat split; try constructor. congruence.
  - cbn [convert_docs].
    set (found := PyMore.find (Py.str_slice_to 50 d) pos pc).
    set (st := if found =? -1 then pos else found).
    assert (Hst : pos <= st).
    { subst st. destruct (Z.eqb_spec found (-1)) as [|Hne]; [lia|].
      pose proof (find_from (Py.str_slice_to 50 d) pos pc Hpos) as Hf.
      fold found in Hf. lia. }
    assert (Hlen : 0 <= Py.len_str d) by (unfold Py.len_str; lia).
    set (c0 := {| chunk_content := d; chunk_index := idx; chunk_page_number := Some pn;
                  start_char := st; end_char := st + Py.len_str d;
                  token_count := _estimate_tokens d |}).
    destruct (IH (st + Py.len_str d) (idx + 1) (chunks ++ [c0]) ltac:(lia))
      as (g & Hrun & Hcont & Hidx & Hall & Hsorted & Hcover).
    exists (c0 :: g). rewrite Hrun. split; [|split; [|split; [|split; [|split]]]].
    + rewrite <- app_assoc. cbn [app List.length]. f_equal. lia.
    + simpl. rewrite Hcont. reflexivity.
    + cbn [map List.length]. rewrite indices_from_S, Hidx. reflexivity.
    + constructor.
      * split; [reflexivity|]. split; [|exact Hst].
        unfold ChunkSpec.well_placed. simpl. repeat split. lia.
      * eapply Forall_impl; [|exact Hall].
        intros c (Hp & Hw & Hs). repeat split; try assumption; try apply Hw. lia.
    + constructor; [exact Hsorted|].
      eapply Forall_impl; [|exact Hall]. intros c (_ & _ & Hs). exact Hs.
    + intros _. destruct docs as [|d' docs'].
      * exists c0. split; [now left|]. simpl. lia.
      * destruct (Hcover ltac:(discriminate)) as (c & Hin & Hc).
        exists c. split; [now right|].
        cbn [ChunkSpec.total_length fold_right] in *. lia.
Qed.

(** The loop over the pages. *)
Lemma chunk_pages_spec (sp : Splitter) (pages : list PageInfo) :
  forall idx chunks,
    exists groups,
      chunk_pages split_text sp pages idx chunks = chunks ++ List.concat groups /\
      Forall2 (fun p g =>
                 ChunkSpec.chunks_of_page split_text sp p g /\
                 (split_text sp (content p) <> [] ->
                  exists c, In c g /\
                            ChunkSpec.total_length (split_text sp (content p)) <= end_char c))
              (filter (fun p => negb (ChunkSpec.blank p)) pages) groups /\
      map chunk_index (List.concat groups) =
        ChunkSpec.indices_from idx (List.length (List.concat groups)).
Proof.
  induction pages as [|p pages IH]; intros idx chunks.
  - exists []. simpl. rewrite app_nil_r. repeat split; constructor.
  - cbn [chunk_pages filter].
    assert (Hb : ChunkSpec.blank p = negb (Py.truthy_str (PyMore.strip (content p))))
      by reflexivity.
    rewrite Hb. destruct (negb (Py.truthy_str (PyMore.strip (content p)))) eqn:Eb; cbn [negb].
    + apply IH.
    + destruct (convert_docs_spec (page_number p) (content p)
                  (split_text sp (content p)) 0 idx chunks ltac:(lia))
        as (g & Hrun & Hcont & Hidx & Hall & Hsorted & Hcover).
      rewrite Hrun.
      destruct (IH (idx + Z.of_nat (List.length (split_text sp (content p)))) (chunks ++ g))
        as (groups & Hrun' & Hgroups & Hidx').
      exists (g :: groups). rewrite Hrun'. split; [|split].
      * simpl. rewrite <- app_assoc. reflexivity.
      * constructor; [|exact Hgroups]. split.
        -- split; [exact Hcont|]. split; [|exact Hsorted].
           eapply Forall_impl; [|exact Hall]. intros c (Hp & Hw & _). split; assumption.
        -- intros Hne. destruct (Hcover Hne) as (c & Hin & Hc).
           exists c. split; [exact Hin | lia].
      * cbn [List.concat]. rewrite map_app, length_app, indices_from_app, Hidx, Hidx'.
        assert (Hn : List.length g = List.length (split_text sp (content p))).
        { rewrite <- Hcont. rewrite length_map. reflexivity. }
        rewrite Hn. reflexivity.
Qed.

Lemma Forall2_In_l {X Y : Type} (R : X -> Y -> Prop) (l : list X) (l' : list Y) (x : X) :
  Forall2 R l l' -> In x l -> exists y, In y l' /\ R x y.
Proof.
  induction 1 as [|a b l l' Hab Hrest IH]; intros Hin; [contradiction|].
  destruct Hin as [->|Hin].
  - exists b. split; [now left | exact Hab].
  - destruct (IH Hin) as (y & Hy & Hr). exists y. split; [now right | exact Hr].
Qed.

Lemma indices_from_0 (n : nat) :
  ChunkSpec.indices_from 0 n = map Z.of_nat (seq 0 n).
Proof. unfold ChunkSpec.indices_from. apply map_ext. intros k. lia. Qed.

(** The two chunkers walk the pages alike. *)
Lemma number_docs_of_document (pn base : Z) (docs : list string) :
  forall i,
    map ChunkSpec.of_document (number_docs pn base i docs) =
    map (fun tk => (fst tk, snd tk, Some pn))
        (combine docs (ChunkSpec.indices_from (base + i) (List.length docs))).
Proof.
  induction docs as [|d docs IH]; intros i; [reflexivity|].
  cbn [number_docs map List.length]. rewrite indices_from_S. cbn [combine map].
  rewrite IH. unfold ChunkSpec.of_document at 1. simpl.
  do 4 f_equal. lia.
Qed.

Lemma convert_docs_of_chunk (pn : Z) (pc : string) (docs : list string) :
  forall pos idx chunks,
    map ChunkSpec.of_chunk (fst (convert_docs pn pc docs pos idx chunks)) =
    map ChunkSpec.of_chunk chunks ++
    map (fun tk => (fst tk, snd tk, Some pn))
        (combine docs (ChunkSpec.indices_from idx (List.length docs))) /\
    snd (convert_docs pn pc docs pos idx chunks) = idx + Z.of_nat (List.length docs) /\
    List.length (fst (convert_docs pn pc docs pos idx chunks)) =
      (List.length chunks + List.length docs)%nat.
Proof.
  induction docs as [|d docs IH]; intros pos idx chunks.
  - simpl. rewrite app_nil_r. repeat split; lia.
  - cbn [convert_docs].
    match goal with
    | |- context [convert_docs pn pc docs ?p ?i ?c] =>
        destruct (IH p i c) as (H1 & H2 & H3)
    end.
    rewrite H1, H2, H3. cbn [List.length]. rewrite indices_from_S. cbn [combine map].
    rewrite map_app, length_app. simpl. rewrite <- app_assoc. simpl.
    repeat split; lia.
Qed.

Lemma chunkers_agree (sp : Splitter) (pages : list PageInfo) :
  forall chunks all_docs,
    map ChunkSpec.of_chunk chunks = map ChunkSpec.of_document all_docs ->
    map ChunkSpec.of_chunk
        (chunk_pages split_text sp pages (Z.of_nat (List.length chunks)) chunks) =
    map ChunkSpec.of_document (langchain_pages split_text sp pages all_docs).
Proof.
  induction pages as [|p pages IH]; intros chunks all_docs Hagree; [exact Hagree|].
  cbn [chunk_pages langchain_pages].
  destruct (negb (Py.truthy_str (PyMore.strip (content p)))); [apply IH; exact Hagree|].
  destruct (convert_docs_of_chunk (page_number p) (content p) (split_text sp (content p))
              0 (Z.of_nat (List.length chunks)) chunks) as (H1 & H2 & H3).
  destruct (convert_docs (page_number p) (content p) (split_text sp (content p))
              0 (Z.of_nat (List.length chunks)) chunks) as [chunks' idx'].
  simpl in H1, H2, H3. subst idx'.
  assert (Hlen : List.length chunks = List.length all_docs).
  { apply (f_equal (@List.length _)) in Hagree. rewrite !length_map in Hagree. exact Hagree. }
  replace (Z.of_nat (List.length chunks) + Z.of_nat (List.length (split_text sp (content p))))
    with (Z.of_nat (List.length chunks')) by lia.
  apply IH. rewrite H1, map_app, number_docs_of_document, Hagree, Hlen.
  rewrite Z.add_0_r. reflexivity.
Qed.

End ChunkFacts.
(** X23.  [chunk_text] works page by page over the pages that are not blank:
    the chunks of a page are the splitter's texts for that page, in order,
    under the page's number; each chunk's offsets start at zero or later and
    span exactly its length, its token count is a quarter of its length
    rounded down, and within a page a chunk starts no earlier than the chunk
    before it ends.  Chunk indices count up from zero without a gap across
    the pages. *)
Theorem chunk_text_works_page_by_page
        (split_text : DocumentProcessor.Splitter -> string -> list string)
        (self : DocumentProcessor.Processor) (extracted : DocumentProcessor.ExtractedText)
        (chunk_size chunk_overlap : option Z) :
  let out := DocumentProcessor.chunk_text split_text self extracted chunk_size chunk_overlap in
  let sp := DocumentProcessor.splitter_for self chunk_size chunk_overlap in
  (exists groups,
      out = List.concat groups /\
      Forall2 (ChunkSpec.chunks_of_page split_text sp)
              (ChunkSpec.pages_read extracted) groups) /\
  map DocumentProcessor.chunk_index out = map Z.of_nat (seq 0 (List.length out)).
Proof.
  cbv zeta. unfold DocumentProcessor.chunk_text.
  destruct (chunk_pages_spec split_text
              (DocumentProcessor.splitter_for self chunk_size chunk_overlap)
              (DocumentProcessor.pages extracted) 0 [])
    as (groups & Hrun & Hgroups & Hidx).
  rewrite Hrun. cbn [app]. split.
  - exists groups. split; [reflexivity|].
    unfold ChunkSpec.pages_read.
    eapply Forall2_impl; [|exact Hgroups]. intros p g [H _]. exact H.
  - rewrite Hidx. apply indices_from_0.
Qed.

(** X24.  Without overrides, also when both are given as zero, [chunk_text]
    and [chunk_text_langchain] make the same chunks: the same texts in the
    same order, under the same chunk indices and page numbers. *)
Theorem chunkers_make_the_same_chunks
        (split_text : DocumentProcessor.Splitter -> string -> list string)
        (self : DocumentProcessor.Processor) (extracted : DocumentProcessor.ExtractedText)
        (chunk_size chunk_overlap : option Z) :
  Py.truthy_int chunk_size || Py.truthy_int chunk_overlap = false ->
  map ChunkSpec.of_chunk
      (DocumentProcessor.chunk_text split_text self extracted chunk_size chunk_overlap) =
  map ChunkSpec.of_document
      (DocumentProcessor.chunk_text_langchain split_text self extracted).
Proof.
  intros Hno.
  unfold DocumentProcessor.chunk_text, DocumentProcessor.chunk_text_langchain,
    DocumentProcessor.splitter_for.
  rewrite Hno.
  apply (chunkers_agree split_text (DocumentProcessor.text_splitter self)
           (DocumentProcessor.pages extracted) [] []).
  reflexivity.
Qed.

Lemma chunkers_make_the_same_chunks_witness :
  Py.truthy_int (Some 0) || Py.truthy_int None = false /\
  map ChunkSpec.of_chunk
      (DocumentProcessor.chunk_text ChunkInputs.window_splitter
         (DocumentProcessor.init 4 2) ChunkInputs.two_pages (Some 0) None) =
  [("abcd", 0, Some 1); ("cdef", 1, Some 1); ("gh", 2, Some 3)] /\
  map ChunkSpec.of_document
      (DocumentProcessor.chunk_text_langchain ChunkInputs.window_splitter
         (DocumentProcessor.init 4 2) ChunkInputs.two_pages) =
  [("abcd", 0, Some 1); ("cdef", 1, Some 1); ("gh", 2, Some 3)].
Proof.
  split; [reflexivity|].
  assert (H : map ChunkSpec.of_document
                (DocumentProcessor.chunk_text_langchain ChunkInputs.window_splitter
                   (DocumentProcessor.init 4 2) ChunkInputs.two_pages) =
              [("abcd", 0, Some 1); ("cdef", 1, Some 1); ("gh", 2, Some 3)])
    by (vm_compute; reflexivity).
  split; [|exact H].
  rewrite <- H.
  apply (chunkers_make_the_same_chunks ChunkInputs.window_splitter
           (DocumentProcessor.init 4 2) ChunkInputs.two_pages (Some 0) None).
  reflexivity.
Defined.

(** X25.  The offsets are not always positions in the page.  When the texts
    the splitter returns for a page are together longer than the page, as
    they are when consecutive chunks overlap, some chunk of that page gets an
    [end_char] beyond the end of the page. *)
Theorem offsets_run_past_the_page
        (split_text : DocumentProcessor.Splitter -> string -> list string)
        (self : DocumentProcessor.Processor) (extracted : DocumentProcessor.ExtractedText)
        (chunk_size chunk_overlap : option Z) (p : DocumentProcessor.PageInfo) :
  In p (ChunkSpec.pages_read extracted) ->
  Py.len_str (DocumentProcessor.content p) <
    ChunkSpec.total_length
      (split_text (DocumentProcessor.splitter_for self chunk_size chunk_overlap)
                  (DocumentProcessor.content p)) ->
  exists c,
    In c (DocumentProcessor.chunk_text split_text self extracted chunk_size chunk_overlap) /\
    DocumentProcessor.chunk_page_number c = Some (DocumentProcessor.page_number p) /\
    Py.len_str (DocumentProcessor.content p) < DocumentProcessor.end_char c.
Proof.
  intros Hp Hlong. unfold DocumentProcessor.chunk_text.
  destruct (chunk_pages_spec split_text
              (DocumentProcessor.splitter_for self chunk_size chunk_overlap)
              (DocumentProcessor.pages extracted) 0 [])
    as (groups & Hrun & Hgroups & _).
  rewrite Hrun. cbn [app].
  destruct (Forall2_In_l _ _ _ p Hgroups Hp) as (g & Hg & (Hcont & Hall & _) & Hcover).
  assert (Hne : split_text (DocumentProcessor.splitter_for self chunk_size chunk_overlap)
                           (DocumentProcessor.content p) <> []).
  { intros E. rewrite E in Hlong. unfold Py.len_str in Hlong. simpl in Hlong. lia. }
  destruct (Hcover Hne) as (c & Hin & Hc).
  exists c. split; [|split].
  - apply in_concat. exists g. split; assumption.
  - rewrite Forall_forall in Hall. apply (Hall c Hin).
  - lia.
Qed.

Lemma offsets_run_past_the_page_witness :
  exists c,
    In c (DocumentProcessor.chunk_text ChunkInputs.window_splitter
            (DocumentProcessor.init 4 2) ChunkInputs.one_page None None) /\
    DocumentProcessor.chunk_page_number c = Some 1 /\
    6 < DocumentProcessor.end_char c.
Proof.
  apply (offsets_run_past_the_page ChunkInputs.window_splitter
           (DocumentProcessor.init 4 2) ChunkInputs.one_page None None
           {| DocumentProcessor.page_number := 1; DocumentProcessor.content := "abcdef" |}).
  - vm_compute. left. reflexivity.
  - vm_compute. reflexivity.
Defined.

(** The chunks of the six-character page, cut into runs of four that overlap
    by two: the second chunk is placed after the first. *)
Example chunk_text_of_one_page :
  map (fun c => (DocumentProcessor.chunk_content c,
                 DocumentProcessor.start_char c, DocumentProcessor.end_char c))
      (DocumentProcessor.chunk_text ChunkInputs.window_splitter
         (DocumentProcessor.init 4 2) ChunkInputs.one_page None None) =
  [("abcd", 0, 4); ("cdef", 4, 8)].
Proof. vm_compute. reflexivity. Qed.

(* ================================================================== *)
(** * The in-memory index *)
(* ================================================================== *)

Section IndexFacts.
Import RAG.

Lemma index_docs_loop_filter (chunks : list DocumentChunk) :
  forall docs,
    VectorStore.index_docs_loop chunks docs =
    docs ++ map VectorStore.index_doc
                (filter (fun c => Py.truthy_list (embedding c)) chunks).
Proof.
  induction chunks as [|c chunks IH]; intros docs; simpl.
  - rewrite app_nil_r. reflexivity.
  - destruct (Py.truthy_list (embedding c)); rewrite IH; [|reflexivity].
    rewrite <- app_assoc. reflexivity.
Qed.

Lemma chunks_to_docs_loop_map (chunks : list (DocumentChunk * float)) :
  forall docs,
    map VectorStore.page_content (VectorStore.chunks_to_docs_loop chunks docs) =
    map VectorStore.page_content docs ++ map (fun cs => content (fst cs)) chunks.
Proof.
  induction chunks as [|[c s] chunks IH]; intros docs; simpl.
  - rewrite app_nil_r. reflexivity.
  - rewrite IH, map_app, <- app_assoc. reflexivity.
Qed.

Lemma StronglySorted_filter {X : Type} (R : X -> X -> Prop) (f : X -> bool) (l : list X) :
  StronglySorted R l -> StronglySorted R (filter f l).
Proof.
  induction 1 as [|x l Hs IH Hx]; simpl; [constructor|].
  destruct (f x); [|exact IH]. constructor; [exact IH|].
  rewrite Forall_forall in Hx |- *. intros y Hy. apply Hx.
  apply filter_In in Hy. tauto.
Qed.

End IndexFacts.

(** X26.  [create_in_memory_vectorstore] indexes exactly the chunks of the
    document that have a non-empty stored embedding, in chunk-index order.
    When there is none, among them when the document has no chunks, it
    returns [None] without acquiring the rate limiter; otherwise it acquires
    the rate limiter once, builds the index once, and returns the index or
    raises what the build raised. *)
Theorem vectorstore_indexes_the_embedded_chunks
        (FAISS : Type) (afrom_documents : list VectorStore.LangChainDocument -> RAG.M FAISS)
        (env : RAG.Env) (document_id : RAG.UUID) :
  let docs := map VectorStore.index_doc (IndexSpec.embedded_chunks env document_id) in
  VectorStore.create_in_memory_vectorstore FAISS afrom_documents env document_id =
    match docs with
    | [] => ([], RAG.Returned None)
    | _ :: _ =>
        (RAG.EvWaitAsync :: RAG.trace (afrom_documents docs),
         match RAG.result (afrom_documents docs) with
         | RAG.Returned vectorstore => RAG.Returned (Some vectorstore)
         | RAG.Raised e => RAG.Raised e
         end)
    end /\
  StronglySorted (fun a b => VectorStore.meta_chunk_index a <= VectorStore.meta_chunk_index b)
                 docs.
Proof.
  cbv zeta. split.
  - unfold VectorStore.create_in_memory_vectorstore, IndexSpec.embedded_chunks.
    rewrite index_docs_loop_filter. cbn [app].
    destruct (RAG.select_chunks env document_id) as [|c chunks] eqn:E; [reflexivity|].
    destruct (map VectorStore.index_doc
                (filter (fun c => Py.truthy_list (RAG.embedding c)) (c :: chunks)))
      as [|d docs]; [reflexivity|].
    destruct (afrom_documents (d :: docs)) as [tr [v|e]];
      unfold RAG.bind, RAG.wait_async, RAG.emit, RAG.ret, RAG.trace, RAG.result; simpl;
      rewrite ?app_nil_r; reflexivity.
  - apply StronglySorted_map. apply StronglySorted_filter.
    apply select_chunks_sorted.
Qed.

(* ================================================================== *)
(** * The chat endpoints *)
(* ================================================================== *)

Section ApiFacts.
Import RAG ChatApi.

Lemma get_async_session_calls {A : Type} (h : Handler A) (db : Db) :
  calls (get_async_session h db) = fst (fst (h (begin db))).
Proof.
  unfold get_async_session. destruct (h (begin db)) as [[made [e|a]] s]; reflexivity.
Qed.

Lemma select_session_id (db : Db) (session_id : UUID) (row : SessionRow) :
  select_session db session_id = Some row -> sess_id (session row) = session_id.
Proof.
  unfold select_session. intros H. apply find_some in H. destruct H as [_ H].
  apply String.eqb_eq in H. exact H.
Qed.

Lemma history_ends_with_the_last_turn (messages : list ChatMessage) (m : ChatMessage) (K : Z) :
  1 <= K ->
  exists earlier,
    build_chat_history (messages ++ [m]) K = earlier ++ Spec.replay m.
Proof.
  intros HK. unfold build_chat_history. rewrite history_loop_replay. cbn [app].
  rewrite length_app. cbn [List.length].
  destruct (Z.ltb_spec (K * 2) (Z.of_nat (List.length messages + 1))) as [Hlt|Hge].
  - unfold Py.slice_from.
    destruct (Z.leb_spec 0 (- K * 2)) as [?|_]; [lia|].
    rewrite length_app. cbn [List.length].
    rewrite skipn_app.
    replace (Z.to_nat (Z.max 0 (Z.of_nat (List.length messages + 1) + - K * 2))
             - List.length messages)%nat with 0%nat by lia.
    cbn [skipn]. rewrite flat_map_app. cbn [flat_map]. rewrite app_nil_r.
    eexists. reflexivity.
  - rewrite flat_map_app. cbn [flat_map]. rewrite app_nil_r. eexists. reflexivity.
Qed.

Lemma select_session_update (rows : list SessionRow) (session_id : UUID)
      (f : SessionRow -> SessionRow) (row : SessionRow) :
  (forall r, sess_id (session (f r)) = sess_id (session r)) ->
  List.find (fun r => String.eqb (sess_id (session r)) session_id) rows = Some row ->
  List.find (fun r => String.eqb (sess_id (session r)) session_id)
            (update_row session_id f rows) = Some (f row) /\
  (forall other, other <> session_id ->
     List.find (fun r => String.eqb (sess_id (session r)) other)
               (update_row session_id f rows) =
     List.find (fun r => String.eqb (sess_id (session r)) other) rows).
Proof.
  intros Hid. induction rows as [|r rows IH]; intros Hfind; simpl in *; [discriminate|].
  destruct (String.eqb (sess_id (session r)) session_id) eqn:E.
  - inversion Hfind; subst r. split.
    + simpl. rewrite Hid, E. reflexivity.
    + intros other Hother. simpl. rewrite Hid.
      apply String.eqb_eq in E. rewrite E.
      destruct (String.eqb session_id other) eqn:E'; [|reflexivity].
      apply String.eqb_eq in E'. congruence.
  - destruct (IH Hfind) as [H1 H2]. split.
    + simpl. rewrite E. exact H1.
    + intros other Hother. simpl. rewrite (H2 other Hother). reflexivity.
Qed.

Lemma verify_documents_ready (db : Db) (ids : list UUID) :
  forallb (ApiSpec.ready db) ids = true -> verify_documents db ids = None.
Proof.
  induction ids as [|d ids IH]; simpl; [reflexivity|].
  intros H. apply andb_prop in H. destruct H as [Hd Hrest].
  unfold ApiSpec.ready in Hd. destruct (select_document db d); [|discriminate].
  rewrite Hd. simpl. apply IH. exact Hrest.
Qed.

Lemma verify_documents_first (db : Db) (pre : list UUID) (d : UUID) (post : list UUID) :
  forallb (ApiSpec.ready db) pre = true -> ApiSpec.ready db d = false ->
  verify_documents db (pre ++ d :: post) =
    Some (HTTPException (match select_document db d with None => 404 | Some _ => 400 end)).
Proof.
  induction pre as [|x pre IH]; simpl; intros Hpre Hd.
  - unfold ApiSpec.ready in Hd. destruct (select_document db d); [|reflexivity].
    rewrite Hd. reflexivity.
  - apply andb_prop in Hpre. destruct Hpre as [Hx Hpre].
    unfold ApiSpec.ready in Hx. destruct (select_document db x); [|discriminate].
    rewrite Hx. simpl. apply IH; assumption.
Qed.

End ApiFacts.

(** X27.  A request that fails before the commit leaves the database as it
    was: a question whose answer could not be generated is not kept, nor is
    anything else written for it.  A question to an unknown session is
    refused with 404 and one to a closed session with 400, in both cases
    before any provider call or rate limiter acquisition.  A request that
    fails on the validation of its response has been committed by then: the
    question and the answer stay recorded, with suggestions that are not a
    list of strings.  [multi_document_chat] never writes. *)
Theorem failure_before_the_commit_changes_nothing
        (db : ChatApi.Db) (session_id : RAG.UUID) (request : ChatApi.AskQuestionRequest)
        (multi : ChatApi.MultiDocumentChatRequest) :
  let reply := ChatApi.ask_question db session_id request in
  (forall failure, ChatApi.response reply = inl failure ->
                   failure <> ChatApi.ValidationError ->
                   ChatApi.database reply = db) /\
  (ChatApi.select_session db session_id = None ->
   ChatApi.response reply = inl (ChatApi.HTTPException 404) /\ ChatApi.calls reply = []) /\
  (forall row, ChatApi.select_session db session_id = Some row ->
               ChatApi.is_active row = false ->
   ChatApi.response reply = inl (ChatApi.HTTPException 400) /\ ChatApi.calls reply = []) /\
  (ChatApi.response reply = inl ChatApi.ValidationError ->
   exists a columns,
     RAG.chat_messages (ChatApi.world (ChatApi.database reply)) =
       RAG.chat_messages (ChatApi.world db) ++
       [ApiSpec.user_turn session_id (ChatApi.question request);
        ApiSpec.assistant_turn session_id a] /\
     ChatApi.answer_columns (ChatApi.database reply) =
       ChatApi.answer_columns db ++ [columns] /\
     ChatApi.validate_list_of_str (ChatApi.col_suggested_questions columns) = None) /\
  ChatApi.database (ChatApi.multi_document_chat db multi) = db.
Proof.
  cbv zeta. unfold ChatApi.ask_question, ChatApi.multi_document_chat,
    ChatApi.get_async_session, ChatApi.ask_question_handler,
    ChatApi.multi_document_chat_handler.
  cbn [ChatApi.begin ChatApi.pending].
  split; [|split; [|split; [|split]]].
  - intros failure.
    destruct (ChatApi.select_session db session_id) as [row|]; [|reflexivity].
    destruct (ChatApi.is_active row); cbn [negb]; [|reflexivity].
    destruct (RAG.answer_question _ _ _ _ _ _ _) as [made [a|e]]; [|reflexivity].
    destruct (ChatApi.validate_list_of_str (RAG.suggestions a)); [discriminate|].
    cbn [ChatApi.response]. intros H Hne. inversion H; subst failure. congruence.
  - intros ->. split; reflexivity.
  - intros row -> ->. split; reflexivity.
  - destruct (ChatApi.select_session db session_id) as [row|]; [|discriminate].
    destruct (ChatApi.is_active row); cbn [negb]; [|discriminate].
    destruct (RAG.answer_question _ _ _ _ _ _ _) as [made [a|e]]; [|discriminate].
    destruct (ChatApi.validate_list_of_str (RAG.suggestions a)) eqn:Ev; [discriminate|].
    intros _. exists (RAG.answer a). eexists.
    cbn [ChatApi.database ChatApi.rollback ChatApi.commit ChatApi.committed ChatApi.pending
         ChatApi.update_session ChatApi.add_answer_columns ChatApi.add_message
         ChatApi.begin ChatApi.world ChatApi.with_messages RAG.chat_messages
         ChatApi.answer_columns].
    split; [rewrite <- app_assoc; reflexivity|].
    split; [reflexivity | exact Ev].
  - destruct (ChatApi.verify_documents db (ChatApi.document_ids multi)); [reflexivity|].
    destruct (RAG.answer_multi_document_question _ _ _ _) as [made [a|e]]; reflexivity.
Qed.

(** Suggestions that decode to a JSON string: the request fails, and the
    question and the answer are in the database all the same. *)
Example string_suggestions_fail_after_the_commit :
  let reply :=
    ChatApi.ask_question ApiInputs.db_with_string_suggestions "s1" (ApiInputs.ask "q4") in
  ChatApi.response reply = inl ChatApi.ValidationError /\
  RAG.chat_messages (ChatApi.world (ChatApi.database reply)) =
    RAG.chat_messages (ChatApi.world ApiInputs.db_with_string_suggestions) ++
    [ApiSpec.user_turn "s1" "q4"; ApiSpec.assistant_turn "s1" "It is alpha."] /\
  map ChatApi.col_suggested_questions (ChatApi.answer_columns (ChatApi.database reply)) =
    [RAG.JStr "Wha"].
Proof. cbv zeta. split; [|split]; vm_compute; reflexivity. Qed.

(** A question to the closed session of the library is refused. *)
Example closed_session_is_refused :
  ChatApi.response (ChatApi.ask_question ApiInputs.db "s2" (ApiInputs.ask "what?"))
    = inl (ChatApi.HTTPException 400).
Proof. vm_compute. reflexivity. Qed.

(** X28.  The question is part of its own chat history.  [ask_question]
    stores the user's message before it asks for the answer, so for a
    context window of at least one the history sent to the chat model ends
    with the question just asked, which the prompt then carries twice. *)
Theorem question_is_in_its_own_history
        (db : ChatApi.Db) (session_id : RAG.UUID) (request : ChatApi.AskQuestionRequest)
        (row : ChatApi.SessionRow) (relevant : list (RAG.DocumentChunk * float)) :
  ChatApi.select_session db session_id = Some row ->
  ChatApi.is_active row = true ->
  1 <= RAG.context_window (ChatApi.session row) ->
  RAG.result (RAG.retrieve_relevant_chunks (ChatApi.world db)
                (RAG.sess_document_id (ChatApi.session row))
                (ChatApi.question request) (ChatApi.num_context_chunks request)
                (ChatApi.similarity_threshold request)) = RAG.Returned relevant ->
  exists context earlier,
    In (RAG.EvInvoke
          (RAG.QaPrompt (ChatApi.include_citations request) context
             (ChatApi.question request)
             (earlier ++ [RAG.HumanMessage (ChatApi.question request)])))
       (ChatApi.calls (ChatApi.ask_question db session_id request)).
Proof.
  intros Hrow Hactive HK Hret.
  unfold ChatApi.ask_question. rewrite get_async_session_calls.
  unfold ChatApi.ask_question_handler. cbn [ChatApi.begin ChatApi.pending].
  rewrite Hrow, Hactive. cbn [negb].
  set (um := {| RAG.session_id := session_id; RAG.role := RAG.USER;
                RAG.msg_content := ChatApi.question request |}).
  set (env' := ChatApi.with_messages (ChatApi.world db)
                 (RAG.chat_messages (ChatApi.world db) ++ [um])).
  change (ChatApi.world (ChatApi.pending (ChatApi.add_message (ChatApi.begin db) um)))
    with env'.
  pose proof (answer_question_run env' (ChatApi.session row) (ChatApi.question request)
                (ChatApi.num_context_chunks request) (ChatApi.similarity_threshold request)
                (ChatApi.include_citations request) (ChatApi.include_suggestions request))
    as Hrun.
  cbv zeta in Hrun.
  change (RAG.retrieve_relevant_chunks env' (RAG.sess_document_id (ChatApi.session row))
            (ChatApi.question request) (ChatApi.num_context_chunks request)
            (ChatApi.similarity_threshold request))
    with (RAG.retrieve_relevant_chunks (ChatApi.world db)
            (RAG.sess_document_id (ChatApi.session row))
            (ChatApi.question request) (ChatApi.num_context_chunks request)
            (ChatApi.similarity_threshold request)) in Hrun.
  rewrite Hret in Hrun.
  assert (Hhist : exists earlier,
             RAG.build_chat_history
               (RAG.select_messages env' (RAG.sess_id (ChatApi.session row)))
               (RAG.context_window (ChatApi.session row)) =
             earlier ++ [RAG.HumanMessage (ChatApi.question request)]).
  { rewrite (select_session_id _ _ _ Hrow).
    unfold RAG.select_messages, env'. cbn [RAG.chat_messages ChatApi.with_messages].
    rewrite filter_app. cbn [filter]. subst um. cbn [RAG.session_id].
    rewrite String.eqb_refl.
    destruct (history_ends_with_the_last_turn
                (filter (fun m => String.eqb (RAG.session_id m) session_id)
                        (RAG.chat_messages (ChatApi.world db)))
                {| RAG.session_id := session_id; RAG.role := RAG.USER;
                   RAG.msg_content := ChatApi.question request |}
                _ HK) as (earlier & He).
    exists earlier. exact He. }
  destruct Hhist as (earlier & Hhist).
  unfold MoreSpec.qa_request in Hrun. rewrite Hhist in Hrun.
  eexists. exists earlier.
  destruct (RAG.ainvoke env' _) as [ans|] eqn:Einv.
  - destruct Hrun as (r & Hrun & _). rewrite Hrun.
    destruct (ChatApi.validate_list_of_str (RAG.suggestions r)); cbn [fst];
      apply in_or_app; left; simpl; right; right; right; left; reflexivity.
  - rewrite Hrun. cbn [fst]. simpl. right. right. right. left. reflexivity.
Qed.

Lemma question_is_in_its_own_history_witness :
  exists context earlier,
    In (RAG.EvInvoke (RAG.QaPrompt true context "q4" (earlier ++ [RAG.HumanMessage "q4"])))
       (ChatApi.calls (ChatApi.ask_question ApiInputs.db "s1" (ApiInputs.ask "q4"))).
Proof.
  assert (Hret : RAG.result (RAG.retrieve_relevant_chunks Inputs.library "d1" "q4" 5 0.5%float)
                 = RAG.Returned ?[r]) by (vm_compute; reflexivity).
  exact (question_is_in_its_own_history ApiInputs.db "s1" (ApiInputs.ask "q4") _ _
           eq_refl eq_refl ltac:(simpl; lia) Hret).
Defined.

(** X29.  A question that is answered is recorded in one commit: the user's
    message and the assistant's answer are added to the messages in that
    order, the assistant's row keeps the identifiers of the cited chunks as
    its context chunks, and the session's message count grows by two and its
    token total by the answer's total tokens; no other session changes. *)
Theorem answered_question_is_recorded
        (db : ChatApi.Db) (session_id : RAG.UUID) (request : ChatApi.AskQuestionRequest)
        (r : ChatApi.AskQuestionResponse) :
  let reply := ChatApi.ask_question db session_id request in
  ChatApi.response reply = inr r ->
  exists row columns,
    ChatApi.select_session db session_id = Some row /\
    ChatApi.is_active row = true /\
    RAG.chat_messages (ChatApi.world (ChatApi.database reply)) =
      RAG.chat_messages (ChatApi.world db) ++
      [ApiSpec.user_turn session_id (ChatApi.question request);
       ApiSpec.assistant_turn session_id (ChatApi.resp_content r)] /\
    ChatApi.answer_columns (ChatApi.database reply) = ChatApi.answer_columns db ++ [columns] /\
    ChatApi.col_context_chunks columns =
      map ChatApi.api_chunk_id (ChatApi.resp_citations r) /\
    ChatApi.col_total_tokens columns = ChatApi.resp_total_tokens r /\
    ChatApi.select_session (ChatApi.database reply) session_id =
      Some {| ChatApi.session := ChatApi.session row;
              ChatApi.is_active := true;
              ChatApi.message_count := ChatApi.message_count row + 2;
              ChatApi.total_tokens_used :=
                ChatApi.total_tokens_used row + ChatApi.resp_total_tokens r |} /\
    (forall other, other <> session_id ->
       ChatApi.select_session (ChatApi.database reply) other =
       ChatApi.select_session db other).
Proof.
  cbv zeta. unfold ChatApi.ask_question, ChatApi.get_async_session,
    ChatApi.ask_question_handler.
  cbn [ChatApi.begin ChatApi.pending].
  destruct (ChatApi.select_session db session_id) as [row|] eqn:Hrow; [|discriminate].
  destruct (ChatApi.is_active row) eqn:Hactive; cbn [negb]; [|discriminate].
  destruct (RAG.answer_question _ _ _ _ _ _ _) as [made [a|e]]; [|discriminate].
  destruct (ChatApi.validate_list_of_str (RAG.suggestions a)) as [suggested|];
    [|discriminate].
  cbn [ChatApi.response ChatApi.database]. intros Hr. inversion Hr; subst r; clear Hr.
  exists row. eexists. split; [reflexivity|]. split; [exact Hactive|].
  cbn [ChatApi.commit ChatApi.committed ChatApi.pending ChatApi.update_session
       ChatApi.add_answer_columns ChatApi.add_message ChatApi.begin ChatApi.world
       ChatApi.with_messages RAG.chat_messages ChatApi.answer_columns
       ChatApi.chat_sessions ChatApi.resp_content ChatApi.resp_citations
       ChatApi.resp_total_tokens].
  split; [rewrite <- app_assoc; reflexivity|].
  split; [reflexivity|].
  split; [cbn [ChatApi.col_context_chunks]; rewrite map_map; reflexivity|].
  split; [reflexivity|].
  unfold ChatApi.select_session in *.
  cbn [ChatApi.chat_sessions].
  destruct (select_session_update (ChatApi.chat_sessions db) session_id
              (fun row0 =>
                 {| ChatApi.session := ChatApi.session row0;
                    ChatApi.is_active := ChatApi.is_active row0;
                    ChatApi.message_count := ChatApi.message_count row0 + 2;
                    ChatApi.total_tokens_used :=
                      ChatApi.total_tokens_used row0 + RAG.total_tokens a |})
              row ltac:(reflexivity) Hrow) as [H1 H2].
  split; [rewrite H1, Hactive; reflexivity | exact H2].
Qed.

Lemma answered_question_is_recorded_witness :
  exists r row columns,
    ChatApi.response (ChatApi.ask_question ApiInputs.db "s1" (ApiInputs.ask "q4")) = inr r /\
    ChatApi.select_session ApiInputs.db "s1" = Some row /\
    ChatApi.answer_columns
      (ChatApi.database (ChatApi.ask_question ApiInputs.db "s1" (ApiInputs.ask "q4")))
      = [columns] /\
    ChatApi.select_session
      (ChatApi.database (ChatApi.ask_question ApiInputs.db "s1" (ApiInputs.ask "q4"))) "s1"
      = Some {| ChatApi.session := ChatApi.session row;
                ChatApi.is_active := true;
                ChatApi.message_count := ChatApi.message_count row + 2;
                ChatApi.total_tokens_used :=
                  ChatApi.total_tokens_used row + ChatApi.resp_total_tokens r |}.
Proof.
  assert (Hr : ChatApi.response (ChatApi.ask_question ApiInputs.db "s1" (ApiInputs.ask "q4"))
               = inr ?[r]) by (vm_compute; reflexivity).
  destruct (answered_question_is_recorded ApiInputs.db "s1" (ApiInputs.ask "q4") _ Hr)
    as (row & columns & Hrow & _ & _ & Hcols & _ & _ & Hsess & _).
  eexists. exists row, columns.
  split; [exact Hr|]. split; [exact Hrow|]. split; [exact Hcols | exact Hsess].
Defined.

(** X30.  [multi_document_chat] checks the documents in the order given
    before anything else.  The first one that is missing or not completed
    ends the request, with 404 when it is missing and 400 otherwise, and no
    provider call or rate limiter acquisition has been made by then.  When
    all are completed, the calls made are those of
    [answer_multi_document_question], and a response carries its answer,
    its citations and its documents used, and no suggested questions. *)
Theorem multi_document_chat_checks_documents_first
        (db : ChatApi.Db) (request : ChatApi.MultiDocumentChatRequest) :
  let reply := ChatApi.multi_document_chat db request in
  let run :=
    RAG.answer_multi_document_question (ChatApi.world db) (ChatApi.document_ids request)
      (ChatApi.multi_question request) (ChatApi.num_context_chunks_per_doc request) in
  (forall pre d post,
      ChatApi.document_ids request = pre ++ d :: post ->
      forallb (ApiSpec.ready db) pre = true ->
      ApiSpec.ready db d = false ->
      ChatApi.calls reply = [] /\
      ChatApi.response reply =
        inl (ChatApi.HTTPException
               (match ChatApi.select_document db d with None => 404 | Some _ => 400 end))) /\
  (forallb (ApiSpec.ready db) (ChatApi.document_ids request) = true ->
   ChatApi.calls reply = RAG.trace run /\
   (forall e, RAG.result run = RAG.Raised e ->
              ChatApi.response reply = inl (ChatApi.Unhandled e)) /\
   (forall a, RAG.result run = RAG.Returned a ->
              exists r,
                ChatApi.response reply = inr r /\
                ChatApi.multi_resp_answer r = RAG.multi_answer a /\
                ChatApi.multi_resp_citations r =
                  map ChatApi.api_citation (RAG.multi_citations a) /\
                ChatApi.multi_resp_documents_used r = RAG.documents_used a /\
                ChatApi.multi_resp_suggested_questions r = [])).
Proof.
  cbv zeta. unfold ChatApi.multi_document_chat, ChatApi.get_async_session,
    ChatApi.multi_document_chat_handler.
  cbn [ChatApi.begin ChatApi.pending]. split.
  - intros pre d post Hids Hpre Hd.
    rewrite Hids, (verify_documents_first db pre d post Hpre Hd). split; reflexivity.
  - intros Hall. rewrite (verify_documents_ready db _ Hall).
    unfold RAG.trace, RAG.result.
    destruct (RAG.answer_multi_document_question _ _ _ _) as [made [a|e]];
      cbn [fst snd ChatApi.calls ChatApi.response].
    + split; [reflexivity|]. split; [discriminate|].
      intros a' Ha. inversion Ha; subst a'. eexists. repeat split.
    + split; [reflexivity|]. split; [|discriminate].
      intros e' He. inversion He. reflexivity.
Qed.

(** A document that is still being embedded stops the request, although the
    first document is ready. *)
Example unfinished_document_is_refused :
  ChatApi.response (ChatApi.multi_document_chat ApiInputs.db (ApiInputs.ask_many ["d1"; "d2"]))
    = inl (ChatApi.HTTPException 400) /\
  ChatApi.response (ChatApi.multi_document_chat ApiInputs.db (ApiInputs.ask_many ["d1"; "d7"]))
    = inl (ChatApi.HTTPException 404) /\
  exists r,
    ChatApi.response (ChatApi.multi_document_chat ApiInputs.db (ApiInputs.ask_many ["d1"]))
      = inr r.
Proof.
  split; [vm_compute; reflexivity|]. split; [vm_compute; reflexivity|].
  eexists. vm_compute. reflexivity.
Qed.
